(** * Smart ATS: a shallow embedding of [app.py]

    The helper functions of the Streamlit script are embedded as Rocq
    functions: [safe_json_parse], the match-percentage normalization of the
    evaluation handler, [generate_pdf], [get_gemini_response],
    [input_pdf_text] and the script body with its session state.

    Python values are modelled by [pyval]; a Python [str] is the list of its
    code points.  Calls into the outside world (the generation service,
    PyPDF2, pdf2image, pytesseract, Streamlit widgets) are recorded in a
    trace of events. *)

From Stdlib Require Import List NArith ZArith Bool Lia String Ascii.
From stdpp Require Import gmap strings.
Import ListNotations.

Set Warnings "-register-all".

Local Open Scope N_scope.
Local Open Scope list_scope.

(** ** Python strings *)

(** A Python [str] is a sequence of Unicode code points. *)
Abbreviation pystr := (list N).

(** [str "abc"] is the Python literal ['abc']; it is used for ASCII text
    only, every character standing for its own code point. *)
Definition str (s : string) : pystr :=
  List.map N_of_ascii (list_ascii_of_string s).

(** [jstr] reads like [str], with the apostrophe standing for the double
    quote (code point 34), so that JSON text can be written down. *)
Definition jstr (s : string) : pystr :=
  List.map (fun c => if c =? 39 then 34 else c) (str s).

Fixpoint pystr_eqb (a b : pystr) : bool :=
  match a, b with
  | [], [] => true
  | x :: a', y :: b' => (x =? y) && pystr_eqb a' b'
  | _, _ => false
  end.

(** [Py_UNICODE_ISSPACE]: the code points [str.strip()] removes. *)
Definition isspace (c : N) : bool :=
  ((9 <=? c) && (c <=? 13)) || ((28 <=? c) && (c <=? 32))
  || (c =? 133) || (c =? 160) || (c =? 5760)
  || ((8192 <=? c) && (c <=? 8202))
  || (c =? 8232) || (c =? 8233) || (c =? 8239) || (c =? 8287)
  || (c =? 12288).

Fixpoint lstrip (s : pystr) : pystr :=
  match s with
  | c :: s' => if isspace c then lstrip s' else s
  | [] => []
  end.

Definition rstrip (s : pystr) : pystr := rev (lstrip (rev s)).

(** [s.strip()] *)
Definition strip (s : pystr) : pystr := rstrip (lstrip s).

(** [s.split(sep)] for a one-character separator: never the empty list. *)
Fixpoint split (sep : N) (s : pystr) : list pystr :=
  match s with
  | [] => [[]]
  | c :: s' =>
      if c =? sep then [] :: split sep s'
      else match split sep s' with
           | l :: ls => (c :: l) :: ls
           | [] => [[c]]
           end
  end.

(** [s.replace(old, "")] for a one-character [old]. *)
Definition remove_char (old : N) (s : pystr) : pystr :=
  List.filter (fun c => negb (c =? old)) s.

(** ** Python values *)

(** The values the script handles.  A [float] is kept as the numeral it
    was read from; a [dict] keeps its items in insertion order, with
    distinct keys. *)
Inductive pyval : Type :=
| PyNone
| PyBool (b : bool)
| PyInt (z : Z)
| PyFloat (numeral : pystr)
| PyStr (s : pystr)
| PyList (items : list pyval)
| PyDict (items : list (pystr * pyval)).

(** [d[key] = val] *)
Fixpoint dict_set (d : list (pystr * pyval)) (key : pystr) (val : pyval)
  : list (pystr * pyval) :=
  match d with
  | [] => [(key, val)]
  | (k, v) :: d' =>
      if pystr_eqb k key then (k, val) :: d' else (k, v) :: dict_set d' key val
  end.

(** [d.get(key)] on the items of a dict *)
Fixpoint dict_get (d : list (pystr * pyval)) (key : pystr) : option pyval :=
  match d with
  | [] => None
  | (k, v) :: d' => if pystr_eqb k key then Some v else dict_get d' key
  end.

(** ** [json.loads]

    The decoder of the [json] module on a [str], as its scanner reads the
    text: [scan_once] dispatches on the next character, [scanstring] reads a
    string after its opening quote, [parse_pairs] and [parse_items] read the
    members of an object and of an array.  A [JSONDecodeError] (or any other
    exception) is the absence of a result; so are the [RecursionError] of
    a text nested deeper than the interpreter allows and the [ValueError]
    of an [int] with more digits than it converts. *)

Definition ch (a : ascii) : N := N_of_ascii a.
Arguments ch : simpl never.
Definition dquote : N := 34.
Definition backslash : N := 92.

(** The [WHITESPACE] of the decoder: space, tab, line feed, carriage return. *)
Definition json_ws (c : N) : bool :=
  (c =? 32) || (c =? 9) || (c =? 10) || (c =? 13).

Fixpoint skip_ws (s : pystr) : pystr :=
  match s with
  | c :: s' => if json_ws c then skip_ws s' else s
  | [] => []
  end.

Definition is_digit (c : N) : bool := (48 <=? c) && (c <=? 57).

Definition hex_digit (c : N) : option N :=
  if is_digit c then Some (c - 48)
  else if (97 <=? c) && (c <=? 102) then Some (c - 87)
  else if (65 <=? c) && (c <=? 70) then Some (c - 55)
  else None.

Definition hex4 (a b c d : N) : option N :=
  match hex_digit a, hex_digit b, hex_digit c, hex_digit d with
  | Some x, Some y, Some z, Some w => Some (((x * 16 + y) * 16 + z) * 16 + w)
  | _, _, _, _ => None
  end.

Definition is_high_surrogate (u : N) : bool := (55296 <=? u) && (u <=? 56319).
Definition is_low_surrogate (u : N) : bool := (56320 <=? u) && (u <=? 57343).
Definition join_surrogates (hi lo : N) : N :=
  65536 + (hi - 55296) * 1024 + (lo - 56320).

(** The one-character escapes after a backslash. *)
Definition unescape (e : N) : option N :=
  if (e =? dquote) || (e =? backslash) || (e =? ch "/") then Some e
  else if e =? ch "b" then Some 8
  else if e =? ch "f" then Some 12
  else if e =? ch "n" then Some 10
  else if e =? ch "r" then Some 13
  else if e =? ch "t" then Some 9
  else None.

Definition scanned_cons (c : N) (r : option (pystr * pystr))
  : option (pystr * pystr) :=
  match r with
  | Some (body, rest) => Some (c :: body, rest)
  | None => None
  end.

(** [scanstring] in strict mode, from the character after the opening
    quote: the decoded string and the text after the closing quote.  A
    [\uXXXX] escape needs a further character after its four digits, and a
    high surrogate is joined with a low one that follows it. *)
Fixpoint scanstring (s : pystr) : option (pystr * pystr) :=
  match s with
  | [] => None
  | c :: s1 =>
      if c =? dquote then Some ([], s1)
      else if c =? backslash then
        match s1 with
        | [] => None
        | e :: s2 =>
            if e =? ch "u" then
              match s2 with
              | h1 :: h2 :: h3 :: h4 :: ((_ :: _) as s3) =>
                  match hex4 h1 h2 h3 h4 with
                  | None => None
                  | Some u =>
                      if is_high_surrogate u then
                        match s3 with
                        | b :: v :: g1 :: g2 :: g3 :: g4 :: ((_ :: _) as s4) =>
                            if (b =? backslash) && (v =? ch "u") then
                              match hex4 g1 g2 g3 g4 with
                              | None => None
                              | Some u2 =>
                                  if is_low_surrogate u2
                                  then scanned_cons (join_surrogates u u2)
                                                    (scanstring s4)
                                  else scanned_cons u (scanstring s3)
                              end
                            else scanned_cons u (scanstring s3)
                        | _ => scanned_cons u (scanstring s3)
                        end
                      else scanned_cons u (scanstring s3)
                  end
              | _ => None
              end
            else
              match unescape e with
              | Some c' => scanned_cons c' (scanstring s2)
              | None => None
              end
        end
      else if c <=? 31 then None
      else scanned_cons c (scanstring s1)
  end.

(** [strip_prefix p s] is the text after [p] when [s] starts with [p]. *)
Fixpoint strip_prefix (p s : pystr) : option pystr :=
  match p, s with
  | [], _ => Some s
  | a :: p', b :: s' => if a =? b then strip_prefix p' s' else None
  | _ :: _, [] => None
  end.

Fixpoint take_digits (s : pystr) : pystr * pystr :=
  match s with
  | c :: s' =>
      if is_digit c then let (ds, r) := take_digits s' in (c :: ds, r)
      else ([], s)
  | [] => ([], [])
  end.

(** The value of a run of ASCII digits. *)
Definition decimal (ds : pystr) : Z :=
  fold_left (fun acc c => (acc * 10 + Z.of_N (c - 48))%Z) ds 0%Z.

(** ** What the Python runtime decides

    Four facts about the interpreter are left open: the decimal value of a
    code point outside ASCII ([Py_UNICODE_TODECIMAL]), whether the [float]
    read from a numeral is nonzero, how a value that is not a [str] is
    formatted inside the f-strings of the prompts and of the keyword list,
    and how much of the recursion limit is left when [json.loads] is
    called. *)
Class PyRuntime : Type := {
  unicode_decimal : N -> option N;
  float_nonzero : pystr -> bool;
  py_format : pyval -> pystr;
  spare_depth : nat
}.

(** The containers [json.loads] can nest before the scanner's
    [Py_EnterRecursiveCall] raises a [RecursionError]: the script calls it
    a few frames below the top of the stack, which leaves room for two
    levels, the depth of the record the prompt asks for, and for
    [spare_depth] more. *)
Definition json_depth {rt : PyRuntime} : nat := S (S spare_depth).

(** The largest number of digits [int()] converts
    ([sys.int_info.default_max_str_digits]); the script does not change
    it. *)
Definition int_max_str_digits : N := 4300.

(** [_match_number]: an optional minus, [0] or a run of digits not
    starting with [0], then an optional fraction and an optional exponent,
    each taken only when complete.  Without fraction and exponent the
    numeral is an [int], else a [float].  The [int] is built by the
    conversion [int()] uses, which raises a [ValueError] when the numeral
    has more than [int_max_str_digits] digits; [None] stands for that
    exception too, since either way [json.loads] raises. *)
Definition match_number (s : pystr) : option (pyval * pystr) :=
  let '(neg, s1) :=
    match s with
    | c :: s' => if c =? ch "-" then (true, s') else (false, s)
    | [] => (false, s)
    end in
  match s1 with
  | [] => None
  | c :: s2 =>
      let int_part :=
        if (49 <=? c) && (c <=? 57)
        then let (ds, r) := take_digits s2 in Some (c :: ds, r)
        else if c =? 48 then Some ([c], s2)
        else None in
      match int_part with
      | None => None
      | Some (ip, r1) =>
          let '(frac, r2) :=
            match r1 with
            | d :: f :: r' =>
                if (d =? ch ".") && is_digit f
                then let (ds, r'') := take_digits r' in (d :: f :: ds, r'')
                else ([], r1)
            | _ => ([], r1)
            end in
          let '(expo, r3) :=
            match r2 with
            | e :: r' =>
                if (e =? ch "e") || (e =? ch "E") then
                  let '(sign, r'') :=
                    match r' with
                    | g :: x =>
                        if (g =? ch "-") || (g =? ch "+") then ([g], x)
                        else ([], r')
                    | [] => ([], r')
                    end in
                  let (ds, r''') := take_digits r'' in
                  match ds with
                  | [] => ([], r2)
                  | _ :: _ => (e :: sign ++ ds, r''')
                  end
                else ([], r2)
            | [] => ([], r2)
            end in
          let minus := if neg then [ch "-"] else [] in
          match frac, expo with
          | [], [] =>
              if int_max_str_digits <? N.of_nat (length ip) then None
              else Some (PyInt (if neg then - decimal ip else decimal ip)%Z, r3)
          | _, _ => Some (PyFloat (minus ++ ip ++ frac ++ expo), r3)
          end
      end
  end.

(** The outcome of a scan: a value and the text after it, an exception, or
    an exhausted budget of steps. *)
Inductive scan : Type :=
| Scanned (v : pyval) (rest : pystr)
| ScanError
| OutOfFuel.

(** A literal name ([null], [true], [NaN] ...) when the text starts with
    it; otherwise the scanner falls through to [match_number]. *)
Definition scan_constant (name : string) (v : pyval) (s : pystr) : scan :=
  match strip_prefix (str name) s with
  | Some rest => Scanned v rest
  | None =>
      match match_number s with
      | Some (n, rest) => Scanned n rest
      | None => ScanError
      end
  end.

(** [scan_once] and the two loops it calls; [depth] is the number of
    containers that can still be entered before the recursion limit is
    reached, and the [RecursionError] raised there is a [ScanError]. *)
Fixpoint scan_once (fuel depth : nat) (s : pystr) : scan :=
  match fuel with
  | O => OutOfFuel
  | S fuel =>
      match s with
      | [] => ScanError
      | c :: s1 =>
          if c =? dquote then
            match scanstring s1 with
            | Some (body, rest) => Scanned (PyStr body) rest
            | None => ScanError
            end
          else if c =? ch "{" then
            match depth with
            | O => ScanError
            | S depth' =>
                match skip_ws s1 with
                | d :: s2 =>
                    if d =? ch "}" then Scanned (PyDict []) s2
                    else parse_pairs fuel depth' (d :: s2) []
                | [] => ScanError
                end
            end
          else if c =? ch "[" then
            match depth with
            | O => ScanError
            | S depth' =>
                match skip_ws s1 with
                | d :: s2 =>
                    if d =? ch "]" then Scanned (PyList []) s2
                    else parse_items fuel depth' (d :: s2) []
                | [] => ScanError
                end
            end
          else if c =? ch "n" then scan_constant "null" PyNone s
          else if c =? ch "t" then scan_constant "true" (PyBool true) s
          else if c =? ch "f" then scan_constant "false" (PyBool false) s
          else if c =? ch "N" then scan_constant "NaN" (PyFloat (str "NaN")) s
          else if c =? ch "I"
          then scan_constant "Infinity" (PyFloat (str "Infinity")) s
          else if c =? ch "-"
          then scan_constant "-Infinity" (PyFloat (str "-Infinity")) s
          else
            match match_number s with
            | Some (n, rest) => Scanned n rest
            | None => ScanError
            end
      end
  end

(** The members of an object, from the place where a key is expected;
    [acc] holds the items read so far. *)
with parse_pairs (fuel depth : nat) (s : pystr) (acc : list (pystr * pyval))
  : scan :=
  match fuel with
  | O => OutOfFuel
  | S fuel =>
      match s with
      | [] => ScanError
      | c :: s1 =>
          if c =? dquote then
            match scanstring s1 with
            | None => ScanError
            | Some (key, s2) =>
                match skip_ws s2 with
                | [] => ScanError
                | d :: s3 =>
                    if d =? ch ":" then
                      match scan_once fuel depth (skip_ws s3) with
                      | Scanned val s4 =>
                          let acc' := dict_set acc key val in
                          match skip_ws s4 with
                          | [] => ScanError
                          | e :: s5 =>
                              if e =? ch "}" then Scanned (PyDict acc') s5
                              else if e =? ch ","
                              then parse_pairs fuel depth (skip_ws s5) acc'
                              else ScanError
                          end
                      | ScanError => ScanError
                      | OutOfFuel => OutOfFuel
                      end
                    else ScanError
                end
            end
          else ScanError
      end
  end

(** The elements of an array, from the place where a value is expected. *)
with parse_items (fuel depth : nat) (s : pystr) (acc : list pyval) : scan :=
  match fuel with
  | O => OutOfFuel
  | S fuel =>
      match scan_once fuel depth s with
      | Scanned val s1 =>
          let acc' := acc ++ [val] in
          match skip_ws s1 with
          | [] => ScanError
          | e :: s2 =>
              if e =? ch "]" then Scanned (PyList acc') s2
              else if e =? ch ","
              then parse_items fuel depth (skip_ws s2) acc'
              else ScanError
          end
      | ScanError => ScanError
      | OutOfFuel => OutOfFuel
      end
  end.

(** [json.loads(s)]: no byte-order mark, one value between optional
    whitespace, nothing after it; [None] stands for any exception.  The
    budget of steps given to [scan_once] is never exhausted (lemma
    [scan_once_fuel]). *)
Definition json_loads {rt : PyRuntime} (s : pystr) : option pyval :=
  match s with
  | 65279 :: _ => None
  | _ =>
      match scan_once (2 * length s + 1) json_depth (skip_ws s) with
      | Scanned v rest =>
          match skip_ws rest with
          | [] => Some v
          | _ :: _ => None
          end
      | ScanError => None
      | OutOfFuel => None
      end
  end.

(** ** [safe_json_parse] *)

(** The greedy [.*\}] of the pattern under [re.DOTALL]: the longest prefix
    of [s] that ends in a closing brace. *)
Fixpoint greedy_to_rbrace (s : pystr) : option pystr :=
  match s with
  | [] => None
  | c :: s' =>
      match greedy_to_rbrace s' with
      | Some m => Some (c :: m)
      | None => if c =? ch "}" then Some [c] else None
      end
  end.

(** [re.search(r"\{.*\}", s, re.DOTALL)]: the match at the leftmost
    position where one exists, [match.group(0)]. *)
Fixpoint re_search_braces (s : pystr) : option pystr :=
  match s with
  | [] => None
  | c :: s' =>
      if c =? ch "{" then
        match greedy_to_rbrace s' with
        | Some m => Some (c :: m)
        | None => re_search_braces s'
        end
      else re_search_braces s'
  end.

Definition error_dict (msg : string) (response : pystr) : pyval :=
  PyDict [(str "error", PyStr (str msg)); (str "raw", PyStr response)].

Definition safe_json_parse {rt : PyRuntime} (response : pystr) : pyval :=
  match json_loads response with
  | Some v => v
  | None =>
      match re_search_braces response with
      | Some span =>
          match json_loads span with
          | Some v => v
          | None => error_dict "Failed to parse JSON" response
          end
      | None => error_dict "Invalid response format" response
      end
  end.

(** [key in d] and [d[key]] for a value that is a dict. *)
Definition has_key (v : pyval) (key : string) : bool :=
  match v with
  | PyDict d => match dict_get d (str key) with Some _ => true | None => false end
  | _ => false
  end.

Definition field (v : pyval) (key : string) : option pyval :=
  match v with
  | PyDict d => dict_get d (str key)
  | _ => None
  end.

Definition is_dict (v : pyval) : bool :=
  match v with PyDict _ => true | _ => false end.

Definition is_str (v : pyval) : bool :=
  match v with PyStr _ => true | _ => false end.

(** The inputs of the parsing properties of the specification. *)
Definition nl : pystr := [10].

Definition pure_json_input : pystr :=
  jstr "{'JD Match':'72%','MissingKeywords':['Kubernetes','Go'],'Profile Summary':'X'}".

Definition embedded_json : pystr :=
  jstr "{'JD Match':'50%','MissingKeywords':[],'Profile Summary':'Y'}".

Definition prose_input : pystr :=
  str "Here is the result:" ++ nl ++ embedded_json ++ nl ++ str "Thanks!".

(** ** [int(s)] on a [str]

    The text is first brought to ASCII: an ASCII code point stays, a
    whitespace code point becomes a space, a decimal digit becomes its ASCII
    digit, anything else is refused.  What is read is optional ASCII
    whitespace, an optional sign, digits with single underscores between
    them, and optional whitespace up to the end.  A numeral of more than
    [int_max_str_digits] digits is refused, whatever its value. *)
Section IntOfStr.
Context {rt : PyRuntime}.

Definition int_space (c : N) : bool :=
  if c <? 128 then ((9 <=? c) && (c <=? 13)) || (c =? 32) else isspace c.

Definition int_digit (c : N) : option Z :=
  if c <? 128 then (if is_digit c then Some (Z.of_N (c - 48)) else None)
  else if isspace c then None
  else option_map Z.of_N (unicode_decimal c).

Fixpoint skip_int_space (s : pystr) : pystr :=
  match s with
  | c :: s' => if int_space c then skip_int_space s' else s
  | [] => []
  end.

(** The digits after the first one: the value, the number of digits read
    so far and the text left. *)
Fixpoint int_digits (acc : Z) (count : N) (s : pystr)
  : option (Z * N * pystr) :=
  match s with
  | [] => Some (acc, count, [])
  | c :: s' =>
      match int_digit c with
      | Some d => int_digits (acc * 10 + d)%Z (count + 1) s'
      | None =>
          if c =? ch "_" then
            match s' with
            | c' :: s'' =>
                match int_digit c' with
                | Some d => int_digits (acc * 10 + d)%Z (count + 1) s''
                | None => None
                end
            | [] => None
            end
          else Some (acc, count, s)
      end
  end.

(** [int(s)]; [None] stands for the [ValueError]. *)
Definition py_int (s : pystr) : option Z :=
  let s1 := skip_int_space s in
  let '(neg, s2) :=
    match s1 with
    | c :: s' =>
        if c =? ch "+" then (false, s')
        else if c =? ch "-" then (true, s')
        else (false, s1)
    | [] => (false, s1)
    end in
  match s2 with
  | c :: s3 =>
      match int_digit c with
      | Some d =>
          match int_digits d 1 s3 with
          | Some (z, count, rest) =>
              if int_max_str_digits <? count then None
              else
                match skip_int_space rest with
                | [] => Some (if neg then - z else z)%Z
                | _ :: _ => None
                end
          | None => None
          end
      | None => None
      end
  | [] => None
  end.

(** ** The match percentage of the evaluation handler *)

(** [int(parsed["JD Match"].replace("%", "").strip())]: a missing key, a
    value that is not a [str] and a text that is not an integer all raise,
    which is [None] here. *)
Definition normalize_match (s : pystr) : option Z :=
  py_int (strip (remove_char (ch "%") s)).

Definition match_value (parsed : pyval) : option Z :=
  match field parsed "JD Match" with
  | Some (PyStr s) => normalize_match s
  | _ => None
  end.

(** The normalization as the specification words it: the percent signs
    at the end of the text and the whitespace around it are stripped, the
    rest is read as an integer. *)
Fixpoint drop_percent (r : pystr) : pystr :=
  match r with
  | c :: r' => if c =? ch "%" then drop_percent r' else r
  | [] => []
  end.

Definition drop_trailing_percent (s : pystr) : pystr :=
  rev (drop_percent (rev s)).

Definition normalize_match_as_specified (s : pystr) : option Z :=
  py_int (strip (drop_trailing_percent (strip s))).
End IntOfStr.

(** ** Exceptions and the trace of outside calls *)

(** An exception, with the text [str(e)] gives for it. *)
Inductive exn : Type := Exception (message : pystr).

Definition exn_str (e : exn) : pystr := let 'Exception m := e in m.

Inductive result (A : Type) : Type :=
| Ok (a : A)
| Raise (e : exn).
Arguments Ok {A} a.
Arguments Raise {A} e.

Definition is_raise {A : Type} (r : result A) : bool :=
  match r with Raise _ => true | Ok _ => false end.

(** ** [generate_pdf] *)

(** The flowables of the story; a style is named by its key in the sample
    style sheet. *)
Inductive flowable : Type :=
| Paragraph (text : pystr) (style : string)
| Spacer (width height : Z).

(** A [BytesIO]: its content and its position. *)
Record BytesIO : Type := { getvalue : list N; tell : nat }.

Definition bytesio_new : BytesIO := {| getvalue := []; tell := 0 |}.

(** [buffer.write(data)]: the data replaces what is at the position,
    after zero bytes up to it when the position is past the end. *)
Definition bytesio_write (b : BytesIO) (data : list N) : BytesIO :=
  {| getvalue := firstn (tell b) (getvalue b)
                 ++ repeat 0 (tell b - length (getvalue b))
                 ++ data
                 ++ skipn (tell b + length data) (getvalue b);
     tell := tell b + length data |}.

(** [buffer.seek(pos)] *)
Definition bytesio_seek (b : BytesIO) (pos : nat) : BytesIO :=
  {| getvalue := getvalue b; tell := pos |}.

(** What reportlab decides.  [Paragraph(text, style)] reads [text] as
    markup when it is built and raises where the markup does not parse (a
    [ValueError] for a tag that is never closed, for one):
    [markup_error text] is that exception, if any.  [build_pdf story] is
    the bytes [SimpleDocTemplate(buffer, pagesize=A4).build(story)]
    writes. *)
Class Reportlab : Type := {
  markup_error : pystr -> option exn;
  build_pdf : list flowable -> list N
}.

(** What the body of the loop appends for a line once its paragraph is
    built: nothing for a blank line, else the paragraph and a spacer. *)
Definition add_line (story : list flowable) (line : pystr) : list flowable :=
  match strip line with
  | [] => story
  | _ :: _ => story ++ [Paragraph (strip line) "Normal"; Spacer 1 12]
  end.

(** The story of a text whose paragraphs are all built. *)
Definition make_story (text : pystr) : list flowable :=
  fold_left add_line (split 10 text) [].

(** [Paragraph(text, style)] *)
Definition new_paragraph {rl : Reportlab} (text : pystr) (style : string)
  : result flowable :=
  match markup_error text with
  | Some e => Raise e
  | None => Ok (Paragraph text style)
  end.

(** The loop over the lines as it runs: the first paragraph that cannot
    be built ends it with the exception. *)
Fixpoint story_loop {rl : Reportlab} (lines : list pystr)
         (story : list flowable) : result (list flowable) :=
  match lines with
  | [] => Ok story
  | line :: rest =>
      match strip line with
      | [] => story_loop rest story
      | _ :: _ =>
          match new_paragraph (strip line) "Normal" with
          | Ok p => story_loop rest (story ++ [p; Spacer 1 12])
          | Raise e => Raise e
          end
      end
  end.

Definition generate_pdf {rl : Reportlab} (text : pystr) : result BytesIO :=
  let buffer := bytesio_new in
  match story_loop (split 10 text) [] with
  | Ok story =>
      let buffer := bytesio_write buffer (build_pdf story) in
      Ok (bytesio_seek buffer 0)
  | Raise e => Raise e
  end.

(** The paragraph blocks of a story, in order. *)
Definition paragraphs (story : list flowable) : list pystr :=
  flat_map (fun f => match f with Paragraph t _ => [t] | Spacer _ _ => [] end)
           story.

(** A line is blank when nothing is left of it after [strip]. *)
Definition blank (line : pystr) : bool :=
  match strip line with [] => true | _ :: _ => false end.

(** A line asks nothing of reportlab, or reportlab accepts its text. *)
Definition line_accepted {rl : Reportlab} (line : pystr) : bool :=
  blank line
  || match markup_error (strip line) with
     | None => true
     | Some _ => false
     end.

(** reportlab accepts the text of every line that is not blank. *)
Definition accepted {rl : Reportlab} (text : pystr) : bool :=
  forallb line_accepted (split 10 text).



(** ** Events *)

(** What Streamlit is asked to show. *)
Inductive element : Type :=
| StTitle (body : pystr)
| StText (body : pyval)
| StSubheader (body : pystr)
| StWarning (body : pystr)
| StProgress (match_value : Z)          (* st.progress(match_value / 100) *)
| StMetric (label value : pystr)
| StJson (body : pyval)
| StWrite (body : pystr)
| StInfo (body : pyval)
| StMarkdown (body : pystr)
| StDownloadText (label : pystr) (data : pyval) (file_name : string)
| StDownloadFile (label : pystr) (data : BytesIO) (file_name : string).

Inductive event : Type :=
| Generate (prompt : pystr) (json_mode : bool)   (* model.generate_content *)
| Sleep (seconds : Z)                            (* time.sleep *)
| PdfReaderCall                                  (* pdf.PdfReader *)
| ExtractText                                    (* page.extract_text *)
| FileRead                                       (* uploaded_file.read *)
| ConvertFromBytes                               (* convert_from_bytes *)
| ImageToString                                  (* pytesseract.image_to_string *)
| St (e : element).

Definition is_generate (e : event) : bool :=
  match e with Generate _ _ => true | _ => false end.

Definition is_sleep (e : event) : bool :=
  match e with Sleep _ => true | _ => false end.

(** The events of the OCR fallback. *)
Definition is_ocr (e : event) : bool :=
  match e with
  | FileRead | ConvertFromBytes | ImageToString => true
  | _ => false
  end.

(** The number of service calls in a trace. *)
Definition calls (t : list event) : nat := length (List.filter is_generate t).

(** ** [get_gemini_response] *)

(** A candidate with the texts of its parts, and a response with its
    candidates and what its [text] accessor gives. *)
Record candidate : Type := { parts : list pystr }.

Record response : Type := {
  candidates : list candidate;
  text : result (option pystr)
}.

(** The generation service: what its call number [k] (counted over the
    whole trace) answers to a prompt, and the exception an index out of
    range raises. *)
Class GenAI : Type := {
  generate_content : nat -> pystr -> bool -> result response;
  index_error : exn
}.

(** The cross mark and the text of the failure marker. *)
Definition error_marker : pystr := 10060 :: str " Error generating response: ".

Section Completion.
Context {ai : GenAI}.

(** [response.candidates[0].content.parts[0].text] when there are
    candidates, else [response.text or ""]. *)
Definition response_text (r : response) : result pystr :=
  match candidates r with
  | c :: _ =>
      match parts c with
      | p :: _ => Ok p
      | [] => Raise index_error
      end
  | [] =>
      match text r with
      | Ok (Some s) => Ok s
      | Ok None => Ok []
      | Raise e => Raise e
      end
  end.

(** One pass of the [try] block: the call and the reading of its
    answer. *)
Definition attempt_once (prompt : pystr) (json_mode : bool) (t : list event)
  : result pystr * list event :=
  (match generate_content (calls t) prompt json_mode with
   | Ok r => response_text r
   | Raise e => Raise e
   end,
   t ++ [Generate prompt json_mode]).

(** The loop [for attempt in range(retries)], with [n] iterations left;
    when none is left the function ends without a [return]. *)
Fixpoint retry_loop (n : nat) (attempt retries : Z)
         (prompt : pystr) (json_mode : bool) (t : list event)
  : pyval * list event :=
  match n with
  | O => (PyNone, t)
  | S n' =>
      match attempt_once prompt json_mode t with
      | (Ok s, t1) => (PyStr s, t1)
      | (Raise e, t1) =>
          if (attempt <? retries - 1)%Z
          then retry_loop n' (attempt + 1)%Z retries prompt json_mode
                          (t1 ++ [Sleep 2])
          else (PyStr (error_marker ++ exn_str e), t1)
      end
  end.

(** [get_gemini_response(input_prompt, json_mode, retries)]; building
    the [GenerativeModel] object calls nothing. *)
Definition get_gemini_response (prompt : pystr) (json_mode : bool)
           (retries : Z) (t : list event) : pyval * list event :=
  retry_loop (Z.to_nat retries) 0 retries prompt json_mode t.
End Completion.

(** What a run of failed attempts leaves in the trace: a call, then a
    wait of 2 and a call for every further attempt. *)
Fixpoint failed_attempts (n : nat) (prompt : pystr) (json_mode : bool)
  : list event :=
  match n with
  | O => []
  | S O => [Generate prompt json_mode]
  | S n' => Generate prompt json_mode :: Sleep 2 :: failed_attempts n' prompt json_mode
  end.

(** A service that is down: every call raises. *)
Definition service_down : GenAI :=
  {| generate_content := fun _ _ _ => Raise (Exception (str "503 unavailable"));
     index_error := Exception (str "list index out of range") |}.

(** ** [input_pdf_text] *)

(** PyPDF2, pdf2image and pytesseract on an uploaded file: the reader gives
    the pages or raises, a page gives its text ([None] when it has none) or
    raises; [file_read] is what [uploaded_file.read()] returns where the
    reader left the stream.  [cache_key] is the key under which
    [st.cache_data] stores the result for a file. *)
Class PdfLibs : Type := {
  uploaded : Type;
  page : Type;
  image : Type;
  PdfReader : uploaded -> result (list page);
  extract_text : page -> result (option pystr);
  file_read : uploaded -> list N;
  convert_from_bytes : list N -> result (list image);
  image_to_string : image -> result pystr;
  cache_key : uploaded -> N
}.

Definition ocr_error_marker : pystr :=
  10060 :: str " Error reading PDF (OCR failed): ".

(** [x or ""] *)
Definition or_empty (x : option pystr) : pystr :=
  match x with Some s => s | None => [] end.

Section Extraction.
Context {libs : PdfLibs}.

(** [for page in reader.pages: text += page.extract_text() or ""] *)
Fixpoint extract_pages (pages : list page) (text : pystr) (t : list event)
  : result pystr * list event :=
  match pages with
  | [] => (Ok text, t)
  | p :: ps =>
      match extract_text p with
      | Ok x => extract_pages ps (text ++ or_empty x) (t ++ [ExtractText])
      | Raise e => (Raise e, t ++ [ExtractText])
      end
  end.

(** [for img in images: text += pytesseract.image_to_string(img)] *)
Fixpoint ocr_images (images : list image) (text : pystr) (t : list event)
  : result pystr * list event :=
  match images with
  | [] => (Ok text, t)
  | img :: imgs =>
      match image_to_string img with
      | Ok x => ocr_images imgs (text ++ x) (t ++ [ImageToString])
      | Raise e => (Raise e, t ++ [ImageToString])
      end
  end.

(** The second [try] block. *)
Definition ocr_fallback (f : uploaded) (t : list event)
  : pystr * list event :=
  let t1 := t ++ [FileRead] in
  match convert_from_bytes (file_read f) with
  | Ok images =>
      match ocr_images images [] (t1 ++ [ConvertFromBytes]) with
      | (Ok text, t2) => (text, t2)
      | (Raise e, t2) => (ocr_error_marker ++ exn_str e, t2)
      end
  | Raise e => (ocr_error_marker ++ exn_str e, t1 ++ [ConvertFromBytes])
  end.

(** The first [try] block: the text of the pages, or the exception its
    bare [except] swallows. *)
Definition direct_text (f : uploaded) (t : list event)
  : result pystr * list event :=
  match PdfReader f with
  | Ok pages => extract_pages pages [] (t ++ [PdfReaderCall])
  | Raise e => (Raise e, t ++ [PdfReaderCall])
  end.

(** The body of [input_pdf_text]. *)
Definition input_pdf_text (f : uploaded) (t : list event)
  : pystr * list event :=
  match direct_text f t with
  | (Ok text, t1) =>
      match strip text with
      | _ :: _ => (text, t1)
      | [] => ocr_fallback f t1
      end
  | (Raise _, t1) => ocr_fallback f t1
  end.
End Extraction.

(** A two-page document with a text layer on its first page only, for
    which OCR would fail. *)
Definition two_pages : PdfLibs :=
  {| uploaded := unit;
     page := option pystr;
     image := unit;
     PdfReader := fun _ => Ok [Some (str "Jane Doe "); None];
     extract_text := fun p => Ok p;
     file_read := fun _ => [];
     convert_from_bytes := fun _ => Raise (Exception (str "no pages"));
     image_to_string := fun _ => Ok [];
     cache_key := fun _ => 7 |}.
(** ** The prompt templates

    The literal text of the two templates of [app.py], cut at their
    replacement fields. *)

Definition optimize_head : pystr :=
  str "
    You are a professional resume writer and specialist in ATS optimization. 
    Revise the resume to achieve maximum ATS compatibility (aiming for close to 100%). 
    
    Guidelines:
    1. Impact Framework with Metrics:
    
    Articulate your achievements using the following structure:
    " ++ [8220] ++ str "Accomplished [X] as measured by [Y] metric or percentage by executing [Z]." ++ [8221] ++ str "

    - [X]: What specific result or outcome did you achieve? (e.g., improved revenue, increased efficiency, reduced costs)
    - [Y]: What metric or percentage quantifies the success of your achievement? (e.g., 20% growth, $100K saved, 50% improvement)
    - [Z]: What actions, strategies, or initiatives did you implement to realize this result? (e.g., process overhaul, team collaboration, new technology)

    Example Prompts:
    
    - " ++ [8220] ++ str "Accomplished [X] as measured by [Y] metric or percentage by executing [Z]." ++ [8221] ++ str "
      e.g., Increased sales by 15% as measured by revenue growth by implementing a targeted email marketing campaign.

    - " ++ [8220] ++ str "Accomplished [X] by [Y]% in [Z] time frame by [action]." ++ [8221] ++ str "
      e.g., Reduced customer churn by 30% in 3 months by revamping the onboarding process.





    Job Description:
    ".

Definition optimize_middle : pystr :=
  str "

    Current Resume:
    ".

Definition optimize_tail : pystr :=
  str "

    Return the improved resume text only.
    ".

Definition input_prompt_head : pystr :=
  str "
Hey Act Like a skilled or very experienced ATS(Application Tracking System)
with a deep understanding of tech field, software engineering, data science, data analyst
and big data engineer and (AI PM, Cybersecurity, Generative AI). Your task is to evaluate the resume based on the given job description.
You must consider the job market is very competitive and you should provide 
best assistance for improving the resumes. Assign the percentage Matching based 
on JD and the missing keywords with high accuracy.

Resume:
".

Definition input_prompt_middle : pystr :=
  str "

Job Description:
".

Definition input_prompt_tail : pystr :=
  str "

I want the response in JSON:
{
  " ++ [34] ++ str "JD Match" ++ [34] ++ str ":" ++ [34] ++ str "%" ++ [34] ++ str ",
  " ++ [34] ++ str "MissingKeywords" ++ [34] ++ str ":[],
  " ++ [34] ++ str "Profile Summary" ++ [34] ++ str ":" ++ [34] ++ [34] ++ str "
}
".

(** ** Python operations the script applies to a parsed value *)

(** The decimal numeral of a natural number, most significant digit
    first. *)
Fixpoint digits_of (fuel : nat) (n : N) (acc : pystr) : pystr :=
  match fuel with
  | O => acc
  | S fuel' =>
      let acc' := (48 + n mod 10) :: acc in
      if n <? 10 then acc' else digits_of fuel' (n / 10) acc'
  end.

Definition format_int (z : Z) : pystr :=
  let n := Z.abs_N z in
  (if (z <? 0)%Z then [ch "-"] else [])
  ++ digits_of (S (N.to_nat (N.log2 n))) n [].


(** [bool(v)] *)
Definition truthy {rt : PyRuntime} (v : pyval) : bool :=
  match v with
  | PyNone => false
  | PyBool b => b
  | PyInt z => negb (z =? 0)%Z
  | PyFloat n => float_nonzero n
  | PyStr s => match s with [] => false | _ :: _ => true end
  | PyList l => match l with [] => false | _ :: _ => true end
  | PyDict d => match d with [] => false | _ :: _ => true end
  end.

(** [needle in s] for strings *)
Fixpoint is_infix (needle s : pystr) : bool :=
  match strip_prefix needle s with
  | Some _ => true
  | None => match s with [] => false | _ :: s' => is_infix needle s' end
  end.

(** [key in v], for a [str] key: membership in a dict, a list or a
    string; any other value is not iterable ([None] is the [TypeError]). *)
Definition contains (v : pyval) (key : string) : option bool :=
  match v with
  | PyDict d =>
      Some (match dict_get d (str key) with Some _ => true | None => false end)
  | PyList l =>
      Some (existsb (fun x => match x with
                              | PyStr s => pystr_eqb s (str key)
                              | _ => false
                              end) l)
  | PyStr s => Some (is_infix (str key) s)
  | _ => None
  end.

(** [v.get(key, default)]: only a dict has the method. *)
Definition get (v : pyval) (key : string) (default : pyval) : option pyval :=
  match v with
  | PyDict d =>
      Some (match dict_get d (str key) with Some x => x | None => default end)
  | _ => None
  end.

(** The items [for kw in v] runs over. *)
Definition iterate (v : pyval) : option (list pyval) :=
  match v with
  | PyList l => Some l
  | PyStr s => Some (List.map (fun c => PyStr [c]) s)
  | PyDict d => Some (List.map (fun kv => PyStr (fst kv)) d)
  | _ => None
  end.

(** [f"{v}"]: a string is itself. *)
Definition fstring {rt : PyRuntime} (v : pyval) : pystr :=
  match v with PyStr s => s | _ => py_format v end.

(** [sep.join(items)] *)
Fixpoint join (sep : pystr) (items : list pystr) : pystr :=
  match items with
  | [] => []
  | [x] => x
  | x :: rest => x ++ sep ++ join sep rest
  end.

(** ** The script

    One run of the script is one request.  What a run hands to the next
    one is [session_state] and the memo [st.cache_data] keeps for
    [input_pdf_text]; the trace collects the outside calls.  A run takes
    the job description, the uploaded file and the button that was
    clicked. *)
Record world : Type := {
  session_state : gmap string pyval;
  cache_data : gmap N pystr;
  trace : list event
}.

Inductive click : Type := NoClick | ClickEvaluate | ClickOptimize.

(** A step of the script: a result, or no result when an exception is not
    caught and the run ends there. *)
Definition M (A : Type) : Type := world -> option A * world.

#[export] Instance M_ret : MRet M := fun A a w => (Some a, w).

#[export] Instance M_bind : MBind M := fun A B k m w =>
  match m w with
  | (Some a, w') => k a w'
  | (None, w') => (None, w')
  end.

Definition uncaught {A : Type} : M A := fun w => (None, w).

Definition or_raise {A : Type} (o : option A) : M A :=
  match o with Some a => mret a | None => uncaught end.

(** The value of a call that may raise, outside any [try]. *)
Definition of_result {A : Type} (r : result A) : M A :=
  match r with Ok a => mret a | Raise _ => uncaught end.

(** [try: body except: handler] *)
Definition try_except {A : Type} (body handler : M A) : M A := fun w =>
  match body w with
  | (Some a, w') => (Some a, w')
  | (None, w') => handler w'
  end.

(** A [str] Streamlit can send to the browser: it is encoded as UTF-8,
    which a lone surrogate (as the JSON escape [\ud83d] gives one) does
    not allow. *)
Definition is_surrogate (c : N) : bool := (55296 <=? c) && (c <=? 57343).

Definition encodable (s : pystr) : bool :=
  forallb (fun c => negb (is_surrogate c)) s.

(** A value shown as text: a [str] goes as it is; any other value goes
    through [str()] or [json.dumps], which escape what a string inside it
    holds. *)
Definition encodable_value (v : pyval) : bool :=
  match v with PyStr s => encodable s | _ => true end.

(** Whether a call of Streamlit returns: every text must be encodable,
    [st.progress] takes a value from 0 to 1 only, and the data of a text
    download is a [str]. *)
Definition st_accepts (e : element) : bool :=
  match e with
  | StTitle body | StSubheader body | StWarning body | StWrite body
  | StMarkdown body => encodable body
  | StText body | StInfo body | StJson body => encodable_value body
  | StProgress v => ((0 <=? v) && (v <=? 100))%Z
  | StMetric label value => encodable label && encodable value
  | StDownloadText label data _ =>
      encodable label
      && match data with PyStr s => encodable s | _ => false end
  | StDownloadFile label _ _ => encodable label
  end.

(** A call of Streamlit: the element joins the trace, or the call raises
    and nothing is shown. *)
Definition show (e : element) : M unit := fun w =>
  if st_accepts e then
    (Some tt,
     {| session_state := session_state w; cache_data := cache_data w;
        trace := trace w ++ [St e] |})
  else (None, w).

(** A helper that only extends the trace. *)
Definition traced {A : Type} (f : list event -> A * list event) : M A :=
  fun w =>
    let (a, t) := f (trace w) in
    (Some a,
     {| session_state := session_state w; cache_data := cache_data w;
        trace := t |}).

(** [st.session_state.setdefault(key, value)] *)
Definition setdefault (key : string) (value : pyval) : M unit := fun w =>
  (Some tt,
   match session_state w !! key with
   | Some _ => w
   | None =>
       {| session_state := <[key := value]> (session_state w);
          cache_data := cache_data w; trace := trace w |}
   end).

(** [st.session_state[key] = value] *)
Definition session_set (key : string) (value : pyval) : M unit := fun w =>
  (Some tt,
   {| session_state := <[key := value]> (session_state w);
      cache_data := cache_data w; trace := trace w |}).

(** [st.session_state[key]] *)
Definition session_get (key : string) : M pyval := fun w =>
  (session_state w !! key, w).

Section Script.
Context {rt : PyRuntime} {ai : GenAI} {libs : PdfLibs} {rl : Reportlab}.

(** [input_pdf_text] under [@st.cache_data]: a stored result is returned
    without running the body, a new one is stored. *)
Definition cached_input_pdf_text (f : uploaded) : M pystr := fun w =>
  match cache_data w !! cache_key f with
  | Some text => (Some text, w)
  | None =>
      let (text, t) := input_pdf_text f (trace w) in
      (Some text,
       {| session_state := session_state w;
          cache_data := <[cache_key f := text]> (cache_data w);
          trace := t |})
  end.

(** [input_prompt.format(text=resume_text, jd=jd)] *)
Definition format_input_prompt (resume_text jd : pystr) : pystr :=
  input_prompt_head ++ resume_text ++ input_prompt_middle ++ jd
  ++ input_prompt_tail.

(** [optimize_resume(resume_text, jd)] *)
Definition optimize_resume (resume_text jd : pyval) (t : list event)
  : pyval * list event :=
  let prompt := optimize_head ++ fstring jd ++ optimize_middle
                ++ fstring resume_text ++ optimize_tail in
  get_gemini_response prompt false 3 t.

(** The [try] block around the match percentage: the gauge and the
    metric, or the record itself when the value cannot be read or a call
    of the block raises. *)
Definition show_match (parsed : pyval) : M unit :=
  try_except
    (v ← or_raise (match_value parsed);
     show (StProgress v);;
     show (StMetric (str "JD Match") (format_int v ++ str "%")))
    (show (StJson parsed)).

Definition show_keywords (parsed : pyval) : M unit :=
  kws ← or_raise (get parsed "MissingKeywords" PyNone);
  if truthy kws then
    show (StWrite (str "**Missing Keywords:**"));;
    items ← or_raise (iterate kws);
    show (StWrite (join (str ", ")
                        (List.map (fun kw => [96] ++ fstring kw ++ [96])
                                  items)))
  else mret tt.

Definition show_summary (parsed : pyval) : M unit :=
  summary ← or_raise (get parsed "Profile Summary" PyNone);
  if truthy summary then
    show (StWrite (str "**Profile Summary:**"));;
    show (StInfo summary)
  else mret tt.

(** What the evaluation handler shows for a parsed response. *)
Definition show_evaluation (parsed response : pyval) : M unit :=
  show (StSubheader (128221 :: str " ATS Evaluation"));;
  has_error ← or_raise (contains parsed "error");
  if has_error : bool then
    show (StWarning
            (9888 :: str " Could not parse response, showing raw output:"));;
    raw ← or_raise (get parsed "raw" response);
    show (StText raw)
  else
    show_match parsed;;
    show_keywords parsed;;
    show_summary parsed.

(** The handler of the evaluation button. *)
Definition evaluate (jd : pystr) (uploaded_file : option uploaded) : M unit :=
  match uploaded_file, strip jd with
  | Some f, _ :: _ =>
      resume_text ← cached_input_pdf_text f;
      session_set "resume_text" (PyStr resume_text);;
      session_set "jd" (PyStr jd);;
      let final_prompt := format_input_prompt resume_text jd in
      response ← traced (get_gemini_response final_prompt true 3);
      raw ← or_raise (match response with PyStr s => Some s | _ => None end);
      show_evaluation (safe_json_parse raw) response
  | _, _ =>
      show (StWarning
              (9888 :: str " Please provide both a Job Description and a PDF resume."))
  end.

(** The optimization part, once its button is clicked. *)
Definition optimize : M unit :=
  resume_text ← session_get "resume_text";
  jd ← session_get "jd";
  optimized ← traced (optimize_resume resume_text jd);
  show (StSubheader (9989 :: str " Optimized Resume Preview"));;
  show (StMarkdown (str "```" ++ nl ++ fstring optimized ++ nl ++ str "```"));;
  show (StDownloadText (11015 :: str " Download Optimized Resume (TXT)")
                       optimized "optimized_resume.txt");;
  body ← or_raise (match optimized with PyStr s => Some s | _ => None end);
  pdf_file ← of_result (generate_pdf body);
  show (StDownloadFile (11015 :: str " Download Optimized Resume (PDF)")
                       pdf_file "optimized_resume.pdf").

(** One run of the script. *)
Definition run_script (jd : pystr) (uploaded_file : option uploaded)
           (clicked : click) : M unit :=
  show (StTitle (str "Smart ATS " ++ [128640]));;
  show (StText (PyStr (str
    "Upload your resume and job description to get ATS feedback and optimization")));;
  setdefault "resume_text" PyNone;;
  setdefault "jd" PyNone;;
  (match clicked with
   | ClickEvaluate => evaluate jd uploaded_file
   | _ => mret tt
   end);;
  resume_text ← session_get "resume_text";
  saved_jd ← session_get "jd";
  if truthy resume_text && truthy saved_jd then
    match clicked with
    | ClickOptimize => optimize
    | _ => mret tt
    end
  else mret tt.
End Script.

(** ** Sample instances *)

(** An interpreter that knows no decimal digit outside ASCII and formats
    integers only. *)
Definition plain_runtime : PyRuntime :=
  {| unicode_decimal := fun _ => None;
     float_nonzero := fun _ => true;
     py_format := fun v => match v with PyInt z => format_int z | _ => str "?" end;
     spare_depth := 0 |}.

(** A renderer that accepts every text and writes one byte per
    flowable. *)
Definition counting_renderer : Reportlab :=
  {| markup_error := fun _ => None;
     build_pdf := fun story => List.map (fun _ => 37) story |}.

(** A renderer that refuses a text with a bold tag that is not closed, as
    the paragraph parser of reportlab does. *)
Definition strict_renderer : Reportlab :=
  {| markup_error := fun text =>
       if is_infix (str "<b>") text && negb (is_infix (str "</b>") text)
       then Some (Exception (str "Parse error: saw </para> instead of expected </b>"))
       else None;
     build_pdf := fun story => List.map (fun _ => 37) story |}.

(** A record of the evaluation with a given match text. *)
Definition record_with_match (s : pystr) : pyval :=
  PyDict [(str "JD Match", PyStr s);
          (str "MissingKeywords", PyList []);
          (str "Profile Summary", PyStr (str "X"))].

Definition empty_world : world :=
  {| session_state := ∅; cache_data := ∅; trace := [] |}.

(** The claim on the match percentage as the specification words it: the
    handler reads the field as [normalize_match_as_specified] does. *)
Definition normalization_as_specified (rt : PyRuntime) : Prop :=
  forall s : pystr, normalize_match s = normalize_match_as_specified s.

(** ** The state a run leaves behind *)

(** A step keeps the state: it changes neither the session values nor
    the memo, whether or not it ends in an exception. *)
Definition keeps_state {A : Type} (m : M A) : Prop :=
  forall w : world,
    session_state (snd (m w)) = session_state w
    /\ cache_data (snd (m w)) = cache_data w.

(** The session values after the two [setdefault] calls. *)
Definition with_default (key : string) (value : pyval)
           (s : gmap string pyval) : gmap string pyval :=
  match s !! key with Some _ => s | None => <[key := value]> s end.

Definition initial_session (s : gmap string pyval) : gmap string pyval :=
  with_default "jd" PyNone (with_default "resume_text" PyNone s).

(** A warning is among the events. *)
Definition warned (t : list event) : bool :=
  existsb (fun e => match e with St (StWarning _) => true | _ => false end) t.

(** The claim on when the session values are set as the specification
    words it: a run that leaves other session values behind than it found
    is a successful evaluation, one that ends normally and shows no
    warning. *)
Definition set_after_success
           (rt : PyRuntime) (ai : GenAI) (libs : PdfLibs) (rl : Reportlab)
  : Prop :=
  forall (jd : pystr) (uploaded_file : option uploaded) (clicked : click)
         (w : world),
    warned (trace w) = false ->
    session_state (snd (run_script jd uploaded_file clicked w))
    <> initial_session (session_state w) ->
    fst (run_script jd uploaded_file clicked w) = Some tt
    /\ warned (trace (snd (run_script jd uploaded_file clicked w))) = false.

(** The text of a file: the stored one when the memo has it, else what
    the body of [input_pdf_text] returns. *)
Definition resume_text_of {libs : PdfLibs} (f : uploaded)
           (memo : gmap N pystr) : pystr :=
  match memo !! cache_key f with
  | Some text => text
  | None => fst (input_pdf_text f [])
  end.

(** A world in which an evaluation has already taken place. *)
Definition world_after_evaluation : world :=
  {| session_state :=
       <["jd" := PyStr (str "Rocq engineer")]>
         (<["resume_text" := PyStr (str "Jane Doe ")]> ∅);
     cache_data := <[7 := str "Jane Doe "]> ∅;
     trace := [] |}.

(** The world after the heading and the two [setdefault] calls of a run. *)
Definition after_setup (w : world) : world :=
  {| session_state := initial_session (session_state w);
     cache_data := cache_data w;
     trace := trace w
              ++ [St (StTitle (str "Smart ATS " ++ [128640]));
                  St (StText (PyStr (str
                    "Upload your resume and job description to get ATS feedback and optimization")))] |}.

Section ScriptParts.
Context {rt : PyRuntime} {ai : GenAI} {libs : PdfLibs} {rl : Reportlab}.

(** The handler a click selects, and the part of the script after it. *)
Definition handler (jd : pystr) (uploaded_file : option uploaded)
           (clicked : click) : M unit :=
  match clicked with
  | ClickEvaluate => evaluate jd uploaded_file
  | _ => mret tt
  end.

Definition optimize_part (clicked : click) : M unit :=
  resume_text ← session_get "resume_text";
  saved_jd ← session_get "jd";
  if truthy resume_text && truthy saved_jd then
    match clicked with
    | ClickOptimize => optimize
    | _ => mret tt
    end
  else mret tt.
End ScriptParts.

(** ** Further notions for the properties of the helpers *)

(** What attempt number [k] of the service comes to: the text read from
    its answer, or the exception of the call or of the reading. *)
Definition answer {ai : GenAI} (k : nat) (prompt : pystr) (json_mode : bool)
  : result pystr :=
  match generate_content k prompt json_mode with
  | Ok r => response_text r
  | Raise e => Raise e
  end.

(** [j] failed attempts, each followed by its wait. *)
Fixpoint retried (j : nat) (prompt : pystr) (json_mode : bool) : list event :=
  match j with
  | O => []
  | S j' => Generate prompt json_mode :: Sleep 2 :: retried j' prompt json_mode
  end.

(** A service that fails twice and then answers. *)
Definition flaky_service : GenAI :=
  {| generate_content := fun k _ _ =>
       if (k <? 2)%nat then Raise (Exception (str "429 quota"))
       else Ok {| candidates := [{| parts := [str "Hello"] |}];
                  text := Ok (Some (str "Hello")) |};
     index_error := Exception (str "list index out of range") |}.

(** A service whose answers have a candidate without parts. *)
Definition hollow_service : GenAI :=
  {| generate_content := fun _ _ _ =>
       Ok {| candidates := [{| parts := [] |}]; text := Ok None |};
     index_error := Exception (str "list index out of range") |}.

(** Direct extraction gives nothing for a file: it raises, or its text is
    empty once stripped. *)
Definition nothing_direct {libs : PdfLibs} (f : uploaded) : Prop :=
  match fst (direct_text f []) with
  | Ok text => strip text = []
  | Raise _ => True
  end.

(** A scanned document: two pages without text layer, read by OCR. *)
Definition scanned_pdf : PdfLibs :=
  {| uploaded := unit;
     page := unit;
     image := pystr;
     PdfReader := fun _ => Ok [tt; tt];
     extract_text := fun _ => Ok None;
     file_read := fun _ => [37; 80; 68; 70];
     convert_from_bytes := fun _ => Ok [str "Jane "; str "Doe"];
     image_to_string := fun img => Ok img;
     cache_key := fun _ => 11 |}.

(** A file neither the reader nor the converter accepts. *)
Definition corrupt_pdf : PdfLibs :=
  {| uploaded := unit;
     page := unit;
     image := unit;
     PdfReader := fun _ => Raise (Exception (str "EOF marker not found"));
     extract_text := fun _ => Ok None;
     file_read := fun _ => [];
     convert_from_bytes := fun _ =>
       Raise (Exception (str "Unable to get page count."));
     image_to_string := fun _ => Ok [];
     cache_key := fun _ => 13 |}.

(** The block a line that is not blank adds to the story. *)
Definition block (p : pystr) : list flowable :=
  [Paragraph p "Normal"; Spacer 1 12].

(** The session value a run finds under a key once the defaults are set. *)
Definition stored (key : string) (w : world) : pyval :=
  match session_state w !! key with Some v => v | None => PyNone end.

Definition missing_input_warning : element :=
  StWarning
    (9888 :: str " Please provide both a Job Description and a PDF resume.").

(** The prompt of the optimization for the stored values. *)
Definition optimize_prompt {rt : PyRuntime} (resume_text jd : pyval) : pystr :=
  optimize_head ++ fstring jd ++ optimize_middle ++ fstring resume_text
  ++ optimize_tail.

(** What the optimization shows for a completion [s] before the document
    is made, and the download of the document. *)
Definition optimized_text_view (s : pystr) : list event :=
  [St (StSubheader (9989 :: str " Optimized Resume Preview"));
   St (StMarkdown (str "```" ++ nl ++ s ++ nl ++ str "```"));
   St (StDownloadText (11015 :: str " Download Optimized Resume (TXT)")
                      (PyStr s) "optimized_resume.txt")].

Definition optimized_view (s : pystr) (pdf_file : BytesIO) : list event :=
  optimized_text_view s
  ++ [St (StDownloadFile (11015 :: str " Download Optimized Resume (PDF)")
                         pdf_file "optimized_resume.pdf")].

(** A service that answers every call with the same text. *)
Definition echo_service : GenAI :=
  {| generate_content := fun _ _ _ =>
       Ok {| candidates := [{| parts := [str "Jane Doe" ++ nl ++ str "Engineer"] |}];
             text := Ok None |};
     index_error := Exception (str "list index out of range") |}.

(** What the evaluation shows for a response that could not be parsed. *)
Definition raw_view (raw : pyval) : list event :=
  [St (StSubheader (128221 :: str " ATS Evaluation"));
   St (StWarning (9888 :: str " Could not parse response, showing raw output:"));
   St (StText raw)].

(** What it shows before the raw text. *)
Definition raw_heading : list event :=
  [St (StSubheader (128221 :: str " ATS Evaluation"));
   St (StWarning (9888 :: str " Could not parse response, showing raw output:"))].

(** The line the handler writes for the keywords. *)
Definition keywords_line {rt : PyRuntime} (items : list pyval) : pystr :=
  join (str ", ") (List.map (fun kw => [96] ++ fstring kw ++ [96]) items).

(** The "MissingKeywords" of a record can be listed: the value is absent
    or falsy, or it can be iterated over and Streamlit can encode the line
    of its items. *)
Definition keywords_listable {rt : PyRuntime} (d : list (pystr * pyval))
  : bool :=
  match dict_get d (str "MissingKeywords") with
  | Some v =>
      negb (truthy v)
      || match iterate v with
         | Some items => encodable (keywords_line items)
         | None => false
         end
  | None => true
  end.

(** The "Profile Summary" of a record can be shown: the value is absent
    or falsy, or Streamlit can encode it. *)
Definition summary_showable {rt : PyRuntime} (d : list (pystr * pyval))
  : bool :=
  match dict_get d (str "Profile Summary") with
  | Some v => negb (truthy v) || encodable_value v
  | None => true
  end.

(** What the evaluation shows for a record with an "error" key: its "raw"
    value, or the response when it has none. *)
Definition raw_of (d : list (pystr * pyval)) (response : pyval) : pyval :=
  match dict_get d (str "raw") with Some x => x | None => response end.

Definition extend (w : world) (es : list event) : world :=
  {| session_state := session_state w; cache_data := cache_data w;
     trace := trace w ++ es |}.

(** Padding the match text may carry: whitespace and percent signs. *)
Definition padding (s : pystr) : bool :=
  forallb (fun c => isspace c || (c =? ch "%")) s.

(** The events of the extraction in an evaluation: none when the memo
    holds the file. *)
Definition extraction_events {libs : PdfLibs} (f : uploaded)
           (memo : gmap N pystr) : list event :=
  match memo !! cache_key f with
  | Some _ => []
  | None => snd (input_pdf_text f [])
  end.

(** A service that answers every call with a record of the evaluation. *)
Definition json_service : GenAI :=
  {| generate_content := fun _ _ _ =>
       Ok {| candidates :=
               [{| parts := [jstr "{'JD Match':'85%','MissingKeywords':['Go'],'Profile Summary':'Solid'}"] |}];
             text := Ok None |};
     index_error := Exception (str "list index out of range") |}.

(** An evaluation in which everything fails: neither the reader nor the
    converter accepts the file, and the service is down. *)
Definition failed_evaluation : option unit * world :=
  run_script (rt := plain_runtime) (ai := service_down) (libs := corrupt_pdf)
    (rl := counting_renderer) (str "Rocq engineer") (Some tt) ClickEvaluate
    empty_world.

(** A step adds events to the trace, with at most [n] service calls among
    them, whether or not it ends in an exception. *)
Definition calls_at_most {A : Type} (n : nat) (m : M A) : Prop :=
  forall w : world,
    exists es, trace (snd (m w)) = trace w ++ es /\ (calls es <= n)%nat.

(** * Properties *)

(** ** The scanner consumes text and never exhausts its budget *)

Lemma skip_ws_length (s : pystr) : (length (skip_ws s) <= length s)%nat.
Proof.
  induction s as [|c s IH]; simpl; [lia|].
  destruct (json_ws c); simpl; lia.
Qed.

Lemma scanned_cons_inv c r body rest :
  scanned_cons c r = Some (body, rest) ->
  exists body', r = Some (body', rest) /\ body = c :: body'.
Proof.
  destruct r as [[b' r']|]; simpl; [|discriminate].
  intros H; injection H as <- <-. eauto.
Qed.

Lemma scanstring_length (s : pystr) :
  forall body rest,
    scanstring s = Some (body, rest) -> (length rest < length s)%nat.
Proof.
  enough (Hn : forall n (s : pystr), (length s <= n)%nat ->
             forall body rest, scanstring s = Some (body, rest) ->
                               (length rest < length s)%nat)
    by (intros; eapply Hn; eauto).
  clear s.
  induction n as [|n IH]; intros s Hle body rest H.
  - destruct s; [discriminate | simpl in Hle; lia].
  - assert (Hrec : forall c s' b r,
               (length s' <= n)%nat ->
               scanned_cons c (scanstring s') = Some (b, r) ->
               (length r < length s')%nat).
    { intros c s' b r Hs' Hc.
      apply scanned_cons_inv in Hc as (b' & Hb' & _).
      exact (IH s' Hs' b' r Hb'). }
    destruct s as [|c s1]; [discriminate|]. simpl in Hle.
    cbn [scanstring] in H.
    destruct (c =? dquote).
    { injection H as _ <-. simpl. lia. }
    destruct (c =? backslash).
    2:{ destruct (c <=? 31); [discriminate|].
        apply Hrec in H; simpl; lia. }
    destruct s1 as [|e s2]; [discriminate|]. simpl in Hle.
    destruct (e =? ch "u").
    2:{ destruct (unescape e); [|discriminate].
        apply Hrec in H; simpl; lia. }
    destruct s2 as [|h1 [|h2 [|h3 [|h4 [|x s3]]]]]; try discriminate.
    simpl in Hle.
    destruct (hex4 h1 h2 h3 h4) as [u|]; [|discriminate].
    destruct (is_high_surrogate u).
    2:{ apply Hrec in H; simpl in *; lia. }
    destruct s3 as [|v [|g1 [|g2 [|g3 [|g4 [|y s4]]]]]];
      try (apply Hrec in H; simpl in *; lia).
    all: destruct ((_ =? backslash) && (v =? ch "u"));
      try (apply Hrec in H; simpl in *; lia).
    all: destruct (hex4 g1 g2 g3 g4) as [u2|]; [|discriminate].
    all: destruct (is_low_surrogate u2); apply Hrec in H; simpl in *; lia.
Qed.

Lemma take_digits_length (s : pystr) :
  (length (snd (take_digits s)) <= length s)%nat.
Proof.
  induction s as [|c s IH]; simpl; [lia|].
  destruct (is_digit c); simpl; [|lia].
  destruct (take_digits s); simpl in *; lia.
Qed.

Lemma strip_prefix_length (p s rest : pystr) :
  strip_prefix p s = Some rest -> (length rest + length p = length s)%nat.
Proof.
  revert s; induction p as [|a p IH]; intros [|b s]; simpl; try discriminate.
  - intros H; injection H as <-; reflexivity.
  - intros H; injection H as <-; simpl; lia.
  - destruct (a =? b); [|discriminate]. intros H. apply IH in H. lia.
Qed.

Lemma match_number_length (s : pystr) v rest :
  match_number s = Some (v, rest) -> (length rest < length s)%nat.
Proof.
  unfold match_number.
  destruct s as [|c0 s0]; [discriminate|].
  set (p := if c0 =? ch "-" then (true, s0) else (false, c0 :: s0)).
  assert (Hp : (length (snd p) <= length (c0 :: s0))%nat).
  { subst p; destruct (c0 =? ch "-"); simpl; lia. }
  destruct p as [neg s1]. simpl in Hp.
  destruct s1 as [|c s2]; [discriminate|]. simpl in Hp.
  set (ip := if (49 <=? c) && (c <=? 57)
             then let (ds, r) := take_digits s2 in Some (c :: ds, r)
             else if c =? 48 then Some ([c], s2) else None).
  assert (Hip : forall i r1, ip = Some (i, r1) -> (length r1 <= length s2)%nat).
  { subst ip. intros i r1.
    destruct ((49 <=? c) && (c <=? 57)).
    - pose proof (take_digits_length s2) as Hd.
      destruct (take_digits s2); simpl in Hd.
      intros H; injection H as _ <-; assumption.
    - destruct (c =? 48); [|discriminate].
      intros H; injection H as _ <-; lia. }
  destruct ip as [[i r1]|]; [|discriminate].
  specialize (Hip i r1 eq_refl).
  set (fr := match r1 with
             | d :: f :: r' =>
                 if (d =? ch ".") && is_digit f
                 then let (ds, r'') := take_digits r' in (d :: f :: ds, r'')
                 else ([], r1)
             | _ => ([], r1)
             end).
  assert (Hfr : (length (snd fr) <= length r1)%nat).
  { subst fr. destruct r1 as [|d [|f r']]; try (simpl; lia).
    destruct ((d =? ch ".") && is_digit f); [|simpl; lia].
    pose proof (take_digits_length r') as Hd.
    destruct (take_digits r'); simpl in *; lia. }
  destruct fr as [frac r2]. simpl in Hfr.
  set (ex := match r2 with
             | e :: r' =>
                 if (e =? ch "e") || (e =? ch "E") then
                   let '(sign, r'') :=
                     match r' with
                     | g :: x =>
                         if (g =? ch "-") || (g =? ch "+") then ([g], x)
                         else ([], r')
                     | [] => ([], r')
                     end in
                   let (ds, r''') := take_digits r'' in
                   match ds with
                   | [] => ([], r2)
                   | _ :: _ => (e :: sign ++ ds, r''')
                   end
                 else ([], r2)
             | [] => ([], r2)
             end).
  assert (Hex : (length (snd ex) <= length r2)%nat).
  { subst ex. destruct r2 as [|e r']; [simpl; lia|].
    destruct ((e =? ch "e") || (e =? ch "E")); [|simpl; lia].
    set (sg := match r' with
               | g :: x =>
                   if (g =? ch "-") || (g =? ch "+") then ([g], x)
                   else ([], r')
               | [] => ([], r')
               end).
    assert (Hsg : (length (snd sg) <= length r')%nat).
    { subst sg. destruct r' as [|g x]; [simpl; lia|].
      destruct ((g =? ch "-") || (g =? ch "+")); simpl; lia. }
    destruct sg as [sign r'']. simpl in Hsg.
    pose proof (take_digits_length r'') as Hd.
    destruct (take_digits r'') as [[|? ?] ?]; simpl in *; lia. }
  destruct ex as [expo r3]. simpl in Hex.
  intros H.
  assert (rest = r3) as ->.
  { destruct frac, expo;
      [destruct (int_max_str_digits <? _); [discriminate|] |..];
      injection H as _ <-; reflexivity. }
  simpl. lia.
Qed.

Lemma scan_constant_length name v s v' rest :
  scan_constant name v s = Scanned v' rest ->
  str name <> [] -> (length rest < length s)%nat.
Proof.
  unfold scan_constant. intros H Hname.
  destruct (strip_prefix (str name) s) as [r|] eqn:Hp.
  - injection H as _ <-. apply strip_prefix_length in Hp.
    destruct (str name); [contradiction | simpl in Hp; lia].
  - destruct (match_number s) as [[n r]|] eqn:Hn; [|discriminate].
    injection H as _ <-. eapply match_number_length; eauto.
Qed.

(** Case analysis on the next test of a scanner whose result is known. *)
Ltac scan_case H :=
  match type of H with
  | (if ?b then _ else _) = _ => destruct b eqn:?
  | match ?x with _ => _ end = _ => destruct x eqn:?
  end; try discriminate.

Lemma scan_length (fuel : nat) :
  (forall depth s v r,
      scan_once fuel depth s = Scanned v r -> (length r < length s)%nat)
  /\ (forall depth s acc v r,
         parse_pairs fuel depth s acc = Scanned v r ->
         (length r < length s)%nat)
  /\ (forall depth s acc v r,
         parse_items fuel depth s acc = Scanned v r ->
         (length r < length s)%nat).
Proof.
  induction fuel as [|fuel (IHs & IHp & IHi)];
    [repeat split; intros; discriminate|].
  repeat split.
  - intros depth s v r H. destruct s as [|c s1]; [discriminate|].
    cbn [scan_once] in H.
    repeat (scan_case H);
      try (eapply scan_constant_length in H; [exact H | discriminate]);
      try (destruct p as [? ?]);
      try (injection H as _ <-).
    all: try (match goal with
              | Hs : scanstring _ = Some _ |- _ =>
                  apply scanstring_length in Hs; simpl; lia
              | Hn : match_number _ = Some _ |- _ =>
                  apply match_number_length in Hn; simpl in *; lia
              end).
    all: match goal with
         | Hw : skip_ws ?s1 = _ |- _ =>
             pose proof (skip_ws_length s1) as Hlen; rewrite Hw in Hlen
         end; simpl in *; try lia.
    + apply IHp in H. simpl in H. lia.
    + apply IHi in H. simpl in H. lia.
  - intros depth s acc v r H. destruct s as [|c s1]; [discriminate|].
    cbn [parse_pairs] in H.
    destruct (c =? dquote); [|discriminate].
    destruct (scanstring s1) as [[key s2]|] eqn:Hk; [|discriminate].
    apply scanstring_length in Hk.
    pose proof (skip_ws_length s2) as H2.
    destruct (skip_ws s2) as [|d s3]; [discriminate|].
    destruct (d =? ch ":"); [|discriminate].
    pose proof (skip_ws_length s3) as H3.
    destruct (scan_once fuel depth (skip_ws s3)) as [val s4| |] eqn:Hv;
      try discriminate.
    apply IHs in Hv.
    pose proof (skip_ws_length s4) as H4.
    destruct (skip_ws s4) as [|e s5]; [discriminate|].
    destruct (e =? ch "}").
    { injection H as _ <-. simpl in *. lia. }
    destruct (e =? ch ","); [|discriminate].
    apply IHp in H. pose proof (skip_ws_length s5). simpl in *. lia.
  - intros depth s acc v r H. cbn [parse_items] in H.
    destruct (scan_once fuel depth s) as [val s1| |] eqn:Hv; try discriminate.
    apply IHs in Hv.
    pose proof (skip_ws_length s1) as H1.
    destruct (skip_ws s1) as [|e s2]; [discriminate|].
    destruct (e =? ch "]").
    { injection H as _ <-. simpl in *. lia. }
    destruct (e =? ch ","); [|discriminate].
    apply IHi in H. pose proof (skip_ws_length s2). simpl in *. lia.
Qed.

Lemma scan_constant_fuel name v s : scan_constant name v s <> OutOfFuel.
Proof.
  unfold scan_constant.
  destruct (strip_prefix (str name) s); [discriminate|].
  destruct (match_number s) as [[? ?]|]; discriminate.
Qed.

(** With a budget of twice the length of the text, and one or two more,
    no scanner stops for lack of budget. *)
Lemma scan_fuel (fuel : nat) :
  (forall depth s, (2 * length s + 1 <= fuel)%nat ->
                   scan_once fuel depth s <> OutOfFuel)
  /\ (forall depth s acc, (2 * length s + 1 <= fuel)%nat ->
                          parse_pairs fuel depth s acc <> OutOfFuel)
  /\ (forall depth s acc, (2 * length s + 2 <= fuel)%nat ->
                          parse_items fuel depth s acc <> OutOfFuel).
Proof.
  induction fuel as [|fuel (IHs & IHp & IHi)];
    [repeat split; intros; lia|].
  repeat split.
  - intros depth s Hf. destruct s as [|c s1]; [discriminate|].
    cbn [scan_once]. simpl in Hf.
    destruct (c =? dquote).
    { destruct (scanstring s1) as [[? ?]|]; discriminate. }
    pose proof (skip_ws_length s1) as Hw.
    destruct (c =? ch "{").
    { destruct depth as [|depth]; [discriminate|].
      destruct (skip_ws s1) as [|d s2]; [discriminate|].
      destruct (d =? ch "}"); [discriminate|].
      apply IHp. simpl in *. lia. }
    destruct (c =? ch "[").
    { destruct depth as [|depth]; [discriminate|].
      destruct (skip_ws s1) as [|d s2]; [discriminate|].
      destruct (d =? ch "]"); [discriminate|].
      apply IHi. simpl in *. lia. }
    repeat match goal with
           | |- (if ?b then _ else _) <> _ =>
               destruct b; [apply scan_constant_fuel|]
           end.
    destruct (match_number (c :: s1)) as [[? ?]|]; discriminate.
  - intros depth s acc Hf. destruct s as [|c s1]; [discriminate|].
    cbn [parse_pairs]. simpl in Hf.
    destruct (c =? dquote); [|discriminate].
    destruct (scanstring s1) as [[key s2]|] eqn:Hk; [|discriminate].
    apply scanstring_length in Hk.
    pose proof (skip_ws_length s2) as H2.
    destruct (skip_ws s2) as [|d s3]; [discriminate|].
    destruct (d =? ch ":"); [|discriminate].
    pose proof (skip_ws_length s3) as H3.
    destruct (scan_once fuel depth (skip_ws s3)) as [val s4| |] eqn:Hv;
      [ | discriminate | ].
    + apply (proj1 (scan_length fuel)) in Hv.
      pose proof (skip_ws_length s4) as H4.
      destruct (skip_ws s4) as [|e s5]; [discriminate|].
      destruct (e =? ch "}"); [discriminate|].
      destruct (e =? ch ","); [|discriminate].
      apply IHp. pose proof (skip_ws_length s5). simpl in *. lia.
    + exfalso. revert Hv. apply IHs. simpl in *. lia.
  - intros depth s acc Hf. cbn [parse_items].
    destruct (scan_once fuel depth s) as [val s1| |] eqn:Hv; [ | discriminate | ].
    + apply (proj1 (scan_length fuel)) in Hv.
      pose proof (skip_ws_length s1) as H1.
      destruct (skip_ws s1) as [|e s2]; [discriminate|].
      destruct (e =? ch "]"); [discriminate|].
      destruct (e =? ch ","); [|discriminate].
      apply IHi. pose proof (skip_ws_length s2). simpl in *. lia.
    + exfalso. revert Hv. apply IHs. lia.
Qed.

(** The budget [json_loads] hands to [scan_once] is enough: the decoder
    fails only where the text is not JSON. *)
Lemma scan_once_fuel (depth : nat) (s : pystr) :
  scan_once (2 * length s + 1) depth (skip_ws s) <> OutOfFuel.
Proof.
  apply (proj1 (scan_fuel _)). pose proof (skip_ws_length s). lia.
Qed.

(** ** [safe_json_parse] *)

Lemma pystr_eqb_eq (a b : pystr) : pystr_eqb a b = true <-> a = b.
Proof.
  revert b; induction a as [|x a IH]; intros [|y b]; simpl;
    try (split; [discriminate | discriminate]); [tauto|].
  rewrite andb_true_iff, N.eqb_eq, IH.
  split; [intros [-> ->]; reflexivity | intros H; injection H; auto].
Qed.

(** The greedy part of the pattern ends in a closing brace and leaves no
    closing brace behind it. *)
Lemma greedy_to_rbrace_spec (s m : pystr) :
  greedy_to_rbrace s = Some m ->
  exists post, s = m ++ post
               /\ List.last m 0 = ch "}"
               /\ forallb (fun c => negb (c =? ch "}")) post = true.
Proof.
  revert m; induction s as [|c s IH]; intros m; simpl; [discriminate|].
  destruct (greedy_to_rbrace s) as [m'|] eqn:Hg.
  - intros H; injection H as <-.
    destruct (IH m' eq_refl) as (post & -> & Hlast & Hpost).
    exists post. repeat split; auto.
    destruct m'; [vm_compute in Hlast; discriminate Hlast | exact Hlast].
  - destruct (c =? ch "}") eqn:Hc; [|discriminate].
    intros H; injection H as <-.
    exists s. repeat split.
    + apply N.eqb_eq in Hc. exact Hc.
    + clear IH. induction s as [|d s IHs]; [reflexivity|].
      simpl in Hg |- *.
      destruct (greedy_to_rbrace s); [discriminate|].
      destruct (d =? ch "}"); [discriminate|]. simpl. auto.
Qed.

(** The span [re_search_braces] returns: it starts at the first opening
    brace of the text and runs to its last closing brace. *)
Lemma re_search_braces_spec (s m : pystr) :
  re_search_braces s = Some m ->
  exists pre post,
    s = pre ++ m ++ post
    /\ List.hd 0 m = ch "{" /\ List.last m 0 = ch "}"
    /\ forallb (fun c => negb (c =? ch "{")) pre = true
    /\ forallb (fun c => negb (c =? ch "}")) post = true.
Proof.
  revert m; induction s as [|c s IH]; intros m; simpl; [discriminate|].
  destruct (c =? ch "{") eqn:Hc.
  - destruct (greedy_to_rbrace s) as [g|] eqn:Hg.
    + intros H; injection H as <-.
      destruct (greedy_to_rbrace_spec _ _ Hg) as (post & -> & Hlast & Hpost).
      exists [], post. repeat split; auto.
      * apply N.eqb_eq in Hc. exact Hc.
      * destruct g; [vm_compute in Hlast; discriminate Hlast | exact Hlast].
    + intros H. destruct (IH m H) as (pre & post & -> & _ & Hlast & _ & _).
      exfalso. clear -Hg Hlast.
      assert (Hnone : forall a b, greedy_to_rbrace (a ++ b) = None ->
                                  greedy_to_rbrace b = None).
      { induction a as [|x a IHa]; intros b; simpl; auto.
        destruct (greedy_to_rbrace (a ++ b)) eqn:E; [discriminate|].
        intros _. apply IHa, E. }
      apply Hnone in Hg. clear Hnone.
      assert (Hm : forall (l : pystr) b, List.last l 0 = ch "}" ->
                                 greedy_to_rbrace (l ++ b) <> None).
      { induction l as [|x l IHl]; intros b Hl; [vm_compute in Hl; discriminate Hl|].
        simpl. destruct l as [|y l].
        - simpl in Hl. subst x.
          destruct (greedy_to_rbrace ([] ++ b)); discriminate.
        - specialize (IHl b Hl).
          destruct (greedy_to_rbrace ((y :: l) ++ b)); [discriminate|].
          contradiction. }
      exact (Hm _ _ Hlast Hg).
  - intros H. destruct (IH m H) as (pre & post & -> & Hhd & Hlast & Hpre & Hpost).
    exists (c :: pre), post. repeat split; auto.
    simpl. rewrite Hc. exact Hpre.
Qed.

(** C1: on the pure JSON text of the specification, [safe_json_parse]
    returns a mapping whose "JD Match" is "72%", whose "MissingKeywords" is
    the list of "Kubernetes" and "Go" and whose "Profile Summary" is "X",
    without an "error" key. *)
Theorem safe_json_parse_pure_json {rt : PyRuntime} :
  safe_json_parse pure_json_input
  = PyDict [(str "JD Match", PyStr (str "72%"));
            (str "MissingKeywords",
             PyList [PyStr (str "Kubernetes"); PyStr (str "Go")]);
            (str "Profile Summary", PyStr (str "X"))]
  /\ field (safe_json_parse pure_json_input) "JD Match"
     = Some (PyStr (str "72%"))
  /\ field (safe_json_parse pure_json_input) "MissingKeywords"
     = Some (PyList [PyStr (str "Kubernetes"); PyStr (str "Go")])
  /\ field (safe_json_parse pure_json_input) "Profile Summary"
     = Some (PyStr (str "X"))
  /\ has_key (safe_json_parse pure_json_input) "error" = false.
Proof. vm_compute. repeat split. Qed.

(** C3: on the JSON object wrapped in prose, the direct parse fails, the
    pattern finds the span from the opening to the closing brace across the
    line breaks, and [safe_json_parse] returns the record it returns for
    the object alone: match "50%", no keywords, summary "Y". *)
Theorem safe_json_parse_embedded {rt : PyRuntime} :
  json_loads prose_input = None
  /\ re_search_braces prose_input = Some embedded_json
  /\ safe_json_parse prose_input = safe_json_parse embedded_json
  /\ safe_json_parse prose_input
     = PyDict [(str "JD Match", PyStr (str "50%"));
               (str "MissingKeywords", PyList []);
               (str "Profile Summary", PyStr (str "Y"))].
Proof. vm_compute. repeat split. Qed.

(** C4: when a text parses as JSON neither directly nor through the span
    between braces, [safe_json_parse] returns a record with an "error" key
    whose "raw" field is the text itself. *)
Theorem safe_json_parse_failure {rt : PyRuntime} (response : pystr) :
  json_loads response = None ->
  (forall span, re_search_braces response = Some span ->
                json_loads span = None) ->
  has_key (safe_json_parse response) "error" = true
  /\ field (safe_json_parse response) "raw" = Some (PyStr response)
  /\ exists msg,
      safe_json_parse response
      = PyDict [(str "error", PyStr msg); (str "raw", PyStr response)].
Proof.
  intros Hdirect Hspan. unfold safe_json_parse. rewrite Hdirect.
  destruct (re_search_braces response) as [span|] eqn:Hre.
  - rewrite (Hspan span eq_refl). repeat split; eauto.
  - repeat split; eauto.
Qed.

Lemma safe_json_parse_failure_witness :
  has_key (safe_json_parse (rt := plain_runtime)
             (str "Sorry, {I cannot} help")) "error" = true
  /\ field (safe_json_parse (rt := plain_runtime)
              (str "Sorry, {I cannot} help")) "raw"
     = Some (PyStr (str "Sorry, {I cannot} help"))
  /\ exists msg,
      safe_json_parse (rt := plain_runtime) (str "Sorry, {I cannot} help")
      = PyDict [(str "error", PyStr msg);
                (str "raw", PyStr (str "Sorry, {I cannot} help"))].
Proof.
  apply safe_json_parse_failure.
  - vm_compute. reflexivity.
  - intros span H. vm_compute in H. injection H as <-.
    vm_compute. reflexivity.
Defined.

(** C10: a text that parses directly as a JSON value that is not an
    object is returned as that value: the result is no mapping and carries
    no "error" field. *)
Theorem safe_json_parse_non_object {rt : PyRuntime} (response : pystr)
        (v : pyval) :
  json_loads response = Some v ->
  is_dict v = false ->
  safe_json_parse response = v
  /\ is_dict (safe_json_parse response) = false
  /\ field (safe_json_parse response) "error" = None
  /\ field (safe_json_parse response) "JD Match" = None.
Proof.
  intros Hv Hd. unfold safe_json_parse. rewrite Hv.
  destruct v; try discriminate; repeat split.
Qed.

Lemma safe_json_parse_non_object_witness :
  safe_json_parse (rt := plain_runtime) (str "[1, 2]")
  = PyList [PyInt 1; PyInt 2]
  /\ is_dict (safe_json_parse (rt := plain_runtime) (str "[1, 2]")) = false
  /\ field (safe_json_parse (rt := plain_runtime) (str "[1, 2]")) "error"
     = None
  /\ field (safe_json_parse (rt := plain_runtime) (str "[1, 2]")) "JD Match"
     = None.
Proof.
  apply (safe_json_parse_non_object (str "[1, 2]") (PyList [PyInt 1; PyInt 2])).
  - vm_compute. reflexivity.
  - reflexivity.
Defined.

Example safe_json_parse_number {rt : PyRuntime} :
  safe_json_parse (str "42") = PyInt 42.
Proof. vm_compute. reflexivity. Qed.

Example safe_json_parse_string {rt : PyRuntime} :
  safe_json_parse (jstr "'text'") = PyStr (str "text").
Proof. vm_compute. reflexivity. Qed.

(** ** The match percentage *)

Lemma remove_char_app (c : N) (a b : pystr) :
  remove_char c (a ++ b) = remove_char c a ++ remove_char c b.
Proof. unfold remove_char. apply List.filter_app. Qed.

(** A percent sign is ignored wherever it stands in the text. *)
Lemma normalize_match_percent {rt : PyRuntime} (a b : pystr) :
  normalize_match (a ++ [ch "%"] ++ b) = normalize_match (a ++ b).
Proof.
  unfold normalize_match. now rewrite !remove_char_app.
Qed.

Lemma show_match_fallback {rt : PyRuntime} (parsed : pyval) (w : world) :
  match_value parsed = None ->
  encodable_value parsed = true ->
  show_match parsed w
  = (Some tt,
     {| session_state := session_state w; cache_data := cache_data w;
        trace := trace w ++ [St (StJson parsed)] |}).
Proof.
  intros H Hv. unfold show_match, try_except.
  rewrite H. cbn. unfold show. cbn [st_accepts]. rewrite Hv. reflexivity.
Qed.

(** *** Where the wording of the specification and the handler agree *)

Lemma forallb_rev_eq {A : Type} (f : A -> bool) (l : list A) :
  forallb f (rev l) = forallb f l.
Proof.
  induction l as [|a l IH]; [reflexivity|]. simpl.
  rewrite forallb_app, IH. simpl. rewrite andb_true_r. apply andb_comm.
Qed.

Lemma lstrip_split (s : pystr) :
  exists l, s = l ++ lstrip s /\ forallb isspace l = true.
Proof.
  induction s as [|c s (l & Hs & Hl)]; [exists []; split; reflexivity|].
  simpl. destruct (isspace c) eqn:Hc.
  - exists (c :: l). simpl. rewrite Hc, Hl. split; [congruence | reflexivity].
  - exists []. split; reflexivity.
Qed.

Lemma lstrip_spaces (l x : pystr) :
  forallb isspace l = true -> lstrip (l ++ x) = lstrip x.
Proof.
  induction l as [|c l IH]; simpl; [reflexivity|].
  intros H. apply andb_true_iff in H as [Hc Hl]. rewrite Hc. auto.
Qed.

Lemma lstrip_app (x y : pystr) :
  lstrip x <> [] -> lstrip (x ++ y) = lstrip x ++ y.
Proof.
  induction x as [|c x IH]; simpl; [congruence|].
  destruct (isspace c); [exact IH | reflexivity].
Qed.

Lemma rstrip_spaces (y r : pystr) :
  forallb isspace r = true -> rstrip (y ++ r) = rstrip y.
Proof.
  intros H. unfold rstrip. rewrite rev_app_distr, lstrip_spaces; [reflexivity|].
  now rewrite forallb_rev_eq.
Qed.

(** Whitespace around a text does not change what [strip] leaves of it. *)
Lemma strip_padded (l x r : pystr) :
  forallb isspace l = true -> forallb isspace r = true ->
  strip (l ++ x ++ r) = strip x.
Proof.
  intros Hl Hr. unfold strip. rewrite lstrip_spaces by exact Hl.
  destruct (lstrip x) as [|c t] eqn:Hx.
  - destruct (lstrip_split x) as (lx & Hlx & Hsp).
    rewrite Hx, app_nil_r in Hlx. subst lx.
    rewrite <- (app_nil_r (x ++ r)), lstrip_spaces; [reflexivity|].
    now rewrite forallb_app, Hsp, Hr.
  - rewrite lstrip_app by (rewrite Hx; discriminate).
    rewrite Hx. now apply rstrip_spaces.
Qed.

(** A text is what [strip] leaves of it, between whitespace. *)
Lemma strip_split (s : pystr) :
  exists l r, s = l ++ strip s ++ r
              /\ forallb isspace l = true /\ forallb isspace r = true.
Proof.
  destruct (lstrip_split s) as (l & Hs & Hl).
  destruct (lstrip_split (rev (lstrip s))) as (r & Hr & Hsp).
  exists l, (rev r). repeat split; [|exact Hl|now rewrite forallb_rev_eq].
  unfold strip, rstrip. rewrite <- rev_app_distr, <- Hr, rev_involutive.
  exact Hs.
Qed.

Lemma drop_percent_split (r : pystr) :
  exists p, r = p ++ drop_percent r
            /\ forallb (fun c => c =? ch "%") p = true.
Proof.
  induction r as [|c r (p & Hr & Hp)]; [exists []; split; reflexivity|].
  simpl. destruct (c =? ch "%") eqn:Hc.
  - exists (c :: p). simpl. rewrite Hc, Hp. split; [congruence | reflexivity].
  - exists []. split; reflexivity.
Qed.

Lemma remove_char_spaces (l : pystr) :
  forallb isspace l = true -> remove_char (ch "%") l = l.
Proof.
  induction l as [|c l IH]; [reflexivity|]. simpl.
  intros H. apply andb_true_iff in H as [Hc Hl].
  destruct (c =? ch "%") eqn:Hp.
  - apply N.eqb_eq in Hp. subst c. vm_compute in Hc. discriminate Hc.
  - simpl. now rewrite IH.
Qed.

Lemma remove_char_all (p : pystr) :
  forallb (fun c => c =? ch "%") p = true -> remove_char (ch "%") p = [].
Proof.
  induction p as [|c p IH]; [reflexivity|]. simpl.
  intros H. apply andb_true_iff in H as [Hc Hp]. rewrite Hc. simpl. auto.
Qed.

Lemma remove_char_none (d : pystr) :
  forallb (fun c => negb (c =? ch "%")) d = true ->
  remove_char (ch "%") d = d.
Proof.
  induction d as [|c d IH]; [reflexivity|]. simpl.
  intros H. apply andb_true_iff in H as [Hc Hd]. rewrite Hc. now rewrite IH.
Qed.

(** Whitespace around the text does not count. *)
Lemma normalize_match_padded {rt : PyRuntime} (l s r : pystr) :
  forallb isspace l = true -> forallb isspace r = true ->
  normalize_match (l ++ s ++ r) = normalize_match s.
Proof.
  intros Hl Hr. unfold normalize_match. rewrite !remove_char_app.
  rewrite (remove_char_spaces l Hl), (remove_char_spaces r Hr).
  now rewrite strip_padded.
Qed.

(** When every percent sign of the text stands at its end, the handler
    reads it as the specification words it. *)
Lemma normalize_match_trailing {rt : PyRuntime} (s : pystr) :
  forallb (fun c => negb (c =? ch "%")) (drop_trailing_percent (strip s))
  = true ->
  normalize_match s = normalize_match_as_specified s.
Proof.
  intros Hd. unfold normalize_match, normalize_match_as_specified.
  f_equal.
  destruct (strip_split s) as (l & r & Hs & Hl & Hr).
  destruct (drop_percent_split (rev (strip s))) as (p & Hp & Hall).
  assert (Hstrip : strip s = drop_trailing_percent (strip s) ++ rev p).
  { unfold drop_trailing_percent. rewrite <- rev_app_distr, <- Hp.
    now rewrite rev_involutive. }
  rewrite Hs at 1. rewrite Hstrip at 1.
  rewrite !remove_char_app.
  rewrite (remove_char_spaces l Hl), (remove_char_spaces r Hr).
  rewrite (remove_char_none _ Hd).
  rewrite (remove_char_all (rev p)) by now rewrite forallb_rev_eq.
  rewrite app_nil_r. now apply strip_padded.
Qed.

(** C6, the claim as worded, fails: the handler removes a percent sign
    inside the text too, so "8%3" reads as 83, while stripping the trailing
    percent signs and the whitespace leaves a text that is no integer. *)
Lemma normalization_as_specified_counterexample :
  ~ exists rt : PyRuntime, normalization_as_specified rt.
Proof.
  intros [rt H]. specialize (H (str "8%3")).
  vm_compute in H. discriminate H.
Qed.

(** C6, amended: the handler removes every percent sign of the "JD Match"
    text, wherever it stands, strips the whitespace around the rest and
    reads it as an integer.  "83%" and "83" give 83, and so does "83%"
    behind a file separator, which is whitespace for [strip] but not for
    [int]; whitespace around the text never counts, and a text without
    percent sign and without whitespace around it is read by [int] as it
    is.  "N/A" gives no integer, and whenever none is read the handler
    shows the record itself with [st.json], and neither gauge nor
    metric. *)
Theorem match_value_normalization {rt : PyRuntime} :
  match_value (record_with_match (str "83%")) = Some 83%Z
  /\ match_value (record_with_match (str "83")) = Some 83%Z
  /\ match_value (record_with_match (str "N/A")) = None
  /\ match_value (record_with_match (28 :: str "83% ")) = Some 83%Z
  /\ (forall a b : pystr,
         normalize_match (a ++ [ch "%"] ++ b) = normalize_match (a ++ b))
  /\ (forall l s r : pystr,
         forallb isspace l = true -> forallb isspace r = true ->
         normalize_match (l ++ s ++ r) = normalize_match s)
  /\ (forall s : pystr,
         remove_char (ch "%") s = s -> strip s = s ->
         normalize_match s = py_int s)
  /\ (forall s : pystr,
         match_value (record_with_match s) = normalize_match s)
  /\ (forall (parsed : pyval) (w : world),
         match_value parsed = None ->
         is_str parsed = false ->
         show_match parsed w
         = (Some tt,
            {| session_state := session_state w; cache_data := cache_data w;
               trace := trace w ++ [St (StJson parsed)] |})).
Proof.
  repeat split.
  - apply normalize_match_percent.
  - intros l s r. apply normalize_match_padded.
  - intros s Hp Hs. unfold normalize_match. now rewrite Hp, Hs.
  - intros parsed w Hnone Hstr. apply show_match_fallback; [exact Hnone|].
    destruct parsed; try reflexivity. discriminate Hstr.
Qed.

Lemma match_value_normalization_witness :
  normalize_match (rt := plain_runtime) ([28; 9] ++ str "8%3" ++ [32; 10])
  = normalize_match (rt := plain_runtime) (str "8%3")
  /\ normalize_match (rt := plain_runtime) (str "-83")
     = py_int (rt := plain_runtime) (str "-83")
  /\ show_match (rt := plain_runtime) (record_with_match (str "N/A")) empty_world
     = (Some tt,
        {| session_state := ∅; cache_data := ∅;
           trace := [St (StJson (record_with_match (str "N/A")))] |}).
Proof.
  pose proof (match_value_normalization (rt := plain_runtime))
    as (_ & _ & _ & _ & _ & Hpad & Hint & _ & Hshow).
  split; [|split].
  - apply (Hpad [28; 9] (str "8%3") [32; 10]); reflexivity.
  - apply (Hint (str "-83")); reflexivity.
  - apply (Hshow (record_with_match (str "N/A")) empty_world); reflexivity.
Defined.

(** ** [generate_pdf] *)

Lemma paragraphs_app (a b : list flowable) :
  paragraphs (a ++ b) = paragraphs a ++ paragraphs b.
Proof. unfold paragraphs. apply flat_map_app. Qed.

Lemma paragraphs_add_line (story : list flowable) (line : pystr) :
  paragraphs (add_line story line)
  = paragraphs story ++ (if blank line then [] else [strip line]).
Proof.
  unfold add_line, blank. destruct (strip line) as [|c l].
  - now rewrite app_nil_r.
  - now rewrite paragraphs_app.
Qed.

(** The loop gives one paragraph for every line that is not blank, in the
    order of the lines. *)
Lemma paragraphs_fold (lines : list pystr) (story : list flowable) :
  paragraphs (fold_left add_line lines story)
  = paragraphs story
    ++ List.map strip (List.filter (fun l => negb (blank l)) lines).
Proof.
  revert story. induction lines as [|line lines IH]; intros story; simpl.
  - now rewrite app_nil_r.
  - rewrite IH, paragraphs_add_line, <- app_assoc.
    destruct (blank line); reflexivity.
Qed.


(** When reportlab accepts every line that is not blank, the loop builds
    the story line by line. *)
Lemma story_loop_accepted {rl : Reportlab} (lines : list pystr)
      (story : list flowable) :
  forallb line_accepted lines = true ->
  story_loop lines story = Ok (fold_left add_line lines story).
Proof.
  revert story. induction lines as [|line lines IH]; intros story H;
    [reflexivity|].
  simpl in H. apply andb_true_iff in H as [Hline Hrest].
  cbn [story_loop fold_left]. unfold add_line, new_paragraph.
  unfold line_accepted, blank in Hline.
  destruct (strip line) as [|c l]; [now apply IH|].
  simpl in Hline.
  destruct (markup_error (c :: l)); [discriminate|]. now apply IH.
Qed.

(** Otherwise it ends in the exception of the first line reportlab
    refuses. *)
Lemma story_loop_refused {rl : Reportlab} (lines : list pystr)
      (story : list flowable) :
  forallb line_accepted lines = false ->
  exists pre line post e,
    lines = pre ++ line :: post
    /\ forallb line_accepted pre = true
    /\ blank line = false
    /\ markup_error (strip line) = Some e
    /\ story_loop lines story = Raise e.
Proof.
  revert story. induction lines as [|line lines IH]; intros story H;
    [discriminate|].
  simpl in H. cbn [story_loop]. unfold new_paragraph.
  unfold line_accepted at 1 in H.
  destruct (blank line) eqn:Hb.
  - simpl in H. destruct (IH story H) as (pre & l & post & e & -> & Hpre & Hl & He & Hs).
    exists (line :: pre), l, post, e. repeat split; auto.
    + simpl. unfold line_accepted at 1. now rewrite Hb, Hpre.
    + unfold blank in Hb. destruct (strip line); [exact Hs | discriminate].
  - simpl in H. unfold blank in Hb.
    destruct (strip line) as [|c l] eqn:Hs; [discriminate|].
    destruct (markup_error (c :: l)) as [e|] eqn:He.
    + exists [], line, lines, e. repeat split; auto.
      * unfold blank. now rewrite Hs.
      * now rewrite Hs.
    + simpl in H.
      destruct (IH (story ++ [Paragraph (c :: l) "Normal"; Spacer 1 12]) H)
        as (pre & l' & post & e & -> & Hpre & Hl & He' & Hloop).
      exists (line :: pre), l', post, e. repeat split; auto.
      simpl. unfold line_accepted at 1, blank at 1. rewrite Hs, He.
      exact Hpre.
Qed.




(** ** [get_gemini_response] *)

Lemma calls_app (t u : list event) : calls (t ++ u) = (calls t + calls u)%nat.
Proof. unfold calls. now rewrite List.filter_app, length_app. Qed.

Lemma failed_attempts_S (n : nat) (prompt : pystr) (json_mode : bool) :
  failed_attempts (S (S n)) prompt json_mode
  = Generate prompt json_mode :: Sleep 2
    :: failed_attempts (S n) prompt json_mode.
Proof. reflexivity. Qed.

(** A run of [n] failed attempts holds [n] calls and a wait of 2 between
    two calls, [n - 1] waits in all. *)
Lemma failed_attempts_counts (n : nat) (prompt : pystr) (json_mode : bool) :
  calls (failed_attempts n prompt json_mode) = n
  /\ length (List.filter is_sleep (failed_attempts n prompt json_mode))
     = (n - 1)%nat
  /\ Forall (fun e => e = Generate prompt json_mode \/ e = Sleep 2)
            (failed_attempts n prompt json_mode).
Proof.
  induction n as [|n (IHc & IHs & IHf)]; [repeat split; constructor|].
  destruct n as [|n]; [repeat split; repeat constructor|].
  rewrite failed_attempts_S. repeat split.
  - change (S (calls (failed_attempts (S n) prompt json_mode)) = S (S n)).
    now rewrite IHc.
  - change (S (length (List.filter is_sleep
                         (failed_attempts (S n) prompt json_mode)))
            = (S (S n) - 1)%nat).
    rewrite IHs. lia.
  - repeat constructor; assumption.
Qed.

Lemma retry_loop_S {ai : GenAI} (n : nat) (attempt retries : Z)
      (prompt : pystr) (json_mode : bool) (t : list event) :
  retry_loop (S n) attempt retries prompt json_mode t
  = match attempt_once prompt json_mode t with
    | (Ok s, t1) => (PyStr s, t1)
    | (Raise e, t1) =>
        if (attempt <? retries - 1)%Z
        then retry_loop n (attempt + 1)%Z retries prompt json_mode
                        (t1 ++ [Sleep 2])
        else (PyStr (error_marker ++ exn_str e), t1)
    end.
Proof. reflexivity. Qed.

(** The loop when every call raises: with [n] iterations left out of
    [retries], the last of them returns the failure marker. *)
Lemma retry_loop_all_fail {ai : GenAI} (prompt : pystr) (json_mode : bool)
      (retries : Z) (n : nat) :
  (forall k, is_raise (generate_content k prompt json_mode) = true) ->
  forall (attempt : Z) (t : list event),
    (attempt + Z.of_nat (S n) = retries)%Z ->
    exists e,
      retry_loop (S n) attempt retries prompt json_mode t
      = (PyStr (error_marker ++ exn_str e),
         t ++ failed_attempts (S n) prompt json_mode).
Proof.
  intros Hdown. induction n as [|n IH]; intros attempt t Hn;
    rewrite retry_loop_S; unfold attempt_once;
    pose proof (Hdown (calls t)) as Hk;
    destruct (generate_content (calls t) prompt json_mode) as [r|e];
    try discriminate.
  - replace (attempt <? retries - 1)%Z with false
      by (symmetry; apply Z.ltb_ge; lia).
    exists e. reflexivity.
  - replace (attempt <? retries - 1)%Z with true
      by (symmetry; apply Z.ltb_lt; lia).
    destruct (IH (attempt + 1)%Z
                 ((t ++ [Generate prompt json_mode]) ++ [Sleep 2]))
      as [e' He']; [lia|].
    exists e'. rewrite He', failed_attempts_S, <- !app_assoc. reflexivity.
Qed.

(** C2: when every call of the service raises and [retries] is at least
    1, [get_gemini_response] calls the service exactly [retries] times,
    waits 2 between two consecutive calls and nowhere else, and returns a
    string that starts with the failure marker instead of raising. *)
Theorem get_gemini_response_all_fail {ai : GenAI}
        (prompt : pystr) (json_mode : bool) (retries : Z) (t : list event) :
  (1 <= retries)%Z ->
  (forall k, is_raise (generate_content k prompt json_mode) = true) ->
  exists e,
    get_gemini_response prompt json_mode retries t
    = (PyStr (error_marker ++ exn_str e),
       t ++ failed_attempts (Z.to_nat retries) prompt json_mode)
    /\ Z.of_nat (calls (snd (get_gemini_response prompt json_mode retries t)))
       = (Z.of_nat (calls t) + retries)%Z
    /\ Z.of_nat (length (List.filter is_sleep
                   (failed_attempts (Z.to_nat retries) prompt json_mode)))
       = (retries - 1)%Z
    /\ Forall (fun ev => ev = Generate prompt json_mode \/ ev = Sleep 2)
              (failed_attempts (Z.to_nat retries) prompt json_mode).
Proof.
  intros Hpos Hdown. unfold get_gemini_response.
  destruct (Z.to_nat retries) as [|n] eqn:Hn; [lia|].
  destruct (retry_loop_all_fail prompt json_mode retries n Hdown 0%Z t)
    as [e He]; [lia|].
  destruct (failed_attempts_counts (S n) prompt json_mode) as (Hc & Hs & Hf).
  exists e. rewrite He. repeat split.
  - cbn [snd]. rewrite calls_app, Hc. lia.
  - rewrite Hs. lia.
  - exact Hf.
Qed.

Lemma get_gemini_response_all_fail_witness :
  exists e,
    get_gemini_response (ai := service_down) (str "hello") true 3 []
    = (PyStr (error_marker ++ exn_str e),
       [] ++ failed_attempts (Z.to_nat 3) (str "hello") true)
    /\ Z.of_nat (calls (snd (get_gemini_response (ai := service_down)
                               (str "hello") true 3 [])))
       = (Z.of_nat (calls []) + 3)%Z
    /\ Z.of_nat (length (List.filter is_sleep
                   (failed_attempts (Z.to_nat 3) (str "hello") true)))
       = (3 - 1)%Z
    /\ Forall (fun ev => ev = Generate (str "hello") true \/ ev = Sleep 2)
              (failed_attempts (Z.to_nat 3) (str "hello") true).
Proof.
  apply (get_gemini_response_all_fail (ai := service_down)
           (str "hello") true 3 []).
  - lia.
  - intros k. reflexivity.
Defined.

(** C9: with [retries] at most 0 the loop body never runs:
    [get_gemini_response] makes no call and returns [None], which is
    neither a completion nor a failure string. *)
Theorem get_gemini_response_no_attempt {ai : GenAI}
        (prompt : pystr) (json_mode : bool) (retries : Z) (t : list event) :
  (retries <= 0)%Z ->
  get_gemini_response prompt json_mode retries t = (PyNone, t)
  /\ is_str (fst (get_gemini_response prompt json_mode retries t)) = false
  /\ calls (snd (get_gemini_response prompt json_mode retries t)) = calls t.
Proof.
  intros Hle. unfold get_gemini_response.
  replace (Z.to_nat retries) with 0%nat by lia.
  repeat split.
Qed.

Lemma get_gemini_response_no_attempt_witness :
  get_gemini_response (ai := service_down) (str "hello") false 0 []
  = (PyNone, [])
  /\ is_str (fst (get_gemini_response (ai := service_down)
                    (str "hello") false 0 [])) = false
  /\ calls (snd (get_gemini_response (ai := service_down)
                   (str "hello") false 0 [])) = calls [].
Proof.
  apply (get_gemini_response_no_attempt (ai := service_down)
           (str "hello") false 0 []).
  lia.
Defined.

(** With at least one attempt the function returns a string. *)
Lemma retry_loop_str {ai : GenAI} (prompt : pystr) (json_mode : bool)
      (retries : Z) (n : nat) :
  forall (attempt : Z) (t : list event),
    (attempt + Z.of_nat (S n) = retries)%Z ->
    is_str (fst (retry_loop (S n) attempt retries prompt json_mode t)) = true.
Proof.
  induction n as [|n IH]; intros attempt t Hn; rewrite retry_loop_S.
  - destruct (attempt_once prompt json_mode t) as [[s|e] t1]; [reflexivity|].
    replace (attempt <? retries - 1)%Z with false
      by (symmetry; apply Z.ltb_ge; lia).
    reflexivity.
  - destruct (attempt_once prompt json_mode t) as [[s|e] t1]; [reflexivity|].
    replace (attempt <? retries - 1)%Z with true
      by (symmetry; apply Z.ltb_lt; lia).
    apply IH. lia.
Qed.

Lemma get_gemini_response_str {ai : GenAI} (prompt : pystr) (json_mode : bool)
      (retries : Z) (t : list event) :
  (1 <= retries)%Z ->
  is_str (fst (get_gemini_response prompt json_mode retries t)) = true.
Proof.
  intros Hpos. unfold get_gemini_response.
  destruct (Z.to_nat retries) as [|n] eqn:Hn; [lia|].
  apply retry_loop_str. lia.
Qed.

(** ** [input_pdf_text] *)

(** The loop over the pages when every page gives its text. *)
Lemma extract_pages_ok {libs : PdfLibs}
      (pages : list page) (texts : list (option pystr)) :
  Forall2 (fun p x => extract_text p = Ok x) pages texts ->
  forall (text : pystr) (t : list event),
    extract_pages pages text t
    = (Ok (text ++ List.concat (List.map or_empty texts)),
       t ++ repeat ExtractText (length pages)).
Proof.
  induction 1 as [|p x pages texts Hp _ IH]; intros text t; simpl.
  - now rewrite !app_nil_r.
  - rewrite Hp, IH, <- !app_assoc. reflexivity.
Qed.

Lemma no_ocr_in_direct (n : nat) :
  existsb is_ocr (PdfReaderCall :: repeat ExtractText n) = false.
Proof. induction n as [|n IH]; [reflexivity | exact IH]. Qed.

(** C5: when the reader and every page succeed and the concatenated text
    is not empty once stripped, [input_pdf_text] returns the texts of the
    pages concatenated in page order, a page without text counting for the
    empty string, and makes no call of the OCR fallback; so does the call
    through [st.cache_data] when the memo does not hold the file yet. *)
Theorem input_pdf_text_direct {libs : PdfLibs}
        (f : uploaded) (pages : list page) (texts : list (option pystr))
        (t : list event) :
  PdfReader f = Ok pages ->
  Forall2 (fun p x => extract_text p = Ok x) pages texts ->
  strip (List.concat (List.map or_empty texts)) <> [] ->
  input_pdf_text f t
  = (List.concat (List.map or_empty texts),
     t ++ PdfReaderCall :: repeat ExtractText (length pages))
  /\ existsb is_ocr (PdfReaderCall :: repeat ExtractText (length pages))
     = false
  /\ (forall w : world,
         cache_data w !! cache_key f = None ->
         fst (cached_input_pdf_text f w)
         = Some (List.concat (List.map or_empty texts))
         /\ trace (snd (cached_input_pdf_text f w))
            = trace w ++ PdfReaderCall :: repeat ExtractText (length pages)).
Proof.
  intros Hr Hp Hne.
  assert (Hbody : forall t',
             input_pdf_text f t'
             = (List.concat (List.map or_empty texts),
                t' ++ PdfReaderCall :: repeat ExtractText (length pages))).
  { intros t'. unfold input_pdf_text, direct_text. rewrite Hr.
    rewrite (extract_pages_ok pages texts Hp). cbn [app].
    destruct (strip (List.concat (List.map or_empty texts))) as [|c s] eqn:Hs;
      [contradiction|].
    rewrite <- app_assoc. reflexivity. }
  split; [apply Hbody|]. split; [apply no_ocr_in_direct|].
  intros w Hmiss. unfold cached_input_pdf_text.
  rewrite Hmiss, Hbody. split; reflexivity.
Qed.

Lemma input_pdf_text_direct_witness :
  input_pdf_text (libs := two_pages) tt []
  = (List.concat (List.map or_empty [Some (str "Jane Doe "); None]),
     [] ++ PdfReaderCall
        :: repeat ExtractText (length [Some (str "Jane Doe "); None]))
  /\ existsb is_ocr
       (PdfReaderCall
          :: repeat ExtractText (length [Some (str "Jane Doe "); None]))
     = false.
Proof.
  destruct (input_pdf_text_direct (libs := two_pages) tt
              [Some (str "Jane Doe "); None] [Some (str "Jane Doe "); None] [])
    as (Hbody & Hocr & _).
  - reflexivity.
  - repeat constructor.
  - vm_compute. discriminate.
  - split; [exact Hbody | exact Hocr].
Defined.

(** ** The state a run of the script leaves behind *)

Lemma extract_pages_trace {libs : PdfLibs} (pages : list page) :
  forall (text : pystr) (t : list event),
    extract_pages pages text t
    = (fst (extract_pages pages text []),
       t ++ snd (extract_pages pages text [])).
Proof.
  induction pages as [|p ps IH]; intros text t; simpl.
  - now rewrite app_nil_r.
  - destruct (extract_text p) as [x|e]; [|reflexivity].
    rewrite (IH _ (t ++ [ExtractText])), (IH _ [ExtractText]).
    cbn [fst snd]. now rewrite <- app_assoc.
Qed.

Lemma ocr_images_trace {libs : PdfLibs} (images : list image) :
  forall (text : pystr) (t : list event),
    ocr_images images text t
    = (fst (ocr_images images text []),
       t ++ snd (ocr_images images text [])).
Proof.
  induction images as [|i imgs IH]; intros text t; simpl.
  - now rewrite app_nil_r.
  - destruct (image_to_string i) as [x|e]; [|reflexivity].
    rewrite (IH _ (t ++ [ImageToString])), (IH _ [ImageToString]).
    cbn [fst snd]. now rewrite <- app_assoc.
Qed.

Lemma ocr_fallback_trace {libs : PdfLibs} (f : uploaded) (t : list event) :
  ocr_fallback f t
  = (fst (ocr_fallback f []), t ++ snd (ocr_fallback f [])).
Proof.
  unfold ocr_fallback.
  destruct (convert_from_bytes (file_read f)) as [images|e].
  - rewrite (ocr_images_trace images [] ((t ++ [FileRead]) ++ [ConvertFromBytes])).
    rewrite (ocr_images_trace images [] (([] ++ [FileRead]) ++ [ConvertFromBytes])).
    destruct (ocr_images images [] []) as [[text|e] t2]; cbn [fst snd];
      now rewrite <- !app_assoc.
  - cbn [fst snd]. now rewrite <- !app_assoc.
Qed.

(** The text [input_pdf_text] returns does not depend on the trace, which
    it only extends. *)
Lemma input_pdf_text_trace {libs : PdfLibs} (f : uploaded) (t : list event) :
  input_pdf_text f t
  = (fst (input_pdf_text f []), t ++ snd (input_pdf_text f [])).
Proof.
  unfold input_pdf_text, direct_text.
  destruct (PdfReader f) as [pages|e].
  - rewrite (extract_pages_trace pages [] (t ++ [PdfReaderCall])).
    rewrite (extract_pages_trace pages [] ([] ++ [PdfReaderCall])).
    destruct (extract_pages pages [] []) as [[text|e] t1]; cbn [fst snd].
    + destruct (strip text).
      * rewrite (ocr_fallback_trace f ((t ++ [PdfReaderCall]) ++ t1)).
        rewrite (ocr_fallback_trace f (([] ++ [PdfReaderCall]) ++ t1)).
        cbn [fst snd]. now rewrite <- !app_assoc.
      * cbn [fst snd]. now rewrite <- !app_assoc.
    + rewrite (ocr_fallback_trace f ((t ++ [PdfReaderCall]) ++ t1)).
      rewrite (ocr_fallback_trace f (([] ++ [PdfReaderCall]) ++ t1)).
      cbn [fst snd]. now rewrite <- !app_assoc.
  - rewrite (ocr_fallback_trace f (t ++ [PdfReaderCall])).
    rewrite (ocr_fallback_trace f ([] ++ [PdfReaderCall])).
    cbn [fst snd]. now rewrite <- !app_assoc.
Qed.

(** *** Steps that keep the state *)

Lemma keeps_ret {A : Type} (a : A) : keeps_state (mret a : M A).
Proof. intros w. split; reflexivity. Qed.

Lemma keeps_uncaught {A : Type} : keeps_state (@uncaught A).
Proof. intros w. split; reflexivity. Qed.

Lemma keeps_or_raise {A : Type} (o : option A) : keeps_state (or_raise o).
Proof. destruct o; [apply keeps_ret | apply keeps_uncaught]. Qed.

Lemma keeps_show (e : element) : keeps_state (show e).
Proof. intros w. unfold show. destruct (st_accepts e); split; reflexivity. Qed.

Lemma keeps_of_result {A : Type} (r : result A) : keeps_state (of_result r).
Proof. destruct r; [apply keeps_ret | apply keeps_uncaught]. Qed.

Lemma keeps_try_except {A : Type} (body handler : M A) :
  keeps_state body -> keeps_state handler ->
  keeps_state (try_except body handler).
Proof.
  intros Hb Hh w. unfold try_except.
  destruct (Hb w) as [Hs Hc].
  destruct (body w) as [[a|] w1]; cbn [snd] in *.
  - split; assumption.
  - destruct (Hh w1) as [Hs' Hc']. split; congruence.
Qed.

(** A call of Streamlit that is accepted shows its element. *)
Lemma show_accepted (e : element) (w : world) :
  st_accepts e = true ->
  show e w
  = (Some tt,
     {| session_state := session_state w; cache_data := cache_data w;
        trace := trace w ++ [St e] |}).
Proof. intros H. unfold show. now rewrite H. Qed.

Lemma show_refused (e : element) (w : world) :
  st_accepts e = false -> show e w = (None, w).
Proof. intros H. unfold show. now rewrite H. Qed.

Lemma keeps_traced {A : Type} (f : list event -> A * list event) :
  keeps_state (traced f).
Proof. intros w. unfold traced. destruct (f (trace w)). split; reflexivity. Qed.

Lemma keeps_session_get (key : string) : keeps_state (session_get key).
Proof. intros w. split; reflexivity. Qed.

Lemma keeps_bind {A B : Type} (m : M A) (k : A -> M B) :
  keeps_state m -> (forall a, keeps_state (k a)) -> keeps_state (m ≫= k).
Proof.
  intros Hm Hk w. unfold mbind, M_bind.
  destruct (Hm w) as [Hs Hc].
  destruct (m w) as [[a|] w1]; cbn [snd] in *.
  - destruct (Hk a w1) as [Hs' Hc']. split; congruence.
  - split; assumption.
Qed.

Lemma keeps_if {A : Type} (b : bool) (m1 m2 : M A) :
  keeps_state m1 -> keeps_state m2 -> keeps_state (if b then m1 else m2).
Proof. destruct b; auto. Qed.

Create HintDb keeps.
#[export] Hint Resolve keeps_ret keeps_uncaught keeps_or_raise keeps_show
  keeps_of_result keeps_try_except keeps_traced keeps_session_get keeps_bind
  keeps_if : keeps.

Lemma keeps_show_match {rt : PyRuntime} (parsed : pyval) :
  keeps_state (show_match parsed).
Proof.
  unfold show_match. auto 8 with keeps.
Qed.

Lemma keeps_show_keywords {rt : PyRuntime} (parsed : pyval) :
  keeps_state (show_keywords parsed).
Proof. unfold show_keywords. auto 8 with keeps. Qed.

Lemma keeps_show_summary {rt : PyRuntime} (parsed : pyval) :
  keeps_state (show_summary parsed).
Proof. unfold show_summary. auto 8 with keeps. Qed.

#[export] Hint Resolve keeps_show_match keeps_show_keywords
  keeps_show_summary : keeps.

Lemma keeps_show_evaluation {rt : PyRuntime} (parsed response : pyval) :
  keeps_state (show_evaluation parsed response).
Proof. unfold show_evaluation. auto 10 with keeps. Qed.

(** The optimization step reads the session values and changes nothing. *)
Lemma keeps_optimize {rt : PyRuntime} {ai : GenAI} {rl : Reportlab} :
  keeps_state optimize.
Proof. unfold optimize. auto 12 with keeps. Qed.

#[export] Hint Resolve keeps_show_evaluation keeps_optimize : keeps.

Lemma setdefault_state (key : string) (value : pyval) (w : world) :
  setdefault key value w
  = (Some tt,
     {| session_state := with_default key value (session_state w);
        cache_data := cache_data w; trace := trace w |}).
Proof.
  unfold setdefault, with_default.
  destruct (session_state w !! key); [destruct w|]; reflexivity.
Qed.

(** A run is its heading and initialisation, then the handler of the
    click, then the optimization part. *)
Lemma run_script_parts {rt : PyRuntime} {ai : GenAI} {libs : PdfLibs}
      {rl : Reportlab} (jd : pystr) (uploaded_file : option uploaded)
      (clicked : click) (w : world) :
  run_script jd uploaded_file clicked w
  = (handler jd uploaded_file clicked ≫= fun _ => optimize_part clicked)
      (after_setup w).
Proof.
  unfold run_script.
  unfold mbind at 1 2 3 4. unfold M_bind at 1 2 3 4.
  rewrite !show_accepted by reflexivity.
  rewrite !setdefault_state. cbn [session_state cache_data trace].
  rewrite <- app_assoc. reflexivity.
Qed.

Lemma keeps_optimize_part {rt : PyRuntime} {ai : GenAI} {rl : Reportlab}
      (clicked : click) : keeps_state (optimize_part clicked).
Proof. unfold optimize_part. destruct clicked; auto 10 with keeps. Qed.

(** A step followed by steps that keep the state leaves the state of the
    first step. *)
Lemma bind_keeps_state {A B : Type} (m : M A) (k : A -> M B) (w : world) :
  (forall a, keeps_state (k a)) ->
  session_state (snd ((m ≫= k) w)) = session_state (snd (m w))
  /\ cache_data (snd ((m ≫= k) w)) = cache_data (snd (m w)).
Proof.
  intros Hk. unfold mbind, M_bind.
  destruct (m w) as [[a|] w1]; cbn [snd]; [apply Hk | split; reflexivity].
Qed.

Lemma session_set_bind {B : Type} (key : string) (value : pyval)
      (k : unit -> M B) (w : world) :
  (session_set key value ≫= k) w
  = k tt {| session_state := <[key := value]> (session_state w);
            cache_data := cache_data w; trace := trace w |}.
Proof. reflexivity. Qed.

(** The evaluation handler with a file and a job description that is not
    blank: both session values are replaced and the memo holds the text. *)
Lemma evaluate_state {rt : PyRuntime} {ai : GenAI} {libs : PdfLibs}
      (jd : pystr) (f : uploaded) (w : world) :
  strip jd <> [] ->
  session_state (snd (evaluate jd (Some f) w))
  = <["jd" := PyStr jd]>
      (<["resume_text" := PyStr (resume_text_of f (cache_data w))]>
         (session_state w))
  /\ cache_data (snd (evaluate jd (Some f) w))
     = <[cache_key f := resume_text_of f (cache_data w)]> (cache_data w).
Proof.
  intros Hjd. unfold evaluate.
  destruct (strip jd) as [|c s]; [contradiction|].
  set (rest := fun resume_text : pystr =>
         session_set "resume_text" (PyStr resume_text);;
         session_set "jd" (PyStr jd);;
         (let final_prompt := format_input_prompt resume_text jd in
          response ← traced (get_gemini_response final_prompt true 3);
          raw ← or_raise (match response with PyStr s0 => Some s0 | _ => None end);
          show_evaluation (safe_json_parse raw) response)).
  change (session_state (snd ((cached_input_pdf_text f ≫= rest) w)) =
          <["jd" := PyStr jd]>
            (<["resume_text" := PyStr (resume_text_of f (cache_data w))]>
               (session_state w))
          /\ cache_data (snd ((cached_input_pdf_text f ≫= rest) w))
             = <[cache_key f := resume_text_of f (cache_data w)]> (cache_data w)).
  assert (Hrest : forall text w1,
             session_state (snd (rest text w1))
             = <["jd" := PyStr jd]>
                 (<["resume_text" := PyStr text]> (session_state w1))
             /\ cache_data (snd (rest text w1)) = cache_data w1).
  { intros text w1. subst rest. cbv beta.
    rewrite session_set_bind. cbv beta. rewrite session_set_bind. cbv beta zeta.
    match goal with
    | |- context [snd (?m ?w2)] =>
        assert (Hk : keeps_state m) by auto 10 with keeps;
        destruct (Hk w2) as [Hs Hc]; rewrite Hs, Hc
    end.
    split; reflexivity. }
  unfold mbind, M_bind, cached_input_pdf_text, resume_text_of.
  destruct (cache_data w !! cache_key f) as [text|] eqn:Hmemo.
  - destruct (Hrest text w) as [Hs Hc]. rewrite Hs, Hc. split; [reflexivity|].
    symmetry. apply insert_id. exact Hmemo.
  - rewrite (input_pdf_text_trace f (trace w)).
    match goal with
    | |- context [rest ?text ?w1] =>
        destruct (Hrest text w1) as [Hs Hc]; rewrite Hs, Hc
    end.
    split; reflexivity.
Qed.

Lemma evaluate_rejected {rt : PyRuntime} {ai : GenAI} {libs : PdfLibs}
      (jd : pystr) (uploaded_file : option uploaded) :
  uploaded_file = None \/ strip jd = [] ->
  keeps_state (evaluate jd uploaded_file).
Proof.
  intros H. unfold evaluate.
  destruct uploaded_file as [f|]; [|apply keeps_show].
  destruct H as [H|H]; [discriminate|]. rewrite H. apply keeps_show.
Qed.

Lemma with_default_lookup (key key' : string) (value : pyval)
      (s : gmap string pyval) :
  key' <> key -> with_default key value s !! key' = s !! key'.
Proof.
  intros Hne. unfold with_default.
  destruct (s !! key); [reflexivity|]. now rewrite lookup_insert_ne.
Qed.

Lemma initial_session_lookup (key : string) (s : gmap string pyval) :
  key <> "resume_text" -> key <> "jd" -> initial_session s !! key = s !! key.
Proof.
  intros H1 H2. unfold initial_session.
  now rewrite !with_default_lookup.
Qed.

(** Both values are replaced whatever was there before. *)
Lemma overwrite_initial_session (a b : pyval) (s : gmap string pyval) :
  <["jd" := a]> (<["resume_text" := b]> (initial_session s))
  = <["jd" := a]> (<["resume_text" := b]> s).
Proof.
  apply map_eq. intros key.
  destruct (decide (key = "jd")) as [->|Hjd];
    [now rewrite !lookup_insert_eq|].
  rewrite !(lookup_insert_ne _ "jd") by congruence.
  destruct (decide (key = "resume_text")) as [->|Hrt];
    [now rewrite !lookup_insert_eq|].
  rewrite !(lookup_insert_ne _ "resume_text") by congruence.
  now apply initial_session_lookup.
Qed.

(** C8, the claim as worded, fails: the two session values are not set
    after a successful evaluation but before the completion is asked for.
    For a file neither the reader nor the converter accepts and a service
    that is down, the run shows the warning that the response could not be
    parsed, and yet it leaves the failure text of the extraction and the
    job description behind as session values. *)
Lemma set_after_success_counterexample :
  session_state (snd failed_evaluation) !! "resume_text"
  = Some (PyStr (ocr_error_marker ++ str "Unable to get page count."))
  /\ session_state (snd failed_evaluation) !! "jd"
     = Some (PyStr (str "Rocq engineer"))
  /\ warned (trace (snd failed_evaluation)) = true
  /\ ~ set_after_success plain_runtime service_down corrupt_pdf
        counting_renderer.
Proof.
  split; [vm_compute; reflexivity|].
  split; [vm_compute; reflexivity|].
  split; [vm_compute; reflexivity|].
  intros H.
  destruct (H (str "Rocq engineer") (Some tt) ClickEvaluate empty_world
              eq_refl) as [_ Hw].
  - intros E.
    apply (f_equal (fun s : gmap string pyval => s !! "jd")) in E.
    vm_compute in E. discriminate E.
  - vm_compute in Hw. discriminate Hw.
Qed.

(** C8, amended: a run of the script writes no session key but
    "resume_text" and "jd".  An evaluation request with a file and a job
    description that is not blank replaces both values, by the extracted
    text and the job description, whatever they were before, and it does
    so before the completion is asked for, hence whatever the service then
    answers; the extractor stores the text in its memo, as it may.  Any
    other run, the optimization among them, only initialises absent
    values to [None] and leaves session values and memo as they were. *)
Theorem session_state_after_run {rt : PyRuntime} {ai : GenAI}
        {libs : PdfLibs} {rl : Reportlab}
        (jd : pystr) (uploaded_file : option uploaded) (clicked : click)
        (w : world) :
  (forall key : string,
      key <> "resume_text" -> key <> "jd" ->
      session_state (snd (run_script jd uploaded_file clicked w)) !! key
      = session_state w !! key)
  /\ (forall f : uploaded,
         clicked = ClickEvaluate -> uploaded_file = Some f ->
         strip jd <> [] ->
         session_state (snd (run_script jd uploaded_file clicked w))
         = <["jd" := PyStr jd]>
             (<["resume_text" := PyStr (resume_text_of f (cache_data w))]>
                (session_state w))
         /\ cache_data (snd (run_script jd uploaded_file clicked w))
            = <[cache_key f := resume_text_of f (cache_data w)]>
                (cache_data w))
  /\ (clicked <> ClickEvaluate \/ uploaded_file = None \/ strip jd = [] ->
      session_state (snd (run_script jd uploaded_file clicked w))
      = initial_session (session_state w)
      /\ cache_data (snd (run_script jd uploaded_file clicked w))
         = cache_data w).
Proof.
  rewrite run_script_parts.
  destruct (bind_keeps_state (handler jd uploaded_file clicked)
              (fun _ => optimize_part clicked) (after_setup w)
              (fun _ => keeps_optimize_part clicked)) as [Hs Hc].
  rewrite Hs, Hc. clear Hs Hc.
  assert (Hset : forall f, clicked = ClickEvaluate -> uploaded_file = Some f ->
                           strip jd <> [] ->
            session_state (snd (handler jd uploaded_file clicked (after_setup w)))
            = <["jd" := PyStr jd]>
                (<["resume_text" := PyStr (resume_text_of f (cache_data w))]>
                   (session_state w))
            /\ cache_data (snd (handler jd uploaded_file clicked (after_setup w)))
               = <[cache_key f := resume_text_of f (cache_data w)]>
                   (cache_data w)).
  { intros f -> -> Hjd. cbn [handler].
    destruct (evaluate_state jd f (after_setup w) Hjd) as [Hs Hc].
    rewrite Hs, Hc. cbn [after_setup session_state cache_data].
    split; [apply overwrite_initial_session | reflexivity]. }
  assert (Hkeep : clicked <> ClickEvaluate \/ uploaded_file = None
                  \/ strip jd = [] ->
            session_state (snd (handler jd uploaded_file clicked (after_setup w)))
            = initial_session (session_state w)
            /\ cache_data (snd (handler jd uploaded_file clicked (after_setup w)))
               = cache_data w).
  { intros H.
    assert (Hk : keeps_state (handler jd uploaded_file clicked)).
    { destruct clicked; cbn [handler]; try apply keeps_ret.
      apply evaluate_rejected.
      destruct H as [H|H]; [contradiction | exact H]. }
    exact (Hk (after_setup w)). }
  assert (Hcases : (exists f, clicked = ClickEvaluate /\ uploaded_file = Some f
                              /\ strip jd <> [])
                   \/ (clicked <> ClickEvaluate \/ uploaded_file = None
                       \/ strip jd = [])).
  { destruct clicked; try (right; left; discriminate).
    destruct uploaded_file as [f|]; [|right; right; left; reflexivity].
    destruct (strip jd) as [|c s]; [right; right; right; reflexivity|].
    left. exists f. repeat split. discriminate. }
  split; [|split].
  - intros key Hrt Hjd.
    destruct Hcases as [(f & Hc & Hf & Hj) | Hno].
    + destruct (Hset f Hc Hf Hj) as [Hs _]. rewrite Hs.
      rewrite lookup_insert_ne by (intros E; apply Hjd; symmetry; exact E).
      apply lookup_insert_ne. intros E; apply Hrt; symmetry; exact E.
    + destruct (Hkeep Hno) as [Hs _]. rewrite Hs.
      apply initial_session_lookup; assumption.
  - exact Hset.
  - exact Hkeep.
Qed.

Lemma session_state_after_run_witness :
  (session_state
     (snd (run_script (rt := plain_runtime) (ai := service_down)
             (libs := two_pages) (rl := counting_renderer)
             (str "Rocq engineer") (Some tt) ClickEvaluate empty_world))
   = <["jd" := PyStr (str "Rocq engineer")]>
       (<["resume_text" := PyStr (resume_text_of (libs := two_pages) tt ∅)]> ∅)
   /\ cache_data
        (snd (run_script (rt := plain_runtime) (ai := service_down)
                (libs := two_pages) (rl := counting_renderer)
                (str "Rocq engineer") (Some tt) ClickEvaluate empty_world))
      = <[7 := resume_text_of (libs := two_pages) tt ∅]> ∅)
  /\ (session_state
        (snd (run_script (rt := plain_runtime) (ai := service_down)
                (libs := two_pages) (rl := counting_renderer)
                [] None ClickOptimize world_after_evaluation))
      = initial_session (session_state world_after_evaluation)
      /\ cache_data
           (snd (run_script (rt := plain_runtime) (ai := service_down)
                   (libs := two_pages) (rl := counting_renderer)
                   [] None ClickOptimize world_after_evaluation))
         = cache_data world_after_evaluation).
Proof.
  split.
  - apply (proj1 (proj2 (session_state_after_run (rt := plain_runtime)
             (ai := service_down) (libs := two_pages)
             (rl := counting_renderer)
             (str "Rocq engineer") (Some tt) ClickEvaluate empty_world)) tt).
    + reflexivity.
    + reflexivity.
    + vm_compute. discriminate.
  - apply (proj2 (proj2 (session_state_after_run (rt := plain_runtime)
             (ai := service_down) (libs := two_pages)
             (rl := counting_renderer)
             [] None ClickOptimize world_after_evaluation))).
    left. discriminate.
Defined.

(** * Further properties of the helpers *)

(** ** [get_gemini_response]: retries *)

Lemma attempt_once_answer {ai : GenAI} (prompt : pystr) (json_mode : bool)
      (t : list event) :
  attempt_once prompt json_mode t
  = (answer (calls t) prompt json_mode, t ++ [Generate prompt json_mode]).
Proof. reflexivity. Qed.

Lemma calls_retried (j : nat) (prompt : pystr) (json_mode : bool) :
  calls (retried j prompt json_mode) = j.
Proof.
  induction j as [|j IH]; [reflexivity|].
  change (S (calls (retried j prompt json_mode)) = S j). now rewrite IH.
Qed.

Lemma failed_attempts_retried (j : nat) (prompt : pystr) (json_mode : bool) :
  failed_attempts (S j) prompt json_mode
  = retried j prompt json_mode ++ [Generate prompt json_mode].
Proof.
  induction j as [|j IH]; [reflexivity|].
  rewrite failed_attempts_S, IH. reflexivity.
Qed.

(** The loop with [j] failing attempts before one that answers. *)
Lemma retry_loop_success {ai : GenAI} (prompt : pystr) (json_mode : bool)
      (retries : Z) (s : pystr) (j : nat) :
  forall (n : nat) (attempt : Z) (t : list event),
    (j < n)%nat ->
    (attempt + Z.of_nat n = retries)%Z ->
    (forall i, (i < j)%nat ->
               is_raise (answer (calls t + i) prompt json_mode) = true) ->
    answer (calls t + j) prompt json_mode = Ok s ->
    retry_loop n attempt retries prompt json_mode t
    = (PyStr s, t ++ retried j prompt json_mode ++ [Generate prompt json_mode]).
Proof.
  induction j as [|j IH]; intros n attempt t Hj Hn Hfail Hok;
    (destruct n as [|n]; [lia|]);
    rewrite retry_loop_S, attempt_once_answer.
  - rewrite Nat.add_0_r in Hok. rewrite Hok. reflexivity.
  - pose proof (Hfail 0%nat ltac:(lia)) as H0. rewrite Nat.add_0_r in H0.
    destruct (answer (calls t) prompt json_mode) as [x|e]; [discriminate|].
    replace (attempt <? retries - 1)%Z with true
      by (symmetry; apply Z.ltb_lt; lia).
    assert (Hc : calls ((t ++ [Generate prompt json_mode]) ++ [Sleep 2])
                 = S (calls t)).
    { rewrite !calls_app. cbn. lia. }
    rewrite (IH n (attempt + 1)%Z
                ((t ++ [Generate prompt json_mode]) ++ [Sleep 2])).
    + cbn [retried]. rewrite <- !app_assoc. reflexivity.
    + lia.
    + lia.
    + intros i Hi. rewrite Hc.
      replace (S (calls t) + i)%nat with (calls t + S i)%nat by lia.
      apply Hfail. lia.
    + rewrite Hc.
      replace (S (calls t) + j)%nat with (calls t + S j)%nat by lia.
      exact Hok.
Qed.

(** The answer of attempt [j] after [j] failed ones. *)
Lemma get_gemini_response_answer {ai : GenAI}
      (prompt : pystr) (json_mode : bool) (retries : Z) (t : list event)
      (j : nat) (s : pystr) :
  (Z.of_nat j < retries)%Z ->
  (forall i, (i < j)%nat ->
             is_raise (answer (calls t + i) prompt json_mode) = true) ->
  answer (calls t + j) prompt json_mode = Ok s ->
  get_gemini_response prompt json_mode retries t
  = (PyStr s, t ++ retried j prompt json_mode ++ [Generate prompt json_mode]).
Proof.
  intros Hj Hfail Hok. unfold get_gemini_response.
  apply retry_loop_success; try assumption; lia.
Qed.

(** X1: when the first [j] attempts fail and the next one answers, with
    [j] below [retries], [get_gemini_response] returns the text of that
    answer after [j + 1] calls, with a wait of 2 after each failed one and
    none after the answer. *)
Theorem get_gemini_response_retry_success {ai : GenAI}
        (prompt : pystr) (json_mode : bool) (retries : Z) (t : list event)
        (j : nat) (s : pystr) :
  (Z.of_nat j < retries)%Z ->
  (forall i, (i < j)%nat ->
             is_raise (answer (calls t + i) prompt json_mode) = true) ->
  answer (calls t + j) prompt json_mode = Ok s ->
  get_gemini_response prompt json_mode retries t
  = (PyStr s, t ++ retried j prompt json_mode ++ [Generate prompt json_mode])
  /\ calls (retried j prompt json_mode ++ [Generate prompt json_mode])
     = S j
  /\ length (List.filter is_sleep
               (retried j prompt json_mode ++ [Generate prompt json_mode]))
     = j.
Proof.
  intros Hj Hfail Hok. split; [|split].
  - unfold get_gemini_response.
    apply retry_loop_success; try assumption; lia.
  - rewrite calls_app, calls_retried. cbn. lia.
  - rewrite List.filter_app, length_app. cbn [List.filter is_sleep length].
    rewrite Nat.add_0_r.
    clear. induction j as [|j IH]; [reflexivity|]. cbn. now rewrite IH.
Qed.

Lemma get_gemini_response_retry_success_witness :
  get_gemini_response (ai := flaky_service) (str "hello") false 3 []
  = (PyStr (str "Hello"),
     [] ++ retried 2 (str "hello") false ++ [Generate (str "hello") false])
  /\ calls (retried 2 (str "hello") false ++ [Generate (str "hello") false])
     = 3%nat
  /\ length (List.filter is_sleep
               (retried 2 (str "hello") false ++ [Generate (str "hello") false]))
     = 2%nat.
Proof.
  apply (get_gemini_response_retry_success (ai := flaky_service)
           (str "hello") false 3 [] 2 (str "Hello")).
  - lia.
  - intros i Hi. cbn [calls List.filter length Nat.add].
    destruct i as [|[|i]]; [reflexivity | reflexivity | lia].
  - reflexivity.
Defined.

(** What the loop comes to, whatever the service does: some attempt [j]
    answers after [j] failures, or all of them fail and the last exception
    is reported. *)
Lemma retry_loop_outcome {ai : GenAI} (prompt : pystr) (json_mode : bool)
      (retries : Z) (n : nat) :
  forall (attempt : Z) (t : list event),
    (attempt + Z.of_nat (S n) = retries)%Z ->
    exists j,
      (j <= n)%nat
      /\ (forall i, (i < j)%nat ->
                    is_raise (answer (calls t + i) prompt json_mode) = true)
      /\ ((exists s,
              answer (calls t + j) prompt json_mode = Ok s
              /\ retry_loop (S n) attempt retries prompt json_mode t
                 = (PyStr s,
                    t ++ retried j prompt json_mode
                      ++ [Generate prompt json_mode]))
          \/ (j = n
              /\ exists e,
                  answer (calls t + n) prompt json_mode = Raise e
                  /\ retry_loop (S n) attempt retries prompt json_mode t
                     = (PyStr (error_marker ++ exn_str e),
                        t ++ retried n prompt json_mode
                          ++ [Generate prompt json_mode]))).
Proof.
  induction n as [|n IH]; intros attempt t Hn;
    rewrite retry_loop_S, attempt_once_answer.
  - exists 0%nat. split; [lia|]. split; [intros i Hi; lia|].
    rewrite Nat.add_0_r.
    destruct (answer (calls t) prompt json_mode) as [s|e].
    + left. exists s. split; reflexivity.
    + right. split; [reflexivity|]. exists e.
      replace (attempt <? retries - 1)%Z with false
        by (symmetry; apply Z.ltb_ge; lia).
      split; reflexivity.
  - destruct (answer (calls t) prompt json_mode) as [s|e] eqn:Ha.
    + exists 0%nat. split; [lia|]. split; [intros i Hi; lia|].
      left. exists s. rewrite Nat.add_0_r. split; [exact Ha | reflexivity].
    + replace (attempt <? retries - 1)%Z with true
        by (symmetry; apply Z.ltb_lt; lia).
      assert (Hc : calls ((t ++ [Generate prompt json_mode]) ++ [Sleep 2])
                   = S (calls t)).
      { rewrite !calls_app. cbn. lia. }
      destruct (IH (attempt + 1)%Z
                   ((t ++ [Generate prompt json_mode]) ++ [Sleep 2]))
        as (j & Hj & Hfail & Hout); [lia|].
      rewrite Hc in Hfail, Hout.
      exists (S j). split; [lia|]. split.
      * intros i Hi. destruct i as [|i].
        -- rewrite Nat.add_0_r, Ha. reflexivity.
        -- replace (calls t + S i)%nat with (S (calls t) + i)%nat by lia.
           apply Hfail. lia.
      * replace (calls t + S j)%nat with (S (calls t) + j)%nat by lia.
        replace (calls t + S n)%nat with (S (calls t) + n)%nat by lia.
        cbn [retried].
        destruct Hout as [(s & Hs & Hr) | (-> & e' & He' & Hr)].
        -- left. exists s. rewrite Hr, <- !app_assoc.
           split; [exact Hs | reflexivity].
        -- right. split; [reflexivity|]. exists e'.
           rewrite Hr, <- !app_assoc. split; [exact He' | reflexivity].
Qed.

(** X2: with [retries] at least 1, [get_gemini_response] always returns a
    string: the text of the first attempt that answers, or, when none of
    the [retries] attempts does, the failure marker followed by the text of
    the last exception. *)
Theorem get_gemini_response_outcome {ai : GenAI}
        (prompt : pystr) (json_mode : bool) (retries : Z) (t : list event) :
  (1 <= retries)%Z ->
  (exists j s,
      (Z.of_nat j < retries)%Z
      /\ (forall i, (i < j)%nat ->
                    is_raise (answer (calls t + i) prompt json_mode) = true)
      /\ answer (calls t + j) prompt json_mode = Ok s
      /\ fst (get_gemini_response prompt json_mode retries t) = PyStr s)
  \/ (exists e,
         (forall i, (Z.of_nat i < retries)%Z ->
                    is_raise (answer (calls t + i) prompt json_mode) = true)
         /\ answer (calls t + (Z.to_nat retries - 1)) prompt json_mode = Raise e
         /\ fst (get_gemini_response prompt json_mode retries t)
            = PyStr (error_marker ++ exn_str e)).
Proof.
  intros Hpos. unfold get_gemini_response.
  destruct (Z.to_nat retries) as [|n] eqn:Hn; [lia|].
  destruct (retry_loop_outcome prompt json_mode retries n 0%Z t)
    as (j & Hj & Hfail & [(s & Hs & Hr) | (-> & e & He & Hr)]); [lia| |].
  - left. exists j, s. rewrite Hr. repeat split; try assumption. lia.
  - right. exists e. rewrite Hr. split; [|split].
    + intros i Hi. destruct (Nat.eq_dec i n) as [->|Hne].
      * rewrite He. reflexivity.
      * apply Hfail. lia.
    + replace (S n - 1)%nat with n by lia. exact He.
    + reflexivity.
Qed.

Lemma get_gemini_response_outcome_witness :
  (exists j s,
      (Z.of_nat j < 3)%Z
      /\ (forall i, (i < j)%nat ->
                    is_raise (answer (ai := flaky_service)
                                (calls [] + i) (str "hello") false) = true)
      /\ answer (ai := flaky_service) (calls [] + j) (str "hello") false = Ok s
      /\ fst (get_gemini_response (ai := flaky_service)
                (str "hello") false 3 []) = PyStr s)
  \/ (exists e,
         (forall i, (Z.of_nat i < 3)%Z ->
                    is_raise (answer (ai := flaky_service)
                                (calls [] + i) (str "hello") false) = true)
         /\ answer (ai := flaky_service)
              (calls [] + (Z.to_nat 3 - 1)) (str "hello") false = Raise e
         /\ fst (get_gemini_response (ai := flaky_service)
                   (str "hello") false 3 [])
            = PyStr (error_marker ++ exn_str e)).
Proof.
  apply (get_gemini_response_outcome (ai := flaky_service)
           (str "hello") false 3 []).
  lia.
Defined.

(** The events [get_gemini_response] adds to the trace are those of a
    run of attempts, no more of them than [retries]. *)
Lemma get_gemini_response_events {ai : GenAI}
      (prompt : pystr) (json_mode : bool) (retries : Z) (t : list event) :
  exists j : nat,
    snd (get_gemini_response prompt json_mode retries t)
    = t ++ failed_attempts j prompt json_mode
    /\ (Z.of_nat j <= Z.max 0 retries)%Z.
Proof.
  unfold get_gemini_response.
  destruct (Z.to_nat retries) as [|n] eqn:Hn.
  - exists 0%nat. cbn. rewrite app_nil_r. split; [reflexivity | lia].
  - destruct (retry_loop_outcome prompt json_mode retries n 0%Z t)
      as (j & Hj & _ & Hout); [lia|].
    exists (S j). split; [|lia].
    rewrite failed_attempts_retried.
    destruct Hout as [(s & _ & Hr) | (-> & e & _ & Hr)];
      rewrite Hr; reflexivity.
Qed.

(** X3: whatever the service does, [get_gemini_response] only adds calls
    with its own prompt and mode and waits of 2 to the trace, makes no more
    calls than [retries] (none when [retries] is not positive) and waits
    once less than it calls. *)
Theorem get_gemini_response_bounded {ai : GenAI}
        (prompt : pystr) (json_mode : bool) (retries : Z) (t : list event) :
  exists es,
    snd (get_gemini_response prompt json_mode retries t) = t ++ es
    /\ (Z.of_nat (calls es) <= Z.max 0 retries)%Z
    /\ length (List.filter is_sleep es) = (calls es - 1)%nat
    /\ Forall (fun ev => ev = Generate prompt json_mode \/ ev = Sleep 2) es.
Proof.
  unfold get_gemini_response.
  destruct (Z.to_nat retries) as [|n] eqn:Hn.
  - exists []. cbn. rewrite app_nil_r. repeat split; [lia | constructor].
  - destruct (retry_loop_outcome prompt json_mode retries n 0%Z t)
      as (j & Hj & _ & Hout); [lia|].
    assert (Hes : retry_loop (S n) 0 retries prompt json_mode t
                  = (fst (retry_loop (S n) 0 retries prompt json_mode t),
                     t ++ failed_attempts (S j) prompt json_mode)).
    { rewrite failed_attempts_retried.
      destruct Hout as [(s & _ & Hr) | (-> & e & _ & Hr)];
        rewrite Hr; reflexivity. }
    exists (failed_attempts (S j) prompt json_mode).
    rewrite Hes. cbn [snd].
    destruct (failed_attempts_counts (S j) prompt json_mode) as (Hc & Hs & Hf).
    rewrite Hc, Hs. repeat split; [lia | exact Hf].
Qed.

(** X4: an answer whose first candidate has no parts counts as a failed
    attempt.  When every answer is such, [get_gemini_response] calls
    [retries] times and returns the failure marker with the text of the
    index error. *)
Theorem get_gemini_response_no_parts {ai : GenAI}
        (prompt : pystr) (json_mode : bool) (retries : Z) (t : list event) :
  (1 <= retries)%Z ->
  (forall k, exists r c rest,
        generate_content k prompt json_mode = Ok r
        /\ candidates r = c :: rest /\ parts c = []) ->
  get_gemini_response prompt json_mode retries t
  = (PyStr (error_marker ++ exn_str index_error),
     t ++ failed_attempts (Z.to_nat retries) prompt json_mode).
Proof.
  intros Hpos Hhollow.
  assert (Hans : forall k, answer k prompt json_mode = Raise index_error).
  { intros k. destruct (Hhollow k) as (r & c & rest & Hk & Hc & Hp).
    unfold answer, response_text. now rewrite Hk, Hc, Hp. }
  unfold get_gemini_response.
  destruct (Z.to_nat retries) as [|n] eqn:Hn; [lia|].
  destruct (retry_loop_outcome prompt json_mode retries n 0%Z t)
    as (j & Hj & _ & [(s & Hs & _) | (-> & e & He & Hr)]); [lia| |].
  - rewrite Hans in Hs. discriminate Hs.
  - rewrite Hans in He. injection He as <-.
    rewrite Hr, failed_attempts_retried. reflexivity.
Qed.

Lemma get_gemini_response_no_parts_witness :
  get_gemini_response (ai := hollow_service) (str "hello") true 2 []
  = (PyStr (error_marker ++ exn_str (index_error (GenAI := hollow_service))),
     [] ++ failed_attempts (Z.to_nat 2) (str "hello") true).
Proof.
  apply (get_gemini_response_no_parts (ai := hollow_service)
           (str "hello") true 2 []).
  - lia.
  - intros k. eexists; eexists; eexists.
    split; [reflexivity|]. split; reflexivity.
Defined.

(** ** [input_pdf_text]: the OCR fallback *)

Lemma direct_text_trace {libs : PdfLibs} (f : uploaded) (t : list event) :
  direct_text f t = (fst (direct_text f []), t ++ snd (direct_text f [])).
Proof.
  unfold direct_text. destruct (PdfReader f) as [pages|e]; [|reflexivity].
  rewrite (extract_pages_trace pages [] (t ++ [PdfReaderCall])).
  rewrite (extract_pages_trace pages [] ([] ++ [PdfReaderCall])).
  cbn [fst snd]. now rewrite <- app_assoc.
Qed.

Lemma ocr_images_ok {libs : PdfLibs}
      (images : list image) (texts : list pystr) :
  Forall2 (fun img x => image_to_string img = Ok x) images texts ->
  forall (text : pystr) (t : list event),
    ocr_images images text t
    = (Ok (text ++ List.concat texts),
       t ++ repeat ImageToString (length images)).
Proof.
  induction 1 as [|img x images texts Hi _ IH]; intros text t; simpl.
  - now rewrite !app_nil_r.
  - rewrite Hi, IH, <- !app_assoc. reflexivity.
Qed.

(** When direct extraction gives nothing the result is that of the
    fallback, run after the events of the direct attempt. *)
Lemma input_pdf_text_fallback {libs : PdfLibs} (f : uploaded) (t : list event) :
  nothing_direct f ->
  input_pdf_text f t = ocr_fallback f (t ++ snd (direct_text f [])).
Proof.
  unfold nothing_direct, input_pdf_text. intros Hn.
  rewrite (direct_text_trace f t).
  destruct (direct_text f []) as [[text|e] t1]; cbn [fst snd] in *;
    [rewrite Hn|]; reflexivity.
Qed.

(** X5: when direct extraction raises or gives only whitespace, and the
    conversion to images and the recognition of every image succeed,
    [input_pdf_text] returns the recognized texts concatenated in image
    order; what the pages gave is dropped.  The file is read once and
    converted once, after the direct attempt. *)
Theorem input_pdf_text_ocr {libs : PdfLibs}
        (f : uploaded) (images : list image) (texts : list pystr)
        (t : list event) :
  nothing_direct f ->
  convert_from_bytes (file_read f) = Ok images ->
  Forall2 (fun img x => image_to_string img = Ok x) images texts ->
  input_pdf_text f t
  = (List.concat texts,
     t ++ snd (direct_text f [])
       ++ [FileRead; ConvertFromBytes]
       ++ repeat ImageToString (length images)).
Proof.
  intros Hn Hc Hi. rewrite (input_pdf_text_fallback f t Hn).
  unfold ocr_fallback. rewrite Hc, (ocr_images_ok images texts Hi).
  cbn [app]. rewrite <- !app_assoc. reflexivity.
Qed.

Lemma input_pdf_text_ocr_witness :
  input_pdf_text (libs := scanned_pdf) tt []
  = (List.concat [str "Jane "; str "Doe"],
     [] ++ snd (direct_text (libs := scanned_pdf) tt [])
        ++ [FileRead; ConvertFromBytes]
        ++ repeat ImageToString (length [str "Jane "; str "Doe"])).
Proof.
  apply (input_pdf_text_ocr (libs := scanned_pdf) tt
           [str "Jane "; str "Doe"] [str "Jane "; str "Doe"] []).
  - vm_compute. reflexivity.
  - reflexivity.
  - repeat constructor.
Defined.

(** X6: when direct extraction gives nothing and the conversion to images
    raises, [input_pdf_text] does not raise: it returns the text of the
    exception behind the OCR failure marker, as a string like any resume
    text. *)
Theorem input_pdf_text_ocr_error {libs : PdfLibs}
        (f : uploaded) (e : exn) (t : list event) :
  nothing_direct f ->
  convert_from_bytes (file_read f) = Raise e ->
  input_pdf_text f t
  = (ocr_error_marker ++ exn_str e,
     t ++ snd (direct_text f []) ++ [FileRead; ConvertFromBytes]).
Proof.
  intros Hn Hc. rewrite (input_pdf_text_fallback f t Hn).
  unfold ocr_fallback. rewrite Hc, <- !app_assoc. reflexivity.
Qed.

Lemma input_pdf_text_ocr_error_witness :
  input_pdf_text (libs := corrupt_pdf) tt []
  = (ocr_error_marker ++ exn_str (Exception (str "Unable to get page count.")),
     [] ++ snd (direct_text (libs := corrupt_pdf) tt [])
        ++ [FileRead; ConvertFromBytes]).
Proof.
  apply (input_pdf_text_ocr_error (libs := corrupt_pdf) tt
           (Exception (str "Unable to get page count.")) []).
  - exact I.
  - reflexivity.
Defined.

(** ** [safe_json_parse]: the span between braces and failure texts *)

Lemma greedy_to_rbrace_none (s : pystr) :
  forallb (fun c => negb (c =? ch "}")) s = true -> greedy_to_rbrace s = None.
Proof.
  induction s as [|c s IH]; [reflexivity|]. simpl.
  intros H. apply andb_true_iff in H as [Hc Hs].
  rewrite (IH Hs). apply negb_true_iff in Hc. now rewrite Hc.
Qed.

Lemma greedy_to_rbrace_complete (mid post : pystr) :
  forallb (fun c => negb (c =? ch "}")) post = true ->
  greedy_to_rbrace (mid ++ [ch "}"] ++ post) = Some (mid ++ [ch "}"]).
Proof.
  intros Hpost. induction mid as [|c mid IH]; simpl.
  - now rewrite (greedy_to_rbrace_none post Hpost).
  - simpl in IH. now rewrite IH.
Qed.

Lemma re_search_braces_none (s : pystr) :
  forallb (fun c => negb (c =? ch "{")) s = true -> re_search_braces s = None.
Proof.
  induction s as [|c s IH]; [reflexivity|]. simpl.
  intros H. apply andb_true_iff in H as [Hc Hs].
  apply negb_true_iff in Hc. rewrite Hc. auto.
Qed.

Lemma re_search_braces_complete (pre mid post : pystr) :
  forallb (fun c => negb (c =? ch "{")) pre = true ->
  forallb (fun c => negb (c =? ch "}")) post = true ->
  re_search_braces (pre ++ (ch "{" :: mid ++ [ch "}"]) ++ post)
  = Some (ch "{" :: mid ++ [ch "}"]).
Proof.
  intros Hpre Hpost. induction pre as [|c pre IH]; simpl.
  - rewrite <- app_assoc.
    now rewrite (greedy_to_rbrace_complete mid post Hpost).
  - simpl in Hpre. apply andb_true_iff in Hpre as [Hc Hpre].
    apply negb_true_iff in Hc. rewrite Hc. auto.
Qed.

(** X7: the span the pattern of [safe_json_parse] finds is the part of
    the text from its first opening brace to its last closing brace, when
    that closing brace comes after the opening one; there is no other
    match. *)
Theorem re_search_braces_first_to_last (s m : pystr) :
  re_search_braces s = Some m
  <-> exists pre mid post,
      s = pre ++ m ++ post
      /\ m = ch "{" :: mid ++ [ch "}"]
      /\ forallb (fun c => negb (c =? ch "{")) pre = true
      /\ forallb (fun c => negb (c =? ch "}")) post = true.
Proof.
  split.
  - intros H.
    destruct (re_search_braces_spec s m H)
      as (pre & post & Hs & Hhd & Hlast & Hpre & Hpost).
    destruct m as [|c m']; [vm_compute in Hhd; discriminate Hhd|].
    simpl in Hhd. subst c.
    destruct (exists_last (l := m')) as (mid & x & Hm').
    { intros ->. vm_compute in Hlast. discriminate Hlast. }
    subst m'. exists pre, mid, post.
    change (ch "{" :: mid ++ [x]) with ((ch "{" :: mid) ++ [x]) in Hlast.
    rewrite last_last in Hlast. subst x.
    repeat split; assumption.
  - intros (pre & mid & post & -> & -> & Hpre & Hpost).
    now apply re_search_braces_complete.
Qed.

Lemma json_loads_marker {rt : PyRuntime} (msg : pystr) :
  json_loads (error_marker ++ msg) = None.
Proof.
  unfold error_marker. cbn [app]. unfold json_loads.
  cbn [skip_ws json_ws N.eqb Pos.eqb orb]. rewrite Nat.add_1_r.
  reflexivity.
Qed.

(** X8: the string [get_gemini_response] returns after a failure is never
    JSON by itself, whatever the text of the exception.  When that text
    holds no opening brace, [safe_json_parse] turns the string into the
    error record "Invalid response format", with the whole failure string
    as raw text. *)
Theorem safe_json_parse_failure_marker {rt : PyRuntime} :
  (forall msg : pystr, json_loads (error_marker ++ msg) = None)
  /\ (forall msg : pystr,
         forallb (fun c => negb (c =? ch "{")) msg = true ->
         safe_json_parse (error_marker ++ msg)
         = error_dict "Invalid response format" (error_marker ++ msg)).
Proof.
  split; [apply json_loads_marker|].
  intros msg Hmsg.
  unfold safe_json_parse. rewrite json_loads_marker.
  rewrite re_search_braces_none; [reflexivity|].
  rewrite forallb_app, Hmsg. reflexivity.
Qed.

Lemma safe_json_parse_failure_marker_witness :
  json_loads (rt := plain_runtime) (error_marker ++ str "503 {unavailable}")
  = None
  /\ safe_json_parse (rt := plain_runtime)
       (error_marker ++ str "503 unavailable")
     = error_dict "Invalid response format"
                  (error_marker ++ str "503 unavailable").
Proof.
  split.
  - apply (proj1 (safe_json_parse_failure_marker (rt := plain_runtime))).
  - apply (proj2 (safe_json_parse_failure_marker (rt := plain_runtime))
             (str "503 unavailable")).
    reflexivity.
Defined.

(** ** [generate_pdf]: the story *)

Lemma split_nonempty (sep : N) (s : pystr) : split sep s <> [].
Proof.
  destruct s as [|c s]; simpl; [discriminate|].
  destruct (c =? sep); [discriminate|].
  destruct (split sep s); discriminate.
Qed.

(** Splitting a text cut at a separator gives the lines of both parts. *)
Lemma split_app (sep : N) (a b : pystr) :
  split sep (a ++ sep :: b) = split sep a ++ split sep b.
Proof.
  induction a as [|c a IH]; simpl.
  - now rewrite N.eqb_refl.
  - destruct (c =? sep); [now rewrite IH|].
    rewrite IH. pose proof (split_nonempty sep a) as Hne.
    destruct (split sep a) as [|l ls]; [contradiction | reflexivity].
Qed.

Lemma fold_add_line (lines : list pystr) (story : list flowable) :
  fold_left add_line lines story = story ++ fold_left add_line lines [].
Proof.
  revert story. induction lines as [|line lines IH]; intros story; simpl.
  - now rewrite app_nil_r.
  - rewrite (IH (add_line story line)), (IH (add_line [] line)).
    unfold add_line. destruct (strip line); [reflexivity|].
    now rewrite <- app_assoc.
Qed.

(** X9: the story of two texts joined by a line break is the story of
    the first followed by the story of the second: [generate_pdf] treats
    every line on its own. *)
Theorem make_story_app (a b : pystr) :
  make_story (a ++ nl ++ b) = make_story a ++ make_story b.
Proof.
  unfold make_story, nl. cbn [app].
  rewrite split_app, fold_left_app. apply fold_add_line.
Qed.

Lemma make_story_blocks (lines : list pystr) :
  fold_left add_line lines []
  = flat_map block
      (List.map strip (List.filter (fun l => negb (blank l)) lines)).
Proof.
  induction lines as [|line lines IH]; [reflexivity|]. simpl.
  rewrite fold_add_line, IH. unfold add_line, blank.
  destruct (strip line) as [|c l] eqn:Hs; simpl; [reflexivity|].
  rewrite Hs. reflexivity.
Qed.

Lemma story_loop_ok {rl : Reportlab} (lines : list pystr)
      (story story' : list flowable) :
  story_loop lines story = Ok story' ->
  forallb line_accepted lines = true
  /\ story' = fold_left add_line lines story.
Proof.
  intros H.
  destruct (forallb line_accepted lines) eqn:Hacc.
  - rewrite (story_loop_accepted lines story Hacc) in H.
    injection H as <-. split; reflexivity.
  - destruct (story_loop_refused lines story Hacc)
      as (? & ? & ? & e & _ & _ & _ & _ & Hr).
    rewrite Hr in H. discriminate H.
Qed.

(** The loop stops at the first line reportlab refuses. *)
Lemma story_loop_first_refused {rl : Reportlab} (pre : list pystr)
      (line : pystr) (post : list pystr) (e : exn) (story : list flowable) :
  forallb line_accepted pre = true ->
  blank line = false ->
  markup_error (strip line) = Some e ->
  story_loop (pre ++ line :: post) story = Raise e.
Proof.
  intros Hpre Hb He. revert story.
  induction pre as [|l pre IH]; intros story.
  - cbn [app story_loop]. unfold new_paragraph. unfold blank in Hb.
    destruct (strip line); [discriminate|]. now rewrite He.
  - simpl in Hpre. apply andb_true_iff in Hpre as [Hl Hpre].
    cbn [app story_loop]. unfold new_paragraph.
    unfold line_accepted, blank in Hl.
    destruct (strip l) as [|c r]; [now apply IH|].
    simpl in Hl. destruct (markup_error (c :: r)); [discriminate|].
    now apply IH.
Qed.

(** X10: a story is built exactly when reportlab accepts every line that
    is not blank.  The story [generate_pdf] then hands to the document
    holds nothing but, for every such line and in their order, a paragraph
    of the stripped line in the style "Normal" followed by a spacer of 1
    by 12; it has twice as many flowables as there are such lines, and
    none when every line is blank.  Otherwise [generate_pdf] ends in the
    exception of the first line reportlab refuses. *)
Theorem make_story_structure {rl : Reportlab} (text : pystr) :
  (forall story : list flowable,
      story_loop (split 10 text) [] = Ok story ->
      accepted text = true
      /\ story
         = flat_map block
             (List.map strip
                (List.filter (fun l => negb (blank l)) (split 10 text)))
      /\ length story
         = (2 * length (List.filter (fun l => negb (blank l))
                                    (split 10 text)))%nat
      /\ (forallb blank (split 10 text) = true -> story = []))
  /\ (accepted text = true ->
      story_loop (split 10 text) [] = Ok (make_story text))
  /\ (forall (pre : list pystr) (line : pystr) (post : list pystr) (e : exn),
         split 10 text = pre ++ line :: post ->
         forallb line_accepted pre = true ->
         blank line = false ->
         markup_error (strip line) = Some e ->
         generate_pdf text = Raise e).
Proof.
  split; [|split].
  - intros story H. apply story_loop_ok in H as [Hacc ->].
    split; [exact Hacc|]. rewrite make_story_blocks.
    split; [reflexivity|]. split.
    + induction (List.filter (fun l => negb (blank l)) (split 10 text))
        as [|l ls IH]; [reflexivity|].
      cbn [List.map flat_map block app length]. rewrite IH. lia.
    + intros Hall. clear Hacc.
      induction (split 10 text) as [|l ls IH]; [reflexivity|].
      simpl in Hall. apply andb_true_iff in Hall as [Hl Hls].
      simpl. rewrite Hl. simpl. auto.
  - intros Hacc. now apply story_loop_accepted.
  - intros pre line post e Hsplit Hpre Hb He. unfold generate_pdf.
    rewrite Hsplit, (story_loop_first_refused pre line post e [] Hpre Hb He).
    reflexivity.
Qed.

Lemma make_story_structure_witness :
  (accepted (rl := strict_renderer) (str "Jane <i>Doe</i>" ++ nl ++ str "  ") = true
   /\ [Paragraph (str "Jane <i>Doe</i>") "Normal"; Spacer 1 12]
      = flat_map block
          (List.map strip
             (List.filter (fun l => negb (blank l))
                (split 10 (str "Jane <i>Doe</i>" ++ nl ++ str "  "))))
   /\ 2%nat
      = (2 * length (List.filter (fun l => negb (blank l))
                       (split 10 (str "Jane <i>Doe</i>" ++ nl ++ str "  "))))%nat
   /\ (forallb blank (split 10 (str "Jane <i>Doe</i>" ++ nl ++ str "  ")) = true ->
       [Paragraph (str "Jane <i>Doe</i>") "Normal"; Spacer 1 12] = []))
  /\ story_loop (rl := strict_renderer)
       (split 10 (str "Jane Doe" ++ nl ++ str " ")) []
     = Ok (make_story (str "Jane Doe" ++ nl ++ str " "))
  /\ generate_pdf (rl := strict_renderer)
       (str "Jane Doe" ++ nl ++ str " <b>Engineer" ++ nl ++ str "<b>Rocq")
     = Raise (Exception (str "Parse error: saw </para> instead of expected </b>")).
Proof.
  split; [|split].
  - apply (proj1 (make_story_structure (rl := strict_renderer)
                    (str "Jane <i>Doe</i>" ++ nl ++ str "  "))
             [Paragraph (str "Jane <i>Doe</i>") "Normal"; Spacer 1 12]).
    reflexivity.
  - apply (proj1 (proj2 (make_story_structure (rl := strict_renderer)
                           (str "Jane Doe" ++ nl ++ str " ")))).
    reflexivity.
  - apply (proj2 (proj2 (make_story_structure (rl := strict_renderer)
             (str "Jane Doe" ++ nl ++ str " <b>Engineer" ++ nl ++ str "<b>Rocq")))
             [str "Jane Doe"] (str " <b>Engineer") [str "<b>Rocq"]);
      reflexivity.
Defined.

Lemma lstrip_head (s : pystr) (c : N) (r : pystr) :
  lstrip s = c :: r -> isspace c = false.
Proof.
  induction s as [|d s IH]; simpl; [discriminate|].
  destruct (isspace d) eqn:Hd; [exact IH|].
  intros H; injection H as <- _. exact Hd.
Qed.

Lemma lstrip_fixed (s : pystr) :
  match s with [] => True | c :: _ => isspace c = false end -> lstrip s = s.
Proof. destruct s as [|c s]; simpl; [reflexivity|]. now intros ->. Qed.

Lemma lstrip_idempotent (s : pystr) : lstrip (lstrip s) = lstrip s.
Proof.
  apply lstrip_fixed. destruct (lstrip s) as [|c r] eqn:Hs; [exact I|].
  exact (lstrip_head s c r Hs).
Qed.

(** What [strip] leaves has no whitespace at either end. *)
Lemma strip_idempotent (s : pystr) : strip (strip s) = strip s.
Proof.
  unfold strip at 2 3. unfold rstrip.
  set (y := lstrip s). set (z := lstrip (rev y)).
  assert (Hz : lstrip z = z) by apply lstrip_idempotent.
  assert (Hl : lstrip (rev z) = rev z).
  { apply lstrip_fixed.
    destruct (lstrip_split (rev y)) as (l & Hy & _). fold z in Hy.
    apply (f_equal (@rev N)) in Hy. rewrite rev_involutive, rev_app_distr in Hy.
    destruct (rev z) as [|c r] eqn:Hr; [exact I|].
    apply (lstrip_head s c (r ++ rev l)). exact Hy. }
  unfold strip, rstrip. rewrite Hl, rev_involutive, Hz. reflexivity.
Qed.

(** X11: no paragraph of the story is empty or keeps whitespace at its
    ends: [strip] leaves each paragraph text as it is. *)
Theorem paragraphs_stripped (text : pystr) :
  Forall (fun p => p <> [] /\ strip p = p) (paragraphs (make_story text)).
Proof.
  unfold make_story. rewrite paragraphs_fold. cbn [paragraphs flat_map app].
  apply List.Forall_forall. intros p Hin.
  apply List.in_map_iff in Hin as (l & <- & Hl).
  apply List.filter_In in Hl as [_ Hl]. unfold blank in Hl.
  split; [destruct (strip l); discriminate | apply strip_idempotent].
Qed.

(** ** The script: rejected requests and the optimization *)

Lemma with_default_stored (key : string) (s : gmap string pyval) :
  with_default key PyNone s !! key
  = Some (match s !! key with Some v => v | None => PyNone end).
Proof.
  unfold with_default. destruct (s !! key) as [v|] eqn:Hk; [exact Hk|].
  apply lookup_insert_eq.
Qed.

Lemma initial_session_resume_text (w : world) :
  initial_session (session_state w) !! "resume_text"
  = Some (stored "resume_text" w).
Proof.
  unfold initial_session, stored.
  rewrite with_default_lookup by discriminate. apply with_default_stored.
Qed.

Lemma initial_session_jd (w : world) :
  initial_session (session_state w) !! "jd" = Some (stored "jd" w).
Proof.
  unfold initial_session, stored. rewrite with_default_stored.
  now rewrite with_default_lookup by discriminate.
Qed.

(** The optimization part on a world whose defaults are set. *)
Lemma optimize_part_after_setup {rt : PyRuntime} {ai : GenAI} {rl : Reportlab}
      (clicked : click) (w : world) (t : list event) :
  optimize_part clicked
    {| session_state := initial_session (session_state w);
       cache_data := cache_data w; trace := t |}
  = (if truthy (stored "resume_text" w) && truthy (stored "jd" w)
     then match clicked with ClickOptimize => optimize | _ => mret tt end
     else mret tt)
      {| session_state := initial_session (session_state w);
         cache_data := cache_data w; trace := t |}.
Proof.
  unfold optimize_part, mbind, M_bind, session_get.
  cbn [session_state]. now rewrite initial_session_resume_text, initial_session_jd.
Qed.

(** X12: an evaluation request without a file, or with a job description
    that is blank, is turned down before any work: the run shows the
    warning and nothing else after the heading, calls neither the
    extraction nor the service, and stores nothing. *)
Theorem run_script_missing_input {rt : PyRuntime} {ai : GenAI}
        {libs : PdfLibs} {rl : Reportlab}
        (jd : pystr) (uploaded_file : option uploaded) (w : world) :
  uploaded_file = None \/ strip jd = [] ->
  run_script jd uploaded_file ClickEvaluate w
  = (Some tt,
     {| session_state := initial_session (session_state w);
        cache_data := cache_data w;
        trace := trace (after_setup w) ++ [St missing_input_warning] |}).
Proof.
  intros Hmiss. rewrite run_script_parts.
  assert (Hh : handler jd uploaded_file ClickEvaluate (after_setup w)
               = (Some tt,
                  {| session_state := initial_session (session_state w);
                     cache_data := cache_data w;
                     trace := trace (after_setup w)
                              ++ [St missing_input_warning] |})).
  { cbn [handler]. unfold evaluate.
    destruct uploaded_file as [f|]; [|reflexivity].
    destruct Hmiss as [H|H]; [discriminate|]. rewrite H. reflexivity. }
  unfold mbind, M_bind. rewrite Hh.
  rewrite optimize_part_after_setup.
  destruct (truthy (stored "resume_text" w) && truthy (stored "jd" w));
    reflexivity.
Qed.

Lemma run_script_missing_input_witness :
  run_script (rt := plain_runtime) (ai := service_down) (libs := two_pages)
    (rl := counting_renderer) (str "   ") (Some tt) ClickEvaluate empty_world
  = (Some tt,
     {| session_state := initial_session (session_state empty_world);
        cache_data := cache_data empty_world;
        trace := trace (after_setup empty_world)
                 ++ [St missing_input_warning] |}).
Proof.
  apply (run_script_missing_input (rt := plain_runtime) (ai := service_down)
           (libs := two_pages) (rl := counting_renderer)
           (str "   ") (Some tt) empty_world).
  right. reflexivity.
Defined.

(** X13: the optimization is not offered as long as one of the two stored
    values is missing or empty: such a run only shows the heading, whatever
    is clicked besides the evaluation, and calls no service. *)
Theorem run_script_nothing_to_optimize {rt : PyRuntime} {ai : GenAI}
        {libs : PdfLibs} {rl : Reportlab}
        (jd : pystr) (uploaded_file : option uploaded) (clicked : click)
        (w : world) :
  clicked <> ClickEvaluate ->
  truthy (stored "resume_text" w) && truthy (stored "jd" w) = false ->
  run_script jd uploaded_file clicked w = (Some tt, after_setup w).
Proof.
  intros Hc Hfalsy. rewrite run_script_parts.
  assert (Hh : handler jd uploaded_file clicked (after_setup w)
               = (Some tt, after_setup w))
    by (destruct clicked; [reflexivity | contradiction | reflexivity]).
  unfold mbind, M_bind. rewrite Hh. unfold after_setup at 1.
  rewrite optimize_part_after_setup, Hfalsy. reflexivity.
Qed.

Lemma run_script_nothing_to_optimize_witness :
  run_script (rt := plain_runtime) (ai := service_down) (libs := two_pages)
    (rl := counting_renderer) (str "Rocq engineer") (Some tt) ClickOptimize
    empty_world
  = (Some tt, after_setup empty_world).
Proof.
  apply (run_script_nothing_to_optimize (rt := plain_runtime)
           (ai := service_down) (libs := two_pages) (rl := counting_renderer)
           (str "Rocq engineer") (Some tt) ClickOptimize empty_world).
  - discriminate.
  - reflexivity.
Defined.

Lemma encodable_app (a b : pystr) :
  encodable (a ++ b) = encodable a && encodable b.
Proof. unfold encodable. apply forallb_app. Qed.

Lemma markdown_accepted (s : pystr) :
  st_accepts (StMarkdown (str "```" ++ nl ++ s ++ nl ++ str "```"))
  = encodable s.
Proof.
  cbn [st_accepts]. rewrite !encodable_app.
  change (encodable (str "```")) with true. change (encodable nl) with true.
  cbn [andb]. apply andb_true_r.
Qed.

Lemma download_text_accepted (s : pystr) :
  st_accepts (StDownloadText (11015 :: str " Download Optimized Resume (TXT)")
                             (PyStr s) "optimized_resume.txt")
  = encodable s.
Proof. reflexivity. Qed.

(** The optimization once the service has answered [s]. *)
Lemma optimize_answered {rt : PyRuntime} {ai : GenAI} {rl : Reportlab}
      (w : world) (s : pystr) :
  truthy (stored "resume_text" w) && truthy (stored "jd" w) = true ->
  answer (calls (trace (after_setup w)))
         (optimize_prompt (stored "resume_text" w) (stored "jd" w)) false
  = Ok s ->
  optimize_part ClickOptimize (after_setup w)
  = (show (StSubheader (9989 :: str " Optimized Resume Preview"));;
     show (StMarkdown (str "```" ++ nl ++ s ++ nl ++ str "```"));;
     show (StDownloadText (11015 :: str " Download Optimized Resume (TXT)")
                          (PyStr s) "optimized_resume.txt");;
     pdf_file ← of_result (generate_pdf s);
     show (StDownloadFile (11015 :: str " Download Optimized Resume (PDF)")
                          pdf_file "optimized_resume.pdf"))
      (extend (after_setup w)
              [Generate (optimize_prompt (stored "resume_text" w)
                                         (stored "jd" w)) false]).
Proof.
  intros Htruthy Hanswer.
  unfold after_setup at 1.
  rewrite optimize_part_after_setup, Htruthy.
  unfold optimize.
  unfold mbind at 1 2 3. unfold M_bind at 1 2 3. unfold session_get.
  cbn [session_state].
  rewrite initial_session_resume_text, initial_session_jd.
  unfold traced, optimize_resume. cbn [trace].
  fold (optimize_prompt (stored "resume_text" w) (stored "jd" w)).
  pose proof (get_gemini_response_answer
                (optimize_prompt (stored "resume_text" w) (stored "jd" w))
                false 3 (trace (after_setup w)) 0 s) as Hg.
  rewrite Nat.add_0_r in Hg.
  specialize (Hg ltac:(lia) ltac:(intros i Hi; lia) Hanswer).
  cbn [after_setup trace] in Hg. rewrite Hg.
  cbn [retried app fstring].
  unfold extend, after_setup. cbn [session_state cache_data trace].
  reflexivity.
Qed.

(** X14: the optimization works on the two stored values, not on what the
    page holds now.  When both are non-empty and the first attempt of the
    service answers [s], the run makes that one call, in plain mode and
    with the prompt built from the stored job description and resume text.
    For a text [s] Streamlit can encode it then shows the preview and the
    text download and, when [generate_pdf s] returns a document, the
    download of that document; when [generate_pdf s] raises, the run ends
    there in an exception nothing catches.  For a text it cannot encode
    the run ends in such an exception as well.  The session values stay
    as they were in every case. *)
Theorem run_script_optimize {rt : PyRuntime} {ai : GenAI}
        {libs : PdfLibs} {rl : Reportlab}
        (jd : pystr) (uploaded_file : option uploaded) (w : world) (s : pystr) :
  truthy (stored "resume_text" w) && truthy (stored "jd" w) = true ->
  answer (calls (trace (after_setup w)))
         (optimize_prompt (stored "resume_text" w) (stored "jd" w)) false
  = Ok s ->
  (forall pdf_file : BytesIO,
      encodable s = true ->
      generate_pdf s = Ok pdf_file ->
      run_script jd uploaded_file ClickOptimize w
      = (Some tt,
         {| session_state := initial_session (session_state w);
            cache_data := cache_data w;
            trace := trace (after_setup w)
                     ++ [Generate (optimize_prompt (stored "resume_text" w)
                                                   (stored "jd" w)) false]
                     ++ optimized_view s pdf_file |}))
  /\ (encodable s = true ->
      is_raise (generate_pdf s) = true ->
      run_script jd uploaded_file ClickOptimize w
      = (None,
         {| session_state := initial_session (session_state w);
            cache_data := cache_data w;
            trace := trace (after_setup w)
                     ++ [Generate (optimize_prompt (stored "resume_text" w)
                                                   (stored "jd" w)) false]
                     ++ optimized_text_view s |}))
  /\ (encodable s = false ->
      fst (run_script jd uploaded_file ClickOptimize w) = None
      /\ session_state (snd (run_script jd uploaded_file ClickOptimize w))
         = initial_session (session_state w)).
Proof.
  intros Htruthy Hanswer.
  assert (Hrun : run_script jd uploaded_file ClickOptimize w
                 = optimize_part ClickOptimize (after_setup w))
    by (rewrite run_script_parts; reflexivity).
  rewrite Hrun, (optimize_answered w s Htruthy Hanswer). clear Hrun.
  unfold mbind, M_bind.
  rewrite show_accepted by reflexivity.
  split; [|split].
  - intros pdf_file Henc Hpdf.
    rewrite show_accepted by now rewrite markdown_accepted.
    rewrite show_accepted by now rewrite download_text_accepted.
    rewrite Hpdf. cbn [of_result mret M_ret].
    rewrite show_accepted by reflexivity.
    unfold extend, optimized_view, optimized_text_view, after_setup.
    cbn [session_state cache_data trace].
    rewrite <- !app_assoc. reflexivity.
  - intros Henc Hpdf.
    rewrite show_accepted by now rewrite markdown_accepted.
    rewrite show_accepted by now rewrite download_text_accepted.
    destruct (generate_pdf s); [discriminate Hpdf|].
    cbn [of_result uncaught].
    unfold extend, optimized_text_view, after_setup.
    cbn [session_state cache_data trace].
    rewrite <- !app_assoc. reflexivity.
  - intros Henc.
    rewrite show_refused by now rewrite markdown_accepted.
    split; reflexivity.
Qed.

Lemma run_script_optimize_witness :
  run_script (rt := plain_runtime) (ai := echo_service) (libs := two_pages)
    (rl := counting_renderer) [] None ClickOptimize world_after_evaluation
  = (Some tt,
     {| session_state := initial_session (session_state world_after_evaluation);
        cache_data := cache_data world_after_evaluation;
        trace := trace (after_setup world_after_evaluation)
                 ++ [Generate (optimize_prompt (rt := plain_runtime)
                                 (stored "resume_text" world_after_evaluation)
                                 (stored "jd" world_after_evaluation)) false]
                 ++ optimized_view (str "Jane Doe" ++ nl ++ str "Engineer")
                      {| getvalue := [37; 37; 37; 37]; tell := 0 |} |}).
Proof.
  apply (proj1 (run_script_optimize (rt := plain_runtime) (ai := echo_service)
                  (libs := two_pages) (rl := counting_renderer)
                  [] None world_after_evaluation
                  (str "Jane Doe" ++ nl ++ str "Engineer")
                  ltac:(vm_compute; reflexivity) eq_refl)).
  - reflexivity.
  - reflexivity.
Defined.

(** ** The display of an evaluation *)

Lemma bind_fst {A B : Type} (m : M A) (k : A -> M B) (w : world) :
  fst ((m ≫= k) w)
  = match m w with
    | (Some a, w') => fst (k a w')
    | (None, _) => None
    end.
Proof.
  unfold mbind, M_bind. destruct (m w) as [[a|] w']; reflexivity.
Qed.

(** X15: when the parsed response is not a mapping (a JSON list, string,
    number, boolean or null), the display of the evaluation ends in an
    exception nothing catches: the membership test or the [get] method
    raises. *)
Theorem show_evaluation_not_a_dict {rt : PyRuntime}
        (parsed response : pyval) (w : world) :
  is_dict parsed = false ->
  fst (show_evaluation parsed response w) = None.
Proof.
  intros Hd.
  unfold show_evaluation. rewrite bind_fst.
  rewrite show_accepted by reflexivity. rewrite bind_fst.
  destruct parsed as [| b | z | n | s | l | d]; try discriminate Hd;
    cbn [contains or_raise uncaught mret M_ret]; try reflexivity.
  - destruct (is_infix (str "error") s).
    + rewrite bind_fst, show_accepted by reflexivity. reflexivity.
    + rewrite bind_fst.
      destruct (show_match (PyStr s) _) as [[[]|] w1]; [|reflexivity].
      reflexivity.
  - match goal with
    | |- context [if ?b then _ else _] => destruct b
    end.
    + rewrite bind_fst, show_accepted by reflexivity. reflexivity.
    + rewrite bind_fst.
      destruct (show_match (PyList l) _) as [[[]|] w1]; [|reflexivity].
      reflexivity.
Qed.

Lemma show_evaluation_not_a_dict_witness :
  fst (show_evaluation (rt := plain_runtime)
         (PyList [PyInt 1; PyInt 2]) (PyStr (str "[1, 2]")) empty_world)
  = None.
Proof.
  apply (show_evaluation_not_a_dict (rt := plain_runtime)
           (PyList [PyInt 1; PyInt 2]) (PyStr (str "[1, 2]")) empty_world).
  reflexivity.
Defined.

Lemma contains_error_record (msg raw : pystr) :
  contains (PyDict [(str "error", PyStr msg); (str "raw", PyStr raw)]) "error"
  = Some true.
Proof. reflexivity. Qed.

Lemma get_raw_error_record (msg raw : pystr) (default : pyval) :
  get (PyDict [(str "error", PyStr msg); (str "raw", PyStr raw)]) "raw" default
  = Some (PyStr raw).
Proof. reflexivity. Qed.

(** X16: a response that parses neither directly nor through the span
    between braces is shown as it is.  When Streamlit can encode the
    text, the display is the heading, the warning and the whole response
    text, and it ends normally; a text with a lone surrogate makes
    [st.text] raise after the warning. *)
Theorem show_evaluation_unparsed {rt : PyRuntime}
        (response : pystr) (w : world) :
  json_loads response = None ->
  (forall span, re_search_braces response = Some span ->
                json_loads span = None) ->
  (encodable response = true ->
   show_evaluation (safe_json_parse response) (PyStr response) w
   = (Some tt, extend w (raw_view (PyStr response))))
  /\ (encodable response = false ->
      show_evaluation (safe_json_parse response) (PyStr response) w
      = (None, extend w raw_heading)).
Proof.
  intros Hdirect Hspan.
  assert (Hrecord : exists msg,
             safe_json_parse response
             = PyDict [(str "error", PyStr msg); (str "raw", PyStr response)]).
  { unfold safe_json_parse. rewrite Hdirect.
    destruct (re_search_braces response) as [span|] eqn:Hre.
    - rewrite (Hspan span eq_refl). eauto.
    - eauto. }
  destruct Hrecord as (msg & ->).
  unfold show_evaluation, mbind, M_bind, extend, raw_view, raw_heading.
  rewrite show_accepted by reflexivity.
  rewrite contains_error_record. cbn [or_raise mret M_ret].
  rewrite show_accepted by reflexivity.
  rewrite get_raw_error_record. cbn [or_raise mret M_ret].
  cbn [trace session_state cache_data].
  split; intros Henc.
  - rewrite show_accepted by exact Henc.
    cbn [trace session_state cache_data].
    rewrite <- !app_assoc. reflexivity.
  - rewrite show_refused by exact Henc.
    rewrite <- !app_assoc. reflexivity.
Qed.

Lemma show_evaluation_unparsed_witness :
  show_evaluation (rt := plain_runtime)
    (safe_json_parse (rt := plain_runtime)
       (error_marker ++ str "503 unavailable"))
    (PyStr (error_marker ++ str "503 unavailable")) empty_world
  = (Some tt,
     extend empty_world
            (raw_view (PyStr (error_marker ++ str "503 unavailable"))))
  /\ show_evaluation (rt := plain_runtime)
       (safe_json_parse (rt := plain_runtime) (str "Sorry " ++ [55357]))
       (PyStr (str "Sorry " ++ [55357])) empty_world
     = (None, extend empty_world raw_heading).
Proof.
  split.
  - apply (proj1 (show_evaluation_unparsed (rt := plain_runtime)
                    (error_marker ++ str "503 unavailable") empty_world
                    (json_loads_marker _)
                    ltac:(intros span H; vm_compute in H; discriminate H))).
    reflexivity.
  - apply (proj2 (show_evaluation_unparsed (rt := plain_runtime)
                    (str "Sorry " ++ [55357]) empty_world
                    ltac:(vm_compute; reflexivity)
                    ltac:(intros span H; vm_compute in H; discriminate H))).
    reflexivity.
Defined.

(** For a record the [try] block around the match percentage always
    ends normally: what it cannot show is replaced by the record. *)
Lemma show_match_record {rt : PyRuntime} (d : list (pystr * pyval))
      (w : world) :
  fst (show_match (PyDict d) w) = Some tt.
Proof.
  unfold show_match, try_except.
  match goal with
  | |- fst (match ?x with _ => _ end) = _ => destruct x as [[[]|] w1]
  end; [reflexivity|].
  now rewrite show_accepted.
Qed.

Lemma show_summary_record {rt : PyRuntime} (d : list (pystr * pyval))
      (w : world) :
  fst (show_summary (PyDict d) w)
  = if summary_showable d then Some tt else None.
Proof.
  unfold show_summary, summary_showable. rewrite bind_fst.
  cbn [get or_raise mret M_ret].
  destruct (dict_get d (str "Profile Summary")) as [v|].
  - destruct (truthy v); [|reflexivity]. cbn [negb orb].
    rewrite bind_fst, show_accepted by reflexivity.
    unfold show. cbn [st_accepts].
    destruct (encodable_value v); reflexivity.
  - reflexivity.
Qed.

Lemma show_keywords_record {rt : PyRuntime} (d : list (pystr * pyval))
      (w : world) :
  fst (show_keywords (PyDict d) w)
  = if keywords_listable d then Some tt else None.
Proof.
  unfold show_keywords, keywords_listable. rewrite bind_fst.
  cbn [get or_raise mret M_ret].
  destruct (dict_get d (str "MissingKeywords")) as [v|]; [|reflexivity].
  destruct (truthy v); [|reflexivity]. cbn [negb orb].
  rewrite bind_fst, show_accepted by reflexivity. rewrite bind_fst.
  destruct (iterate v) as [items|]; [|reflexivity].
  cbn [or_raise mret M_ret]. unfold show. cbn [st_accepts].
  fold (keywords_line items).
  destruct (encodable (keywords_line items)); reflexivity.
Qed.

(** The line of keywords that are encodable strings is encodable. *)
Lemma keywords_line_encodable {rt : PyRuntime} (kws : list pystr) :
  forallb encodable kws = true ->
  encodable (keywords_line (List.map PyStr kws)) = true.
Proof.
  unfold keywords_line.
  induction kws as [|kw kws IH]; [reflexivity|].
  intros H. simpl in H. apply andb_true_iff in H as [Hkw Hkws].
  specialize (IH Hkws).
  assert (Hitem : encodable ([96] ++ fstring (PyStr kw) ++ [96]) = true).
  { rewrite !encodable_app. cbn [fstring]. rewrite Hkw. reflexivity. }
  destruct kws as [|kw' kws]; [exact Hitem|].
  cbn [List.map join] in IH |- *.
  rewrite encodable_app, Hitem.
  rewrite encodable_app. exact IH.
Qed.

(** X17: the display of a parsed response that is a mapping.  With an
    "error" key it ends normally exactly when Streamlit can encode the raw
    text it shows.  Without one the match percentage never ends it: it
    ends normally exactly when its "MissingKeywords" can be listed (the
    value is absent, falsy, or iterable with a line of items Streamlit can
    encode; a number other than zero or [true] there raises) and its
    "Profile Summary" can be shown (absent, falsy or encodable; a summary
    with a lone surrogate raises).  That is the case for a record as the
    prompt asks for, with a list of keywords and a summary that are
    encodable strings. *)
Theorem show_evaluation_record {rt : PyRuntime}
        (d : list (pystr * pyval)) (response : pyval) (w : world) :
  (dict_get d (str "error") <> None ->
   (fst (show_evaluation (PyDict d) response w) = Some tt
    <-> encodable_value (raw_of d response) = true))
  /\ (dict_get d (str "error") = None ->
      (fst (show_evaluation (PyDict d) response w) = Some tt
       <-> keywords_listable d = true /\ summary_showable d = true))
  /\ (forall (kws : list pystr) (summary : pystr),
         dict_get d (str "error") = None ->
         dict_get d (str "MissingKeywords") = Some (PyList (List.map PyStr kws)) ->
         forallb encodable kws = true ->
         dict_get d (str "Profile Summary") = Some (PyStr summary) ->
         encodable summary = true ->
         fst (show_evaluation (PyDict d) response w) = Some tt).
Proof.
  assert (Hno : dict_get d (str "error") = None ->
                (fst (show_evaluation (PyDict d) response w) = Some tt
                 <-> keywords_listable d = true /\ summary_showable d = true)).
  { intros He. unfold show_evaluation. rewrite bind_fst.
    rewrite show_accepted by reflexivity. rewrite bind_fst.
    cbn [contains or_raise mret M_ret]. rewrite He. rewrite bind_fst.
    match goal with
    | |- context [show_match (PyDict d) ?w1] =>
        pose proof (show_match_record d w1) as Hm;
        destruct (show_match (PyDict d) w1) as [[[]|] w2]
    end; [|discriminate Hm].
    rewrite bind_fst.
    match goal with
    | |- context [show_keywords (PyDict d) ?w1] =>
        pose proof (show_keywords_record d w1) as Hk;
        destruct (show_keywords (PyDict d) w1) as [[[]|] w3]
    end; cbn [fst] in Hk.
    - rewrite show_summary_record.
      destruct (keywords_listable d); [|discriminate Hk].
      destruct (summary_showable d); split; try tauto; try discriminate.
      intros [_ H]; discriminate H.
    - destruct (keywords_listable d); [discriminate Hk|].
      split; [discriminate | intros [H _]; discriminate H]. }
  split; [|split; [exact Hno|]].
  - intros He. unfold show_evaluation. rewrite bind_fst.
    rewrite show_accepted by reflexivity. rewrite bind_fst.
    cbn [contains or_raise mret M_ret].
    destruct (dict_get d (str "error")) as [v|]; [|contradiction].
    rewrite bind_fst, show_accepted by reflexivity. rewrite bind_fst.
    cbn [get or_raise mret M_ret]. fold (raw_of d response).
    unfold show. cbn [st_accepts].
    destruct (encodable_value (raw_of d response)); split;
      try reflexivity; discriminate.
  - intros kws summary He Hk Hkws Hs Hsum. apply (Hno He).
    unfold keywords_listable, summary_showable. rewrite Hk, Hs.
    cbn [iterate encodable_value].
    rewrite (keywords_line_encodable kws Hkws), Hsum, !orb_true_r.
    split; reflexivity.
Qed.

Lemma show_evaluation_record_witness :
  (fst (show_evaluation (rt := plain_runtime)
          (PyDict [(str "error", PyStr (str "Failed to parse JSON"));
                   (str "raw", PyStr [55357])])
          PyNone empty_world) = Some tt
   <-> encodable_value
         (raw_of [(str "error", PyStr (str "Failed to parse JSON"));
                  (str "raw", PyStr [55357])] PyNone) = true)
  /\ (fst (show_evaluation (rt := plain_runtime)
             (PyDict [(str "JD Match", PyStr (str "70%"));
                      (str "Profile Summary", PyStr [55357])])
             PyNone empty_world) = Some tt
      <-> keywords_listable (rt := plain_runtime)
            [(str "JD Match", PyStr (str "70%"));
             (str "Profile Summary", PyStr [55357])] = true
          /\ summary_showable (rt := plain_runtime)
               [(str "JD Match", PyStr (str "70%"));
                (str "Profile Summary", PyStr [55357])] = true)
  /\ fst (show_evaluation (rt := plain_runtime)
            (record_with_match (str "70%")) PyNone empty_world) = Some tt.
Proof.
  split; [|split].
  - apply (proj1 (show_evaluation_record (rt := plain_runtime)
                    [(str "error", PyStr (str "Failed to parse JSON"));
                     (str "raw", PyStr [55357])] PyNone empty_world)).
    discriminate.
  - apply (proj1 (proj2 (show_evaluation_record (rt := plain_runtime)
                           [(str "JD Match", PyStr (str "70%"));
                            (str "Profile Summary", PyStr [55357])]
                           PyNone empty_world))).
    reflexivity.
  - apply (proj2 (proj2 (show_evaluation_record (rt := plain_runtime)
                           [(str "JD Match", PyStr (str "70%"));
                            (str "MissingKeywords", PyList []);
                            (str "Profile Summary", PyStr (str "X"))]
                           PyNone empty_world)) [] (str "X"));
      reflexivity.
Defined.

(** ** The match percentage: digits between padding *)

Lemma digit_cases (c : N) :
  is_digit c = true ->
  c = 48 \/ c = 49 \/ c = 50 \/ c = 51 \/ c = 52 \/ c = 53 \/ c = 54
  \/ c = 55 \/ c = 56 \/ c = 57.
Proof.
  unfold is_digit. intros H. apply andb_true_iff in H as [H1 H2].
  apply N.leb_le in H1, H2. lia.
Qed.

Ltac by_digit c H :=
  destruct (digit_cases c H)
    as [->|[->|[->|[->|[->|[->|[->|[->|[->| ->]]]]]]]]]; reflexivity.

Lemma digit_not_space (c : N) : is_digit c = true -> isspace c = false.
Proof. intros H. by_digit c H. Qed.

Lemma digit_not_percent (c : N) :
  is_digit c = true -> negb (c =? ch "%") = true.
Proof. intros H. by_digit c H. Qed.

Lemma digit_not_int_space (c : N) : is_digit c = true -> int_space c = false.
Proof. intros H. by_digit c H. Qed.

Lemma digit_not_sign (c : N) :
  is_digit c = true -> (c =? ch "+") = false /\ (c =? ch "-") = false.
Proof. intros H. split; by_digit c H. Qed.

Lemma digit_int_digit {rt : PyRuntime} (c : N) :
  is_digit c = true -> int_digit c = Some (Z.of_N (c - 48)).
Proof.
  intros H. unfold int_digit. rewrite H.
  replace (c <? 128) with true; [reflexivity|].
  symmetry. by_digit c H.
Qed.

Lemma int_digits_all {rt : PyRuntime} (ds : pystr) :
  forallb is_digit ds = true ->
  forall (acc : Z) (count : N),
    int_digits acc count ds
    = Some (fold_left (fun a c => (a * 10 + Z.of_N (c - 48))%Z) ds acc,
            count + N.of_nat (length ds), []).
Proof.
  induction ds as [|c ds IH]; intros Hall acc count.
  - cbn [int_digits fold_left length N.of_nat]. now rewrite N.add_0_r.
  - simpl in Hall. apply andb_true_iff in Hall as [Hc Hds].
    cbn [int_digits fold_left]. rewrite (digit_int_digit c Hc).
    rewrite (IH Hds). do 3 f_equal. cbn [length]. lia.
Qed.

(** [int] of a run of digits is their decimal value, as long as the run
    is within the limit of the conversion. *)
Lemma py_int_digits {rt : PyRuntime} (ds : pystr) :
  ds <> [] -> forallb is_digit ds = true ->
  py_int ds
  = if int_max_str_digits <? N.of_nat (length ds) then None
    else Some (decimal ds).
Proof.
  intros Hne Hall. destruct ds as [|c ds]; [contradiction|].
  simpl in Hall. apply andb_true_iff in Hall as [Hc Hds].
  unfold py_int. cbn [skip_int_space].
  rewrite (digit_not_int_space c Hc).
  destruct (digit_not_sign c Hc) as [-> ->].
  rewrite (digit_int_digit c Hc), (int_digits_all ds Hds).
  replace (1 + N.of_nat (length ds)) with (N.of_nat (length (c :: ds)))
    by (cbn [length]; lia).
  destruct (int_max_str_digits <? N.of_nat (length (c :: ds)));
    [reflexivity|].
  cbn [skip_int_space]. unfold decimal. cbn [fold_left].
  reflexivity.
Qed.

Lemma strip_digits (ds : pystr) :
  forallb is_digit ds = true -> strip ds = ds.
Proof.
  intros Hall.
  assert (Hfix : forall l : pystr, forallb is_digit l = true -> lstrip l = l).
  { intros l Hl. apply lstrip_fixed. destruct l as [|c l]; [exact I|].
    simpl in Hl. apply andb_true_iff in Hl as [Hc _].
    now apply digit_not_space. }
  unfold strip, rstrip. rewrite (Hfix ds Hall).
  rewrite Hfix by now rewrite forallb_rev_eq.
  apply rev_involutive.
Qed.

Lemma remove_char_padding (l : pystr) :
  padding l = true -> forallb isspace (remove_char (ch "%") l) = true.
Proof.
  unfold padding. induction l as [|c l IH]; [reflexivity|]. simpl.
  intros H. apply andb_true_iff in H as [Hc Hl].
  destruct (c =? ch "%"); simpl; [auto|].
  rewrite orb_false_r in Hc. rewrite Hc. auto.
Qed.

(** X18: whitespace and percent signs before and after a run of digits
    do not count: the match text reads as the decimal value of the
    digits, as long as there are no more digits than [int] converts (4300);
    with more digits it reads as nothing, whatever the value. *)
Theorem normalize_match_digits {rt : PyRuntime} (l ds r : pystr) :
  padding l = true -> padding r = true ->
  ds <> [] -> forallb is_digit ds = true ->
  (N.of_nat (length ds) <= int_max_str_digits ->
   normalize_match (l ++ ds ++ r) = Some (decimal ds)
   /\ match_value (record_with_match (l ++ ds ++ r)) = Some (decimal ds))
  /\ (int_max_str_digits < N.of_nat (length ds) ->
      normalize_match (l ++ ds ++ r) = None
      /\ match_value (record_with_match (l ++ ds ++ r)) = None).
Proof.
  intros Hl Hr Hne Hds.
  assert (Hn : normalize_match (l ++ ds ++ r)
               = if int_max_str_digits <? N.of_nat (length ds) then None
                 else Some (decimal ds)).
  { unfold normalize_match. rewrite !remove_char_app.
    rewrite (remove_char_none ds).
    - rewrite strip_padded by now apply remove_char_padding.
      rewrite (strip_digits ds Hds). now apply py_int_digits.
    - clear -Hds. induction ds as [|c ds IH]; [reflexivity|].
      simpl in Hds |- *. apply andb_true_iff in Hds as [Hc Hds].
      rewrite (digit_not_percent c Hc). auto. }
  change (match_value (record_with_match (l ++ ds ++ r)))
    with (normalize_match (l ++ ds ++ r)).
  rewrite Hn. split; intros Hlen.
  - apply N.ltb_ge in Hlen. rewrite Hlen. split; reflexivity.
  - apply N.ltb_lt in Hlen. rewrite Hlen. split; reflexivity.
Qed.

Lemma normalize_match_digits_witness :
  (normalize_match (rt := plain_runtime) (str " " ++ str "83" ++ str " %")
   = Some (decimal (str "83"))
   /\ match_value (rt := plain_runtime)
        (record_with_match (str " " ++ str "83" ++ str " %"))
      = Some (decimal (str "83")))
  /\ (normalize_match (rt := plain_runtime)
        (str " " ++ repeat 57 4301 ++ str "%") = None
      /\ match_value (rt := plain_runtime)
           (record_with_match (str " " ++ repeat 57 4301 ++ str "%")) = None).
Proof.
  split.
  - apply (proj1 (normalize_match_digits (rt := plain_runtime)
                    (str " ") (str "83") (str " %")
                    eq_refl eq_refl ltac:(discriminate) eq_refl)).
    vm_compute. discriminate.
  - apply (proj2 (normalize_match_digits (rt := plain_runtime)
                    (str " ") (repeat 57 4301) (str "%")
                    eq_refl eq_refl ltac:(discriminate)
                    ltac:(vm_compute; reflexivity))).
    vm_compute. reflexivity.
Defined.

(** ** The evaluation handler as a whole *)

Lemma calls_extract_pages {libs : PdfLibs} (pages : list page) :
  forall text : pystr, calls (snd (extract_pages pages text [])) = 0%nat.
Proof.
  induction pages as [|p ps IH]; intros text; [reflexivity|]. simpl.
  destruct (extract_text p) as [x|e]; [|reflexivity].
  rewrite (extract_pages_trace ps _ ([] ++ [ExtractText])). cbn [snd].
  rewrite calls_app, IH. reflexivity.
Qed.

Lemma calls_ocr_images {libs : PdfLibs} (images : list image) :
  forall text : pystr, calls (snd (ocr_images images text [])) = 0%nat.
Proof.
  induction images as [|i imgs IH]; intros text; [reflexivity|]. simpl.
  destruct (image_to_string i) as [x|e]; [|reflexivity].
  rewrite (ocr_images_trace imgs _ ([] ++ [ImageToString])). cbn [snd].
  rewrite calls_app, IH. reflexivity.
Qed.

Lemma calls_ocr_fallback {libs : PdfLibs} (f : uploaded) :
  calls (snd (ocr_fallback f [])) = 0%nat.
Proof.
  unfold ocr_fallback.
  destruct (convert_from_bytes (file_read f)) as [images|e]; [|reflexivity].
  rewrite (ocr_images_trace images [] (([] ++ [FileRead]) ++ [ConvertFromBytes])).
  pose proof (calls_ocr_images images []) as Hc.
  destruct (ocr_images images [] []) as [[text|e] t2]; cbn [fst snd] in *;
    rewrite calls_app, Hc; reflexivity.
Qed.

(** The extraction never calls the generation service. *)
Lemma calls_input_pdf_text {libs : PdfLibs} (f : uploaded) :
  calls (snd (input_pdf_text f [])) = 0%nat.
Proof.
  unfold input_pdf_text.
  rewrite (direct_text_trace f []).
  assert (Hd : calls (snd (direct_text f [])) = 0%nat).
  { unfold direct_text. destruct (PdfReader f) as [pages|e]; [|reflexivity].
    rewrite (extract_pages_trace pages [] ([] ++ [PdfReaderCall])). cbn [snd].
    rewrite calls_app, calls_extract_pages. reflexivity. }
  destruct (direct_text f []) as [[text|e] t1]; cbn [fst snd app] in *.
  - destruct (strip text); [|exact Hd].
    rewrite ocr_fallback_trace. cbn [snd].
    now rewrite calls_app, Hd, calls_ocr_fallback.
  - rewrite ocr_fallback_trace. cbn [snd].
    now rewrite calls_app, Hd, calls_ocr_fallback.
Qed.

Lemma calls_extraction_events {libs : PdfLibs} (f : uploaded)
      (memo : gmap N pystr) :
  calls (extraction_events f memo) = 0%nat.
Proof.
  unfold extraction_events.
  destruct (memo !! cache_key f); [reflexivity | apply calls_input_pdf_text].
Qed.

(** X19: an evaluation request with a file and a job description that is
    not blank, whose first service attempt answers [raw]: the file is
    extracted, or its text taken from the memo without any extraction
    event; both session values and the memo are set; one call is made, in
    JSON mode, with the evaluation template filled with the resume text
    and the job description; and what is shown is the display of
    [safe_json_parse raw]. *)
Theorem evaluate_answered {rt : PyRuntime} {ai : GenAI} {libs : PdfLibs}
        (jd : pystr) (f : uploaded) (w : world) (raw : pystr) :
  strip jd <> [] ->
  answer (calls (trace w))
         (format_input_prompt (resume_text_of f (cache_data w)) jd) true
  = Ok raw ->
  evaluate jd (Some f) w
  = show_evaluation (safe_json_parse raw) (PyStr raw)
      {| session_state :=
           <["jd" := PyStr jd]>
             (<["resume_text" := PyStr (resume_text_of f (cache_data w))]>
                (session_state w));
         cache_data :=
           <[cache_key f := resume_text_of f (cache_data w)]> (cache_data w);
         trace :=
           trace w ++ extraction_events f (cache_data w)
             ++ [Generate (format_input_prompt
                             (resume_text_of f (cache_data w)) jd) true] |}.
Proof.
  intros Hjd Hanswer. unfold evaluate.
  destruct (strip jd) as [|c s]; [contradiction|].
  pose proof (calls_extraction_events f (cache_data w)) as Hcalls.
  assert (Hg : get_gemini_response
                 (format_input_prompt (resume_text_of f (cache_data w)) jd)
                 true 3 (trace w ++ extraction_events f (cache_data w))
               = (PyStr raw,
                  trace w ++ extraction_events f (cache_data w)
                    ++ [Generate (format_input_prompt
                                    (resume_text_of f (cache_data w)) jd)
                                 true])).
  { pose proof (get_gemini_response_answer
                  (format_input_prompt (resume_text_of f (cache_data w)) jd)
                  true 3 (trace w ++ extraction_events f (cache_data w))
                  0 raw) as Hs.
    rewrite calls_app, Hcalls, !Nat.add_0_r in Hs.
    specialize (Hs ltac:(lia) ltac:(intros i Hi; lia) Hanswer).
    rewrite Hs. cbn [retried app]. now rewrite <- app_assoc. }
  unfold mbind, M_bind, cached_input_pdf_text.
  unfold resume_text_of, extraction_events in *.
  destruct (cache_data w !! cache_key f) as [text|] eqn:Hmemo.
  - unfold traced. cbn [session_set session_state cache_data trace].
    rewrite app_nil_r in Hg. cbn [app] in Hg. rewrite Hg.
    cbn [or_raise mret M_ret app]. rewrite (insert_id _ _ _ Hmemo).
    reflexivity.
  - rewrite (input_pdf_text_trace f (trace w)).
    unfold traced. cbn [session_set session_state cache_data trace].
    rewrite Hg. cbn [or_raise mret M_ret]. reflexivity.
Qed.

Lemma evaluate_answered_witness :
  evaluate (rt := plain_runtime) (ai := json_service) (libs := two_pages)
    (str "Rocq engineer") (Some tt) empty_world
  = show_evaluation (rt := plain_runtime)
      (safe_json_parse (rt := plain_runtime)
         (jstr "{'JD Match':'85%','MissingKeywords':['Go'],'Profile Summary':'Solid'}"))
      (PyStr (jstr "{'JD Match':'85%','MissingKeywords':['Go'],'Profile Summary':'Solid'}"))
      {| session_state :=
           <["jd" := PyStr (str "Rocq engineer")]>
             (<["resume_text" :=
                  PyStr (resume_text_of (libs := two_pages) tt
                           (cache_data empty_world))]>
                (session_state empty_world));
         cache_data :=
           <[cache_key (PdfLibs := two_pages) tt :=
               resume_text_of (libs := two_pages) tt (cache_data empty_world)]>
             (cache_data empty_world);
         trace :=
           trace empty_world
             ++ extraction_events (libs := two_pages) tt
                  (cache_data empty_world)
             ++ [Generate (format_input_prompt
                             (resume_text_of (libs := two_pages) tt
                                (cache_data empty_world))
                             (str "Rocq engineer")) true] |}.
Proof.
  apply (evaluate_answered (rt := plain_runtime) (ai := json_service)
           (libs := two_pages) (str "Rocq engineer") tt empty_world
           (jstr "{'JD Match':'85%','MissingKeywords':['Go'],'Profile Summary':'Solid'}")).
  - vm_compute. discriminate.
  - reflexivity.
Defined.

(** ** The service calls of a run *)

Lemma calls_at_most_le {A : Type} (n n' : nat) (m : M A) :
  (n <= n')%nat -> calls_at_most n m -> calls_at_most n' m.
Proof.
  intros Hle Hm w. destruct (Hm w) as (es & Ht & Hc).
  exists es. split; [exact Ht | lia].
Qed.

Lemma calls_ret {A : Type} (a : A) : calls_at_most 0 (mret a : M A).
Proof. intros w. exists []. now rewrite app_nil_r. Qed.

Lemma calls_uncaught {A : Type} : calls_at_most 0 (@uncaught A).
Proof. intros w. exists []. now rewrite app_nil_r. Qed.

Lemma calls_or_raise {A : Type} (o : option A) : calls_at_most 0 (or_raise o).
Proof. destruct o; [apply calls_ret | apply calls_uncaught]. Qed.

Lemma calls_show (e : element) : calls_at_most 0 (show e).
Proof.
  intros w. unfold show. destruct (st_accepts e).
  - exists [St e]. split; [reflexivity | cbn; lia].
  - exists []. now rewrite app_nil_r.
Qed.

Lemma calls_of_result {A : Type} (r : result A) :
  calls_at_most 0 (of_result r).
Proof. destruct r; [apply calls_ret | apply calls_uncaught]. Qed.

Lemma calls_try_except {A : Type} (body handler : M A) :
  calls_at_most 0 body -> calls_at_most 0 handler ->
  calls_at_most 0 (try_except body handler).
Proof.
  intros Hb Hh w. unfold try_except.
  destruct (Hb w) as (es & Ht & Hc).
  destruct (body w) as [[x|] w1]; cbn [snd] in *.
  - exists es. split; assumption.
  - destruct (Hh w1) as (es' & Ht' & Hc').
    exists (es ++ es'). rewrite Ht', Ht, <- app_assoc, calls_app.
    split; [reflexivity | lia].
Qed.

Lemma calls_session_get (key : string) : calls_at_most 0 (session_get key).
Proof. intros w. exists []. now rewrite app_nil_r. Qed.

Lemma calls_session_set (key : string) (value : pyval) :
  calls_at_most 0 (session_set key value).
Proof. intros w. exists []. cbn. now rewrite app_nil_r. Qed.

Lemma calls_setdefault (key : string) (value : pyval) :
  calls_at_most 0 (setdefault key value).
Proof.
  intros w. exists []. rewrite setdefault_state. cbn. now rewrite app_nil_r.
Qed.

Lemma calls_bind {A B : Type} (a b : nat) (m : M A) (k : A -> M B) :
  calls_at_most a m -> (forall x, calls_at_most b (k x)) ->
  calls_at_most (a + b) (m ≫= k).
Proof.
  intros Hm Hk w. unfold mbind, M_bind.
  destruct (Hm w) as (es & Ht & Hc).
  destruct (m w) as [[x|] w1]; cbn [snd] in *.
  - destruct (Hk x w1) as (es' & Ht' & Hc').
    exists (es ++ es'). rewrite Ht', Ht, <- app_assoc, calls_app.
    split; [reflexivity | lia].
  - exists es. split; [exact Ht | lia].
Qed.

Lemma calls_bind_0 {A B : Type} (m : M A) (k : A -> M B) :
  calls_at_most 0 m -> (forall x, calls_at_most 0 (k x)) ->
  calls_at_most 0 (m ≫= k).
Proof. intros Hm Hk. exact (calls_bind 0 0 m k Hm Hk). Qed.

Lemma calls_if {A : Type} (n : nat) (b : bool) (m1 m2 : M A) :
  calls_at_most n m1 -> calls_at_most n m2 ->
  calls_at_most n (if b then m1 else m2).
Proof. destruct b; auto. Qed.

Create HintDb calls.
#[export] Hint Resolve calls_ret calls_uncaught calls_or_raise calls_show
  calls_of_result calls_try_except calls_session_get calls_session_set
  calls_setdefault calls_bind_0 calls_if : calls.

Lemma calls_get_gemini_response {ai : GenAI} (prompt : pystr)
      (json_mode : bool) :
  calls_at_most 3 (traced (get_gemini_response prompt json_mode 3)).
Proof.
  intros w. unfold traced.
  destruct (get_gemini_response_events prompt json_mode 3 (trace w))
    as (j & Ht & Hj).
  destruct (get_gemini_response prompt json_mode 3 (trace w)) as [v t'].
  cbn [snd trace] in *. exists (failed_attempts j prompt json_mode).
  split; [exact Ht|].
  rewrite (proj1 (failed_attempts_counts j prompt json_mode)). lia.
Qed.

Lemma calls_cached_input_pdf_text {libs : PdfLibs} (f : uploaded) :
  calls_at_most 0 (cached_input_pdf_text f).
Proof.
  intros w. unfold cached_input_pdf_text.
  destruct (cache_data w !! cache_key f).
  - exists []. cbn. now rewrite app_nil_r.
  - rewrite (input_pdf_text_trace f (trace w)). cbn [snd trace].
    exists (snd (input_pdf_text f [])).
    split; [reflexivity | rewrite calls_input_pdf_text; lia].
Qed.

Lemma calls_show_evaluation {rt : PyRuntime} (parsed response : pyval) :
  calls_at_most 0 (show_evaluation parsed response).
Proof.
  unfold show_evaluation, show_match, show_keywords, show_summary.
  auto 12 with calls.
Qed.

Lemma calls_evaluate {rt : PyRuntime} {ai : GenAI} {libs : PdfLibs}
      (jd : pystr) (uploaded_file : option uploaded) :
  calls_at_most 3 (evaluate jd uploaded_file).
Proof.
  unfold evaluate.
  destruct uploaded_file as [f|];
    [|apply (calls_at_most_le 0); [lia | apply calls_show]].
  destruct (strip jd);
    [apply (calls_at_most_le 0); [lia | apply calls_show]|].
  apply (calls_bind 0 3); [apply calls_cached_input_pdf_text|]. intros text.
  apply (calls_bind 0 3); [apply calls_session_set|]. intros _.
  apply (calls_bind 0 3); [apply calls_session_set|]. intros _.
  apply (calls_bind 3 0); [apply calls_get_gemini_response|]. intros response.
  apply calls_bind_0; [apply calls_or_raise|]. intros raw.
  apply calls_show_evaluation.
Qed.

Lemma calls_optimize {rt : PyRuntime} {ai : GenAI} {rl : Reportlab} :
  calls_at_most 3 optimize.
Proof.
  unfold optimize.
  apply (calls_bind 0 3); [apply calls_session_get|]. intros resume_text.
  apply (calls_bind 0 3); [apply calls_session_get|]. intros jd.
  apply (calls_bind 3 0); [apply calls_get_gemini_response|]. intros optimized.
  auto 10 with calls.
Qed.

(** X20: a run of the script never makes more than three calls of the
    generation service, whatever the service answers and whatever is shown
    or fails, and a run in which no button was clicked makes none. *)
Theorem run_script_calls {rt : PyRuntime} {ai : GenAI} {libs : PdfLibs}
        {rl : Reportlab} (jd : pystr) (uploaded_file : option uploaded)
        (clicked : click) :
  calls_at_most (match clicked with NoClick => 0 | _ => 3 end)
                (run_script jd uploaded_file clicked).
Proof.
  unfold run_script.
  assert (Htail : forall n,
             (match clicked with ClickOptimize => 3 | _ => 0 end <= n)%nat ->
             calls_at_most n
               (resume_text ← session_get "resume_text";
                saved_jd ← session_get "jd";
                if truthy resume_text && truthy saved_jd
                then match clicked with
                     | ClickOptimize => optimize
                     | _ => mret tt
                     end
                else mret tt)).
  { intros n Hn. eapply calls_at_most_le; [exact Hn|].
    apply (calls_bind 0); [apply calls_session_get|]. intros r.
    apply (calls_bind 0); [apply calls_session_get|]. intros j.
    destruct clicked; cbn [Nat.add].
    - auto with calls.
    - auto with calls.
    - apply calls_if; [apply calls_optimize|].
      apply (calls_at_most_le 0); [lia | apply calls_ret]. }
  apply (calls_bind 0); [apply calls_show|]. intros _.
  apply (calls_bind 0); [apply calls_show|]. intros _.
  apply (calls_bind 0); [apply calls_setdefault|]. intros _.
  apply (calls_bind 0); [apply calls_setdefault|]. intros _.
  cbn [Nat.add].
  destruct clicked.
  - apply (calls_bind 0 0); [apply calls_ret|]. intros _. apply Htail. lia.
  - apply (calls_bind 3 0); [apply calls_evaluate|]. intros _. apply Htail. lia.
  - apply (calls_bind 0 3); [apply calls_ret|]. intros _. apply Htail. lia.
Qed.
